(** * Prompt-driven PDF editor: the edit proposer's fallback and the edit applicator

    A shallow embedding of [utils.py], [gemini_client.py] and
    [pdf_processor.py].  Python text is a [string] whose characters stand for
    code points below 256 ([str.lower], [str.isspace] and the [\s] class of
    [re] are written out for that range); the PDF library, the JSON parser,
    the model and the file system are explicit oracles and explicit state. *)

From Stdlib Require Import String Ascii List ZArith NArith Bool Lia.
From Stdlib Require Import Floats.PrimFloat.
From stdpp Require Import base option list gmap strings.
Import ListNotations.

Set Warnings "-register-all".

Local Open Scope string_scope.
Local Open Scope list_scope.

(** ** Python [str] operations *)

Module PyStr.

(** [c.lower()] for one code point: A-Z and the Latin-1 capitals
    (U+00C0..U+00DE without the multiplication sign) move up by 32. *)
Definition lower_char (c : ascii) : ascii :=
  let n := N_of_ascii c in
  if ((65 <=? n) && (n <=? 90))%N then ascii_of_N (n + 32)
  else if ((192 <=? n) && (n <=? 222) && negb (n =? 215))%N then ascii_of_N (n + 32)
  else c.

(** [s.lower()] *)
Fixpoint lower (s : string) : string :=
  match s with
  | EmptyString => EmptyString
  | String c s' => String (lower_char c) (lower s')
  end.

(** [c.isspace()]: TAB..CR, FS..US, SPACE, NEL and NBSP. *)
Definition isspace (c : ascii) : bool :=
  let n := N_of_ascii c in
  (((9 <=? n) && (n <=? 13)) || ((28 <=? n) && (n <=? 32))
   || (n =? 133) || (n =? 160))%N.

Definition is_empty (s : string) : bool :=
  match s with EmptyString => true | String _ _ => false end.

Fixpoint lstrip (s : string) : string :=
  match s with
  | EmptyString => EmptyString
  | String c s' => if isspace c then lstrip s' else s
  end.

Fixpoint rstrip (s : string) : string :=
  match s with
  | EmptyString => EmptyString
  | String c s' =>
      let r := rstrip s' in
      if isspace c && is_empty r then EmptyString else String c r
  end.

(** [s.strip()] *)
Definition strip (s : string) : string := rstrip (lstrip s).

(** [s.startswith(p)] *)
Fixpoint startswith (s p : string) {struct p} : bool :=
  match p with
  | EmptyString => true
  | String a p' =>
      match s with
      | EmptyString => false
      | String b s' => Ascii.eqb a b && startswith s' p'
      end
  end.

(** [s[n:]] *)
Fixpoint slice_from (n : nat) (s : string) : string :=
  match n, s with
  | O, _ => s
  | S _, EmptyString => EmptyString
  | S k, String _ s' => slice_from k s'
  end.

(** [s[:n]] *)
Fixpoint slice_to (n : nat) (s : string) : string :=
  match n, s with
  | O, _ => EmptyString
  | S _, EmptyString => EmptyString
  | S k, String c s' => String c (slice_to k s')
  end.

(** [s[:-n]] for a positive [n] *)
Definition slice_to_neg (n : nat) (s : string) : string :=
  slice_to (String.length s - n) s.

(** [s.endswith(p)] *)
Definition endswith (s p : string) : bool :=
  (String.length p <=? String.length s)%nat
  && String.eqb (slice_from (String.length s - String.length p) s) p.

(** [needle in hay] *)
Fixpoint contains (needle hay : string) : bool :=
  startswith hay needle
  || match hay with
     | EmptyString => false
     | String _ hay' => contains needle hay'
     end.

(** [s.replace("", new)]: [new] before every character and at the end. *)
Fixpoint interleave (new s : string) : string :=
  match s with
  | EmptyString => EmptyString
  | String c s' => String c (new +:+ interleave new s')
  end.

(** [s.replace(old, new)] for a non-empty [old]: scan from the left, and
    after a match skip the rest of the matched occurrence. *)
Fixpoint replace_from (old new : string) (skip : nat) (s : string) : string :=
  match s with
  | EmptyString => EmptyString
  | String c s' =>
      match skip with
      | S k => replace_from old new k s'
      | O =>
          if startswith s old
          then new +:+ replace_from old new (String.length old - 1) s'
          else String c (replace_from old new 0 s')
      end
  end.

(** [s.replace(old, new)] *)
Definition replace (old new s : string) : string :=
  if is_empty old then new +:+ interleave new s
  else replace_from old new 0 s.

End PyStr.

(** ** The fragment of [re] used by the fallback heuristic

    A pattern is the sequence of operations [sre_parse] produces: single
    character matchers, greedy [+] repeats of a single character matcher, and
    the opening and closing of a capture group.  Matching backtracks in the
    order of the [re] engine: a greedy repeat first takes as many characters
    as it can and gives them back one at a time. *)

Module Re.

Inductive atom :=
| Literal (c : ascii)            (* the character itself *)
| ClassIn (cs : list ascii)      (* [...] *)
| ClassNotIn (cs : list ascii)   (* [^...] *)
| Space.                         (* \s *)

Inductive node :=
| One (a : atom)
| OneOrMore (a : atom)           (* a+ *)
| GroupOpen
| GroupClose.

Definition mem (c : ascii) (cs : list ascii) : bool :=
  existsb (Ascii.eqb c) cs.

Definition atom_matches (a : atom) (c : ascii) : bool :=
  match a with
  | Literal d => Ascii.eqb d c
  | ClassIn cs => mem c cs
  | ClassNotIn cs => negb (mem c cs)
  | Space => PyStr.isspace c
  end.

(** Captures so far: the closed groups in order, and the text consumed by
    the group that is open. *)
Record captures := { closed : list string; opened : option string }.

Definition consume (c : ascii) (st : captures) : captures :=
  {| closed := closed st;
     opened := match opened st with
               | Some acc => Some (acc +:+ String c EmptyString)
               | None => None
               end |}.

Definition open_group (st : captures) : captures :=
  {| closed := closed st; opened := Some EmptyString |}.

Definition close_group (st : captures) : captures :=
  {| closed := closed st ++ [default EmptyString (opened st)]; opened := None |}.

(** The rest of a greedy repeat after its first character. *)
Fixpoint repeat_greedy (a : atom) (k : string -> captures -> option (list string))
    (s : string) (st : captures) : option (list string) :=
  match s with
  | String c s' =>
      if atom_matches a c then
        match repeat_greedy a k s' (consume c st) with
        | Some r => Some r
        | None => k s st
        end
      else k s st
  | EmptyString => k s st
  end.

(** A match of the whole pattern that starts exactly here. *)
Fixpoint match_here (pat : list node) (s : string) (st : captures)
    : option (list string) :=
  match pat with
  | [] => Some (closed st)
  | One a :: rest =>
      match s with
      | String c s' =>
          if atom_matches a c then match_here rest s' (consume c st) else None
      | EmptyString => None
      end
  | OneOrMore a :: rest =>
      match s with
      | String c s' =>
          if atom_matches a c
          then repeat_greedy a (match_here rest) s' (consume c st)
          else None
      | EmptyString => None
      end
  | GroupOpen :: rest => match_here rest s (open_group st)
  | GroupClose :: rest => match_here rest s (close_group st)
  end.

(** [re.search(pat, s)]: the match at the leftmost position that has one;
    the result is the list of its groups. *)
Fixpoint search (pat : list node) (s : string) : option (list string) :=
  match match_here pat s {| closed := []; opened := None |} with
  | Some m => Some m
  | None =>
      match s with
      | EmptyString => None
      | String _ s' => search pat s'
      end
  end.

Definition literal (s : string) : list node :=
  map (fun c => One (Literal c)) (list_ascii_of_string s).

End Re.

(** ** Python values, exceptions, and results *)

Module Py.

Inductive exn :=
| KeyError (key : string)
| IndexError
| TypeError
| AttributeError
| JSONDecodeError
| OSError
| LibraryError (code : nat)       (* raised inside an external library *)
| Exception_ (msg : string).      (* [raise Exception(msg)] *)

Inductive res (A : Type) :=
| Ok (a : A)
| Raise (e : exn).
Arguments Ok {A} a.
Arguments Raise {A} e.

#[export] Instance res_ret : MRet res := fun A a => Ok a.
#[export] Instance res_bind : MBind res := fun A B f c =>
  match c with
  | Ok a => f a
  | Raise e => Raise e
  end.

(** What [json.loads] can return, which is also what an edit can be. *)
Inductive value :=
| VNone
| VBool (b : bool)
| VInt (z : Z)
| VFloat (f : float)
| VStr (s : string)
| VList (l : list value)
| VDict (d : gmap string value).

(** A dict display [{k1: v1, ...}]: later keys overwrite earlier ones. *)
Definition dict (kvs : list (string * value)) : value :=
  VDict (foldl (fun m kv => <[kv.1 := kv.2]> m) ∅ kvs).

(** [v[key]] for a string key. *)
Definition getitem (v : value) (key : string) : res value :=
  match v with
  | VDict d =>
      match d !! key with
      | Some x => Ok x
      | None => Raise (KeyError key)
      end
  | _ => Raise TypeError
  end.

(** [v == s] for a string literal [s]. *)
Definition eq_str (v : value) (s : string) : bool :=
  match v with
  | VStr t => String.eqb t s
  | _ => false
  end.

(** [v in text] for a [str] text: the left operand must be a [str]. *)
Definition in_str (v : value) (text : string) : res bool :=
  match v with
  | VStr s => Ok (PyStr.contains s text)
  | _ => Raise TypeError
  end.

(** [v.lower()]: only [str] has the method among these values. *)
Definition lower (v : value) : res string :=
  match v with
  | VStr s => Ok (PyStr.lower s)
  | _ => Raise AttributeError
  end.

(** [text.replace(old, new)]: both arguments must be [str]. *)
Definition str_replace (text : string) (old new : value) : res string :=
  match old, new with
  | VStr o, VStr n => Ok (PyStr.replace o n text)
  | _, _ => Raise TypeError
  end.

(** [m.group(i)] for [i >= 1]. *)
Definition group (m : list string) (i : nat) : res string :=
  match m !! (i - 1)%nat with
  | Some g => Ok g
  | None => Raise IndexError
  end.

End Py.
Import Py.

(** ** utils.py *)

Module Utils.

(** [r"change\s+['\"]([^'\"]+)['\"]\s+to\s+['\"]([^'\"]+)['\"]"] *)
Definition quotes : list ascii := ["'"%char; "034"%char].
Definition CHANGE_PATTERN : list Re.node :=
  Re.literal "change"
  ++ [Re.OneOrMore Re.Space; Re.One (Re.ClassIn quotes);
      Re.GroupOpen; Re.OneOrMore (Re.ClassNotIn quotes); Re.GroupClose;
      Re.One (Re.ClassIn quotes); Re.OneOrMore Re.Space]
  ++ Re.literal "to"
  ++ [Re.OneOrMore Re.Space; Re.One (Re.ClassIn quotes);
      Re.GroupOpen; Re.OneOrMore (Re.ClassNotIn quotes); Re.GroupClose;
      Re.One (Re.ClassIn quotes)].

Definition financial_terms : list string :=
  ["financial"; "money"; "cost"; "budget"; "revenue"; "profit";
   "investment"; "price"; "fee"].

Definition replace_edit (old_text new_text : string) : value :=
  dict [("type", VStr "replace");
        ("original_text", VStr old_text);
        ("new_text", VStr new_text);
        ("context", VStr ("Found in text: " +:+ old_text))].

Definition highlight_edit (term : string) : value :=
  dict [("type", VStr "highlight");
        ("text_to_highlight", VStr term);
        ("context", VStr ("Found financial term: " +:+ term));
        ("reason", VStr "Contains financial content")].

(** The [for term in financial_terms: ... break] loop. *)
Fixpoint scan_terms (terms : list string) (original_text : string) : list value :=
  match terms with
  | [] => []
  | term :: rest =>
      if PyStr.contains term (PyStr.lower original_text)
      then [highlight_edit term]
      else scan_terms rest original_text
  end.

Definition fallback_replacements (original_text modification_query : string)
    : res (list value) :=
  if PyStr.contains "change" (PyStr.lower modification_query)
     && PyStr.contains "to" (PyStr.lower modification_query)
  then
    match Re.search CHANGE_PATTERN (PyStr.lower modification_query) with
    | Some m =>
        old_text ← group m 1;
        new_text ← group m 2;
        if PyStr.contains old_text original_text
        then mret [replace_edit old_text new_text]
        else mret []
    | None => mret []
    end
  else mret [].

Definition fallback_highlights (original_text modification_query : string)
    : list value :=
  if PyStr.contains "highlight" (PyStr.lower modification_query)
  then scan_terms financial_terms original_text
  else [].

Definition create_fallback_modification (original_text modification_query : string)
    : res value :=
  replacements ← fallback_replacements original_text modification_query;
  let modifications :=
    replacements ++ fallback_highlights original_text modification_query in
  mret (dict [("modifications", VList modifications);
              ("summary", VStr ("Fallback modification created for: "
                                +:+ modification_query))]).

End Utils.

(** ** The world outside the program

    The PDF library, the operating system and the user interface are not part
    of the repository.  Every call to them is recorded in a log, and an
    oracle decides from the log so far whether a call raises.  Files are a
    finite map from paths to contents. *)

Module World.

Definition bbox : Type := float * float * float * float.

(** A colour is what the source has: the integer of a span, or a triple. *)
Inductive color :=
| ColorInt (c : Z)
| ColorRGB (r g b : Z).

Inductive call :=
| FitzOpen                                  (* fitz.open() *)
| FitzOpenStream (pdf_bytes : string)       (* fitz.open(stream=..., filetype="pdf") *)
| PageCount                                 (* len(doc) *)
| LoadPage (page_num : nat)                 (* doc[page_num] *)
| PageRect (page_num : nat)                 (* page.rect *)
| GetText (page_num : nat)                  (* page.get_text("dict") *)
| NewPage (width height : float)            (* doc.new_page(width=, height=) *)
| InsertText (point : float * float) (text : string)
             (fontsize : float) (col : option color)  (* page.insert_text *)
| AddHighlightAnnot (b : bbox)              (* page.add_highlight_annot *)
| SetColors (stroke : color)                (* highlight.set_colors({"stroke": ...}) *)
| AnnotUpdate                               (* highlight.update() *)
| MakeRect (b : bbox)                       (* fitz.Rect(bbox) *)
| DrawRect (b : bbox) (col : color) (width : float)   (* page.draw_rect, no fill *)
| Save (path : string)                      (* doc.save *)
| Close                                     (* doc.close *)
| NamedTemporaryFile (suffix : string)      (* tempfile.NamedTemporaryFile(delete=False, ...) *)
| OpenRead (path : string)                  (* open(path, 'rb').read() *)
| Unlink (path : string)                    (* os.unlink *)
| GenerateContent (prompt : string)         (* model.generate_content(prompt) *)
| ResponseText.                             (* response.text *)

Inductive event :=
| Called (c : call) (raised : option exn)
| StError (message : string) (e : exn)      (* st.error(f"message{str(e)}") *)
| StWarning (message : string) (arg : value) (* st.warning(f"message{arg}") *)
| StSubheader (message : string)
| StText (message : string).

Record world := { log : list event; files : gmap string string }.

Definition record (ev : event) (w : world) : world :=
  {| log := log w ++ [ev]; files := files w |}.

Definition set_files (fs : gmap string string) (w : world) : world :=
  {| log := log w; files := fs |}.

(** A document as [page.get_text("dict")] presents it. *)
Record fitz_span := {
  span_text : string; span_bbox : bbox; span_size : float;
  span_font : string; span_color : Z }.
Record fitz_line := { spans : list fitz_span }.
(** A block without the key ["lines"] is an image block. *)
Record fitz_block := { lines : option (list fitz_line) }.
Record fitz_page := {
  rect_width : float; rect_height : float; blocks : list fitz_block }.

(** The collaborators. *)
Record env := {
  raises : list event -> call -> option exn;
  (** the bytes [doc.save] writes for the document the logged calls built *)
  serialize : list event -> string;
  (** the name [tempfile] picks *)
  mktemp : gmap string string -> string;
  (** the document [fitz.open] reads from the bytes *)
  parse_pdf : string -> list fitz_page;
  (** the text of the model's response to a prompt *)
  response_text : string -> string;
  (** [json.loads] *)
  json_loads : string -> res value }.

(** Computations: they change the world and return or raise; what was done
    before an exception stays done. *)
Definition M (A : Type) : Type := world -> res A * world.

#[export] Instance M_ret : MRet M := fun A a w => (Ok a, w).
#[export] Instance M_bind : MBind M := fun A B f c w =>
  match c w with
  | (Ok a, w') => f a w'
  | (Raise e, w') => (Raise e, w')
  end.

Definition raise {A} (e : exn) : M A := fun w => (Raise e, w).

Definition lift {A} (r : res A) : M A := fun w => (r, w).

(** [try: c  except Exception as e: h e] *)
Definition try_except {A} (c : M A) (h : exn -> M A) : M A := fun w =>
  match c w with
  | (Ok a, w') => (Ok a, w')
  | (Raise e, w') => h e w'
  end.

Definition emit (ev : event) : M unit := fun w => (Ok tt, record ev w).

(** [for x in l: f x] *)
Fixpoint for_each {A} (l : list A) (f : A -> M unit) : M unit :=
  match l with
  | [] => mret tt
  | x :: rest => f x ;; for_each rest f
  end.

Section WithEnv.
Variable E : env.

Definition call_lib (c : call) : M unit := fun w =>
  match raises E (log w) c with
  | Some e => (Raise e, record (Called c (Some e)) w)
  | None => (Ok tt, record (Called c None) w)
  end.

(** [doc.save(path)] writes the file. *)
Definition doc_save (path : string) : M unit := fun w =>
  match call_lib (Save path) w with
  | (Ok _, w') => (Ok tt, set_files (<[path := serialize E (log w)]> (files w')) w')
  | (Raise e, w') => (Raise e, w')
  end.

(** [with tempfile.NamedTemporaryFile(delete=False, suffix=s) as f: f.name]:
    the file is created empty and stays. *)
Definition named_temporary_file (suffix : string) : M string := fun w =>
  match call_lib (NamedTemporaryFile suffix) w with
  | (Ok _, w') =>
      let temp_path := mktemp E (files w') in
      (Ok temp_path, set_files (<[temp_path := EmptyString]> (files w')) w')
  | (Raise e, w') => (Raise e, w')
  end.

(** [with open(path, 'rb') as f: f.read()] *)
Definition read_file (path : string) : M string := fun w =>
  match call_lib (OpenRead path) w with
  | (Ok _, w') =>
      match files w' !! path with
      | Some content => (Ok content, w')
      | None => (Raise OSError, w')
      end
  | (Raise e, w') => (Raise e, w')
  end.

(** [os.unlink(path)] *)
Definition os_unlink (path : string) : M unit := fun w =>
  match call_lib (Unlink path) w with
  | (Ok _, w') =>
      match files w' !! path with
      | Some _ => (Ok tt, set_files (delete path (files w')) w')
      | None => (Raise OSError, w')
      end
  | (Raise e, w') => (Raise e, w')
  end.

End WithEnv.

(** A library that never raises. *)
Definition reliable (E : env) : Prop := forall h c, raises E h c = None.

End World.
Import World.

(** ** config.py *)

Module Config.
Definition DEFAULT_FONT_SIZE : float := 12%float.
Definition DEFAULT_HIGHLIGHT_COLOR : color := ColorRGB 1 1 0.
Definition DEFAULT_TEXT_COLOR : color := ColorRGB 0 0 0.
End Config.
Import Config.

(** ** pdf_processor.py *)

Module PdfProcessor.

(** One entry of ["text_blocks"]. *)
Record text_block := {
  text : string; bbox_of : bbox; size : float; font : string; color_of : color }.

(** One entry of [pages_data]. *)
Record page_data := {
  page_num : nat; page_width : float; page_height : float;
  text_blocks : list text_block }.

(** *** extract_pdf_data *)

(** The innermost loop body: what one [span] appends to [text_blocks]. *)
Definition extract_span (span : fitz_span) : list text_block :=
  if negb (PyStr.is_empty (PyStr.strip (span_text span)))
  then [{| text := span_text span;
           bbox_of := span_bbox span;
           size := span_size span;
           font := span_font span;
           color_of := if negb (span_color span =? 0)%Z
                       then ColorInt (span_color span)
                       else DEFAULT_TEXT_COLOR |}]
  else [].

Definition extract_block (block : fitz_block) : list text_block :=
  match lines block with
  | Some ls => flat_map (fun line => flat_map extract_span (spans line)) ls
  | None => []
  end.

Definition extract_page (page_num : nat) (page : fitz_page) : page_data :=
  {| page_num := page_num;
     page_width := rect_width page;
     page_height := rect_height page;
     text_blocks := flat_map extract_block (blocks page) |}.

Section WithEnv.
Variable E : env.

(** The body of the loop over the pages: the page is loaded, its rectangle
    and its text are asked for, and each of the three calls may raise. *)
Definition read_page (doc : list fitz_page) (page_num : nat) : M page_data :=
  call_lib E (LoadPage page_num) ;;
  page ← lift (match doc !! page_num with
               | Some page => Ok page
               | None => Raise IndexError
               end);
  call_lib E (PageRect page_num) ;;
  call_lib E (GetText page_num) ;;
  mret (extract_page page_num page).

(** [for page_num in range(len(doc)): ...; pages_data.append(...)] *)
Fixpoint extract_pages (doc : list fitz_page) (page_nums : list nat)
    : M (list page_data) :=
  match page_nums with
  | [] => mret []
  | page_num :: rest =>
      page ← read_page doc page_num;
      pages_data ← extract_pages doc rest;
      mret (page :: pages_data)
  end.

(** [pdf_bytes] is what [pdf_file.read()] returned; the rewinding of the
    upload is not part of the model.  [st.error] and the other interface
    calls are logged and never raise. *)
Definition extract_pdf_data (pdf_bytes : string) : M (list page_data) :=
  try_except
    (call_lib E (FitzOpenStream pdf_bytes) ;;
     let doc := parse_pdf E pdf_bytes in
     call_lib E PageCount ;;
     pages_data ← extract_pages doc (seq 0 (length doc));
     call_lib E Close ;;
     mret pages_data)
    (fun e => emit (StError "Error extracting PDF data: " e) ;; mret []).

(** *** apply_modifications_to_pdf *)

(** One round of the loop over the modifications for one span. *)
Definition replace_step (original_text modified_text : string) (mod_ : value)
    : res string :=
  ty ← getitem mod_ "type";
  if eq_str ty "replace" then
    old ← getitem mod_ "original_text";
    found ← in_str old original_text;
    if (found : bool) then
      old' ← getitem mod_ "original_text";
      new ← getitem mod_ "new_text";
      str_replace modified_text old' new
    else mret modified_text
  else mret modified_text.

Fixpoint apply_replacements (modifications : list value)
    (original_text modified_text : string) : res string :=
  match modifications with
  | [] => mret modified_text
  | mod_ :: rest =>
      modified_text' ← replace_step original_text modified_text mod_;
      apply_replacements rest original_text modified_text'
  end.

Definition primary_draw (block : text_block) (modified_text : string) : call :=
  let '(x0, y0, _, _) := bbox_of block in
  InsertText (x0, (y0 + size block)%float) modified_text (size block)
             (Some (color_of block)).

Definition fallback_draw (block : text_block) (modified_text : string) : call :=
  let '(x0, y0, _, _) := bbox_of block in
  InsertText (x0, (y0 + DEFAULT_FONT_SIZE)%float) modified_text
             DEFAULT_FONT_SIZE None.

Definition insert_text (debug_mode : bool) (block : text_block)
    (modified_text : string) : M unit :=
  try_except
    (call_lib E (primary_draw block modified_text))
    (fun _ =>
       try_except
         (call_lib E (fallback_draw block modified_text))
         (fun _ =>
            if debug_mode
            then emit (StWarning "Could not insert text: "
                         (VStr (PyStr.slice_to 50 modified_text +:+ "...")))
            else mret tt)).

Definition draw_block (debug_mode : bool) (modifications : list value)
    (block : text_block) : M unit :=
  let original_text := text block in
  modified_text ← lift (apply_replacements modifications original_text original_text);
  if negb (PyStr.is_empty (PyStr.strip modified_text))
  then insert_text debug_mode block modified_text
  else mret tt.

(** The highlight of one span: the annotation, or else the rectangle. *)
Definition mark (debug_mode : bool) (mod_ : value) (b : bbox) : M unit :=
  try_except
    (call_lib E (AddHighlightAnnot b) ;;
     call_lib E (SetColors DEFAULT_HIGHLIGHT_COLOR) ;;
     call_lib E AnnotUpdate)
    (fun _ =>
       try_except
         (call_lib E (MakeRect b) ;;
          call_lib E (DrawRect b DEFAULT_HIGHLIGHT_COLOR 2%float))
         (fun _ =>
            if debug_mode
            then target ← lift (getitem mod_ "text_to_highlight");
                 emit (StWarning "Could not highlight: " target)
            else mret tt)).

Definition highlight_block (debug_mode : bool) (mod_ : value)
    (block : text_block) : M unit :=
  target ← lift (getitem mod_ "text_to_highlight");
  needle ← lift (Py.lower target);
  if PyStr.contains needle (PyStr.lower (text block))
  then mark debug_mode mod_ (bbox_of block)
  else mret tt.

Definition highlight_mod (debug_mode : bool) (blocks : list text_block)
    (mod_ : value) : M unit :=
  ty ← lift (getitem mod_ "type");
  if eq_str ty "highlight"
  then for_each blocks (highlight_block debug_mode mod_)
  else mret tt.

(** The body of the loop over the pages, after the page is created. *)
Definition fill_page (debug_mode : bool) (modifications : list value)
    (page : page_data) : M unit :=
  for_each (text_blocks page) (draw_block debug_mode modifications) ;;
  for_each modifications (highlight_mod debug_mode (text_blocks page)).

Definition render_page (debug_mode : bool) (modifications : list value)
    (page : page_data) : M unit :=
  call_lib E (NewPage (page_width page) (page_height page)) ;;
  fill_page debug_mode modifications page.

Definition apply_modifications_to_pdf (pages_data : list page_data)
    (modifications : list value) (output_path : string) (debug_mode : bool)
    : M bool :=
  try_except
    (call_lib E FitzOpen ;;
     for_each pages_data (render_page debug_mode modifications) ;;
     doc_save E output_path ;;
     call_lib E Close ;;
     mret true)
    (fun e =>
       emit (StError "Error applying modifications: " e) ;;
       (if debug_mode then emit (StError "Debug info: " e) else mret tt) ;;
       mret false).

(** *** generate_modified_pdf *)

Definition generate_modified_pdf (pages_data : list page_data)
    (modifications : list value) (debug_mode : bool) : M string :=
  try_except
    (temp_path ← named_temporary_file E ".pdf";
     success ← apply_modifications_to_pdf pages_data modifications temp_path debug_mode;
     (if negb success
      then raise (Exception_ "Failed to apply modifications to PDF")
      else mret tt) ;;
     pdf_bytes ← read_file E temp_path;
     os_unlink E temp_path ;;
     mret pdf_bytes)
    (fun e => emit (StError "Error generating modified PDF: " e) ;; mret EmptyString).

End WithEnv.

End PdfProcessor.

(** ** gemini_client.py *)

Module GeminiClient.

Definition dq : string := String "034"%char EmptyString.

(** The literal parts of the prompt, around the two interpolated values. *)
Definition PROMPT_HEAD : string :=
  "
        You are an expert content editor and humanization specialist. Your task is to analyze the original text and create natural, human-like modifications that improve readability, engagement, and clarity while maintaining the original meaning and structure.

        Original text:
        ".

Definition PROMPT_MIDDLE : string :=
  "...
        
        Modification request: ".

Definition PROMPT_TAIL : string :=
  "
        
        HUMANIZATION GUIDELINES:
        1. Make content more conversational and engaging
        2. Use natural, flowing language that sounds human-written
        3. Improve clarity and readability
        4. Add subtle personality and warmth to the text
        5. Maintain professional tone while being more approachable
        6. Use active voice where appropriate
        7. Break up long sentences for better flow
        8. Add transitional phrases for smoother reading
        
        TECHNICAL RULES:
        1. For text replacements, provide EXACT text matches from the original (copy-paste exact text)
        2. For highlighting, identify sentences or phrases that match the criteria
        3. Always provide context to help identify the correct location
        4. Be VERY precise with text matching - use exact strings from the original, including punctuation
        5. If the request is about changing headings, look for patterns like " +:+ dq +:+ "Chapter X:" +:+ dq +:+ ", " +:+ dq +:+ "Section X:" +:+ dq +:+ ", etc.
        6. If highlighting financial content, look for words like: financial, money, cost, budget, revenue, profit, investment, etc.
        7. IMPORTANT: Only include modifications for text that actually exists in the original document
        8. Make replacements sound natural and human-like, not robotic
        
        IMPORTANT: Respond ONLY with valid JSON. Do not include any text before or after the JSON. Do not use markdown formatting.
        
        Return a JSON object with this exact structure:
        {
            " +:+ dq +:+ "modifications" +:+ dq +:+ ": [
                {
                    " +:+ dq +:+ "type" +:+ dq +:+ ": " +:+ dq +:+ "replace" +:+ dq +:+ ",
                    " +:+ dq +:+ "original_text" +:+ dq +:+ ": " +:+ dq +:+ "exact text from original" +:+ dq +:+ ",
                    " +:+ dq +:+ "new_text" +:+ dq +:+ ": " +:+ dq +:+ "humanized replacement text that sounds natural and engaging" +:+ dq +:+ ",
                    " +:+ dq +:+ "context" +:+ dq +:+ ": " +:+ dq +:+ "brief context about where this text appears" +:+ dq +:+ ",
                    " +:+ dq +:+ "humanization_note" +:+ dq +:+ ": " +:+ dq +:+ "explanation of how this makes the text more human-like" +:+ dq +:+ "
                },
                {
                    " +:+ dq +:+ "type" +:+ dq +:+ ": " +:+ dq +:+ "highlight" +:+ dq +:+ ",
                    " +:+ dq +:+ "text_to_highlight" +:+ dq +:+ ": " +:+ dq +:+ "text to highlight" +:+ dq +:+ ",
                    " +:+ dq +:+ "context" +:+ dq +:+ ": " +:+ dq +:+ "brief context about where this text appears" +:+ dq +:+ ",
                    " +:+ dq +:+ "reason" +:+ dq +:+ ": " +:+ dq +:+ "why this text should be highlighted" +:+ dq +:+ ",
                    " +:+ dq +:+ "humanization_note" +:+ dq +:+ ": " +:+ dq +:+ "how highlighting improves readability" +:+ dq +:+ "
                }
            ],
            " +:+ dq +:+ "summary" +:+ dq +:+ ": " +:+ dq +:+ "Brief summary of all humanized modifications made" +:+ dq +:+ ",
            " +:+ dq +:+ "humanization_approach" +:+ dq +:+ ": " +:+ dq +:+ "Overall approach taken to make content more human and engaging" +:+ dq +:+ "
        }
        ".

(** Stripping the code fence around the response. *)
Definition clean_response (text : string) : string :=
  let response_text := PyStr.strip text in
  let response_text :=
    if PyStr.startswith response_text "```json"
    then PyStr.slice_from 7 response_text else response_text in
  let response_text :=
    if PyStr.startswith response_text "```"
    then PyStr.slice_from 3 response_text else response_text in
  let response_text :=
    if PyStr.endswith response_text "```"
    then PyStr.slice_to_neg 3 response_text else response_text in
  PyStr.strip response_text.

(** [try: c  except json.JSONDecodeError as e: h e] *)
Definition try_except_json {A} (c : M A) (h : exn -> M A) : M A := fun w =>
  match c w with
  | (Raise JSONDecodeError, w') => h JSONDecodeError w'
  | other => other
  end.

Definition build_prompt (original_text modification_query : string) : string :=
  PROMPT_HEAD +:+ PyStr.slice_to 2000 original_text +:+ PROMPT_MIDDLE
  +:+ modification_query +:+ PROMPT_TAIL.

Definition ERROR_RESULT : value :=
  dict [("modifications", VList []); ("summary", VStr "Error occurred")].

Section WithEnv.
Variable E : env.

(** The caption of the debug subheader is written without its leading
    pictograph. *)
(** [response.text] *)
Definition read_text (prompt : string) : M string :=
  call_lib E ResponseText ;; mret (response_text E prompt).

Definition get_llm_modifications (original_text modification_query : string)
    (debug_mode : bool) : M value :=
  try_except
    (let prompt := build_prompt original_text modification_query in
     call_lib E (GenerateContent prompt) ;;
     (if debug_mode
      then emit (StSubheader "Debug: Raw API Response") ;;
           text ← read_text prompt;
           emit (StText text)
      else mret tt) ;;
     text ← read_text prompt;
     let response_text := clean_response text in
     try_except_json
       (lift (json_loads E response_text))
       (fun e =>
          (if debug_mode
           then emit (StError "JSON parsing error: " e) ;;
                emit (StText ("Response text: " +:+ response_text))
           else mret tt) ;;
          lift (Utils.create_fallback_modification original_text modification_query)))
    (fun e =>
       emit (StError "Error getting LLM modifications: " e) ;;
       mret ERROR_RESULT).

End WithEnv.

End GeminiClient.

(** ** The edits of the data model, as the dictionaries the code reads *)

Module Edits.

Inductive edit :=
| Replace (original_text new_text context note : string)
| Highlight (target_text context reason note : string).

Definition encode (e : edit) : value :=
  match e with
  | Replace original_text new_text context note =>
      dict [("type", VStr "replace");
            ("original_text", VStr original_text);
            ("new_text", VStr new_text);
            ("context", VStr context);
            ("humanization_note", VStr note)]
  | Highlight target_text context reason note =>
      dict [("type", VStr "highlight");
            ("text_to_highlight", VStr target_text);
            ("context", VStr context);
            ("reason", VStr reason);
            ("humanization_note", VStr note)]
  end.

End Edits.
Import Edits.

(** * The vocabulary of the statements

    Definitions used to state the properties: the reading of the edits, the
    shapes of logs, sample collaborators and sample documents. *)

(** The guard of a Replace edit looks at the span's original text. *)
Definition guarded_by (original_text : string) (e : edit) : bool :=
  match e with
  | Replace old _ _ _ => PyStr.contains old original_text
  | Highlight _ _ _ _ => false
  end.

(** The substitution of a Replace edit acts on the text edited so far. *)
Definition substitute (modified_text : string) (e : edit) : string :=
  match e with
  | Replace old new _ _ => PyStr.replace old new modified_text
  | Highlight _ _ _ _ => modified_text
  end.

(** The pass in the words of the specification: every Replace edit whose
    original text occurs in the span's current text is applied to it. *)
Definition spec_replacement_pass (edits : list edit) (span_text : string) : string :=
  fold_left
    (fun current e =>
       match e with
       | Replace old new _ _ =>
           if PyStr.contains old current
           then PyStr.replace old new current else current
       | Highlight _ _ _ _ => current
       end)
    edits span_text.

(** The number of capture groups of a pattern. *)
Definition count_closes (pat : list Re.node) : nat :=
  length (List.filter (fun n => match n with Re.GroupClose => true | _ => false end) pat).

(** The dictionary the fallback heuristic returns for a list of edits. *)
Definition fallback_result (modifications : list value) (modification_query : string)
    : value :=
  dict [("modifications", VList modifications);
        ("summary", VStr ("Fallback modification created for: " +:+ modification_query))].

(** The fixed instruction of the testable property. *)
Definition CHAPTER_QUERY : string :=
  "Change 'Chapter 2: Background' to 'Chapter 2: Fundamentals'".

(** The world after some more events. *)
Definition extend (evs : list event) (w : world) : world :=
  {| log := log w ++ evs; files := files w |}.

(** A collaborator that never raises, for concrete runs. *)
Definition quiet : env :=
  {| raises := fun _ _ => None;
     serialize := fun _ => "%PDF-1.7";
     mktemp := fun _ => "/tmp/tmpa1b2c3.pdf";
     parse_pdf := fun _ => [];
     response_text := fun _ => "not json";
     json_loads := fun _ => Raise JSONDecodeError |}.

(** Nothing has happened and no file exists. *)
Definition empty_world : world := {| log := []; files := ∅ |}.

(** The library calls that re-create the pages as they were extracted. *)
Definition identity_calls (pages_data : list PdfProcessor.page_data)
    (output_path : string) : list call :=
  FitzOpen
  :: flat_map
       (fun page =>
          NewPage (PdfProcessor.page_width page) (PdfProcessor.page_height page)
          :: map (fun block =>
                    let '(x0, y0, _, _) := PdfProcessor.bbox_of block in
                    InsertText (x0, (y0 + PdfProcessor.size block)%float)
                               (PdfProcessor.text block)
                               (PdfProcessor.size block)
                               (Some (PdfProcessor.color_of block)))
               (PdfProcessor.text_blocks page))
       pages_data
  ++ [Save output_path; Close].

(** The event of a call that returned. *)
Definition returned (c : call) : event := Called c None.

(** A span, and a page that holds it. *)
Definition sample_block : PdfProcessor.text_block :=
  {| PdfProcessor.text := "Total budget: 40";
     PdfProcessor.bbox_of := (72, 72, 200, 86)%float;
     PdfProcessor.size := 12%float;
     PdfProcessor.font := "Helvetica";
     PdfProcessor.color_of := DEFAULT_TEXT_COLOR |}.

Definition sample_page : PdfProcessor.page_data :=
  {| PdfProcessor.page_num := 0;
     PdfProcessor.page_width := 612%float;
     PdfProcessor.page_height := 792%float;
     PdfProcessor.text_blocks := [sample_block] |}.

(** A page without any text. *)
Definition blank_page : PdfProcessor.page_data :=
  {| PdfProcessor.page_num := 0;
     PdfProcessor.page_width := 612%float;
     PdfProcessor.page_height := 792%float;
     PdfProcessor.text_blocks := [] |}.

(** The two attempts to draw a span with its original text: as it was
    extracted, and at the default size of 12 without a colour. *)
Definition first_attempt (block : PdfProcessor.text_block) : call :=
  let '(x0, y0, _, _) := PdfProcessor.bbox_of block in
  InsertText (x0, (y0 + PdfProcessor.size block)%float) (PdfProcessor.text block)
             (PdfProcessor.size block) (Some (PdfProcessor.color_of block)).

Definition second_attempt (block : PdfProcessor.text_block) : call :=
  let '(x0, y0, _, _) := PdfProcessor.bbox_of block in
  InsertText (x0, (y0 + 12)%float) (PdfProcessor.text block) 12%float None.

(** Of the two attempts to draw a span, one succeeds. *)
Definition spans_can_be_drawn (E : env) : Prop :=
  forall h block e,
    raises E h (first_attempt block) = Some e ->
    raises E (h ++ [Called (first_attempt block) (Some e)]) (second_attempt block)
    = None.

(** The span is drawn once, with its original text: at the first attempt,
    or at the second after the first failed. *)
Inductive span_drawn (block : PdfProcessor.text_block) : list event -> Prop :=
| drawn_as_extracted :
    span_drawn block [returned (first_attempt block)]
| drawn_by_default e :
    span_drawn block [Called (first_attempt block) (Some e);
                      returned (second_attempt block)].

(** The page is created with its width and height, and then its spans are
    drawn, each once and in their order. *)
Definition page_recreated (page : PdfProcessor.page_data) (evs : list event) : Prop :=
  exists drawings,
    evs = returned (NewPage (PdfProcessor.page_width page)
                            (PdfProcessor.page_height page))
          :: concat drawings
    /\ Forall2 span_drawn (PdfProcessor.text_blocks page) drawings.

(** The calls that make the document itself: opening it, creating a page,
    saving and closing. *)
Definition document_call (c : call) : Prop :=
  match c with
  | FitzOpen | NewPage _ _ | Save _ | Close => True
  | _ => False
  end.

(** One of the calls that make the document raised. *)
Definition document_call_raised (e : exn) (evs : list event) : Prop :=
  exists c, document_call c /\ In (Called c (Some e)) evs.

(** A library that draws no text with a colour. *)
Definition no_colors : env :=
  {| raises := fun _ c => match c with
                          | InsertText _ _ _ (Some _) => Some (LibraryError 4)
                          | _ => None
                          end;
     serialize := serialize quiet;
     mktemp := mktemp quiet;
     parse_pdf := parse_pdf quiet;
     response_text := response_text quiet;
     json_loads := json_loads quiet |}.

(** A library that draws no text at all. *)
Definition no_text : env :=
  {| raises := fun _ c => match c with
                          | InsertText _ _ _ _ => Some (LibraryError 4)
                          | _ => None
                          end;
     serialize := serialize quiet;
     mktemp := mktemp quiet;
     parse_pdf := parse_pdf quiet;
     response_text := response_text quiet;
     json_loads := json_loads quiet |}.

(** The events of calls made one after the other until one raises; the flag
    tells whether all of them returned. *)
Inductive ran : list call -> bool -> list event -> Prop :=
| ran_all : ran [] true []
| ran_returned c cs all evs :
    ran cs all evs -> ran (c :: cs) all (Called c None :: evs)
| ran_raised c cs e : ran (c :: cs) false [Called c (Some e)].

(** The calls of the highlight annotation, and those of the rectangle. *)
Definition native_calls (b : bbox) : list call :=
  [AddHighlightAnnot b; SetColors DEFAULT_HIGHLIGHT_COLOR; AnnotUpdate].

Definition rectangle_calls (b : bbox) : list call :=
  [MakeRect b; DrawRect b DEFAULT_HIGHLIGHT_COLOR 2%float].

(** A span is marked: by the annotation, or by the rectangle after the
    annotation failed. *)
Inductive marked (b : bbox) : list event -> Prop :=
| marked_native evs :
    ran (native_calls b) true evs -> marked b evs
| marked_rectangle evs1 evs2 :
    ran (native_calls b) false evs1 ->
    ran (rectangle_calls b) true evs2 ->
    marked b (evs1 ++ evs2).

(** What the drawing of the spans can leave in the log. *)
Definition is_text_event (ev : event) : Prop :=
  match ev with
  | Called (InsertText _ _ _ _) _ => True
  | StWarning _ _ => True
  | _ => False
  end.

(** The boxes to mark: for every Highlight edit in order, the spans whose
    original text contains the target, both lower-cased. *)
Definition highlight_targets (edits : list edit)
    (blocks : list PdfProcessor.text_block) : list bbox :=
  flat_map
    (fun e =>
       match e with
       | Highlight target _ _ _ =>
           map PdfProcessor.bbox_of
             (List.filter
                (fun block =>
                   PyStr.contains (PyStr.lower target)
                                  (PyStr.lower (PdfProcessor.text block)))
                blocks)
       | Replace _ _ _ _ => []
       end)
    edits.

(** The rectangle of the fallback can be drawn. *)
Definition rectangles_reliable (E : env) : Prop :=
  forall h b, raises E h (MakeRect b) = None
              /\ forall col width, raises E h (DrawRect b col width) = None.

(** A library whose highlight annotation always fails. *)
Definition no_annotations : env :=
  {| raises := fun _ c => match c with
                          | AddHighlightAnnot _ => Some (LibraryError 1)
                          | _ => None
                          end;
     serialize := serialize quiet;
     mktemp := mktemp quiet;
     parse_pdf := parse_pdf quiet;
     response_text := response_text quiet;
     json_loads := json_loads quiet |}.

(** The dictionary has no such key. *)
Definition lacks (mod_ : value) (key : string) : Prop :=
  getitem mod_ key = Raise (KeyError key).

(** The dictionary has this type tag. *)
Definition has_type (mod_ : value) (ty : string) : Prop :=
  getitem mod_ "type" = Ok (VStr ty).

(** An edit whose missing field the applicator runs into on these pages. *)
Inductive defective (pages_data : list PdfProcessor.page_data) (mod_ : value) : Prop :=
| lacks_type :
    pages_data <> [] -> lacks mod_ "type" -> defective pages_data mod_
| lacks_original_text page block :
    In page pages_data -> In block (PdfProcessor.text_blocks page) ->
    has_type mod_ "replace" -> lacks mod_ "original_text" ->
    defective pages_data mod_
| lacks_new_text page block old :
    In page pages_data -> In block (PdfProcessor.text_blocks page) ->
    has_type mod_ "replace" ->
    getitem mod_ "original_text" = Ok (VStr old) ->
    PyStr.contains old (PdfProcessor.text block) = true ->
    lacks mod_ "new_text" ->
    defective pages_data mod_
| lacks_text_to_highlight page block :
    In page pages_data -> In block (PdfProcessor.text_blocks page) ->
    has_type mod_ "highlight" -> lacks mod_ "text_to_highlight" ->
    defective pages_data mod_.

(** A computation that removes no file. *)
Definition keeps_files {A} (c : M A) : Prop :=
  forall w r w' path,
    c w = (r, w') -> is_Some (files w !! path) -> is_Some (files w' !! path).

(** The cleaned response of the model does not parse. *)
Definition malformed (E : env) (original_text modification_query : string) : Prop :=
  forall v,
    json_loads E
      (GeminiClient.clean_response
         (response_text E (GeminiClient.build_prompt original_text modification_query)))
    <> Ok v.

(** The model itself failing gives the error result. *)
Definition no_model : env :=
  {| raises := fun _ c => match c with
                          | GenerateContent _ => Some (LibraryError 503)
                          | _ => None
                          end;
     serialize := serialize quiet;
     mktemp := mktemp quiet;
     parse_pdf := parse_pdf quiet;
     response_text := response_text quiet;
     json_loads := json_loads quiet |}.

(** The text runs of a page, in reading order. *)
Definition all_spans (page : fitz_page) : list fitz_span :=
  flat_map
    (fun block =>
       match lines block with
       | Some ls => flat_map spans ls
       | None => []
       end)
    (blocks page).

(** The text of the run is non-empty after stripping. *)
Definition nonblank (span : fitz_span) : bool :=
  negb (PyStr.is_empty (PyStr.strip (span_text span))).

(** The record of a text run; the colour 0 becomes the default colour. *)
Definition recorded (span : fitz_span) : PdfProcessor.text_block :=
  {| PdfProcessor.text := span_text span;
     PdfProcessor.bbox_of := span_bbox span;
     PdfProcessor.size := span_size span;
     PdfProcessor.font := span_font span;
     PdfProcessor.color_of :=
       if negb (span_color span =? 0)%Z
       then ColorInt (span_color span) else ColorRGB 0 0 0 |}.

(** A text run with a given text and colour. *)
Definition sample_span (s : string) (c : Z) : fitz_span :=
  {| span_text := s; span_bbox := (72, 72, 200, 86)%float;
     span_size := 12%float; span_font := "Helvetica"; span_color := c |}.

(** A document of two pages: one with text, one with an image only. *)
Definition sample_document : list fitz_page :=
  [ {| rect_width := 612%float; rect_height := 792%float;
       blocks := [ {| lines := Some [ {| spans := [sample_span "Title" 0;
                                                   sample_span "   " 255;
                                                   sample_span "body" 255] |} ] |} ] |};
    {| rect_width := 595%float; rect_height := 842%float;
       blocks := [ {| lines := None |} ] |} ].

(** A library that reads the sample document from any bytes. *)
Definition sample_reader : env :=
  {| raises := raises quiet;
     serialize := serialize quiet;
     mktemp := mktemp quiet;
     parse_pdf := fun _ => sample_document;
     response_text := response_text quiet;
     json_loads := json_loads quiet |}.

(** * The rest of the program

    The functions of [pdf_processor.py], [utils.py], [gemini_client.py] and
    [app_refactored.py] that stand beside the ones above. *)

(** ** pdf_processor.py: statistics and plain text *)

Module PdfText.
Import PdfProcessor.

(** [sum(...)]: the terms are added from the left, starting from 0. *)
Definition py_sum (terms : list nat) : nat := fold_left Nat.add terms 0%nat.

Definition total_pages (pages_data : list page_data) : nat := length pages_data.

Definition total_text_blocks (pages_data : list page_data) : nat :=
  py_sum (map (fun page => length (text_blocks page)) pages_data).

Definition total_characters (pages_data : list page_data) : nat :=
  py_sum (flat_map (fun page =>
                      map (fun block => String.length (text block)) (text_blocks page))
            pages_data).

Definition get_pdf_statistics (pages_data : list page_data) : value :=
  dict [("total_pages", VInt (Z.of_nat (total_pages pages_data)));
        ("total_text_blocks", VInt (Z.of_nat (total_text_blocks pages_data)));
        ("total_characters", VInt (Z.of_nat (total_characters pages_data)))].

(** [for page in pdf_reader.pages: text += page.extract_text() + "\n"]:
    every page gives its text or raises. *)
Fixpoint join_pages (pages : list (res string)) (text : string) : res string :=
  match pages with
  | [] => mret text
  | page :: rest =>
      page_text ← page;
      join_pages rest (text +:+ page_text +:+ String "010"%char EmptyString)
  end.

(** [reader] is what [PyPDF2.PdfReader(pdf_file)] does: it raises, or it
    gives the pages. *)
Definition extract_simple_text (reader : res (list (res string))) : M string :=
  try_except
    (pages ← lift reader;
     text ← lift (join_pages pages EmptyString);
     mret (PyStr.strip text))
    (fun e =>
       emit (StError "Error extracting text: " e) ;;
       mret "Error extracting text from PDF").

End PdfText.

(** ** gemini_client.py: the choice of the model *)

Module GeminiSetup.

(** [DEFAULT_MODEL_NAMES] of config.py *)
Definition DEFAULT_MODEL_NAMES : list string :=
  ["gemini-2.5-flash"; "gemini-2.5-flash-lite"; "gemini-2.5-pro";
   "gemini-2.0-flash"; "gemini-2.0-flash-lite"; "gemini-1.5-pro"; "gemini-pro"].

(** The client library: whether [genai.configure(api_key=...)] raises, and
    whether [genai.GenerativeModel(name)] raises once that key is set. *)
Record genai := {
  configure : string -> option exn;
  generative_model : string -> string -> option exn }.

(** [repr] of a string without quotes or escapes, and of a list of such. *)
Definition repr_str (s : string) : string := "'" +:+ s +:+ "'".

Fixpoint join (sep : string) (l : list string) : string :=
  match l with
  | [] => EmptyString
  | [s] => s
  | s :: rest => s +:+ sep +:+ join sep rest
  end.

Definition repr_list (l : list string) : string :=
  "[" +:+ join ", " (map repr_str l) +:+ "]".

(** The loop over the names: the first model that can be made is returned;
    a model is the name it was made from. *)
Fixpoint try_models (G : genai) (api_key : string) (names : list string)
    : option string :=
  match names with
  | [] => None
  | model_name :: rest =>
      match generative_model G api_key model_name with
      | None => Some model_name
      | Some _ => try_models G api_key rest
      end
  end.

Definition configure_gemini (G : genai) (api_key : string) : res string :=
  match configure G api_key with
  | Some e => Raise e
  | None =>
      match try_models G api_key DEFAULT_MODEL_NAMES with
      | Some model => Ok model
      | None =>
          Raise (Exception_ ("None of the model names worked. Tried: "
                             +:+ repr_list DEFAULT_MODEL_NAMES))
      end
  end.

Definition test_api_connection (G : genai) (api_key : string) : M bool :=
  try_except
    (model ← lift (configure_gemini G api_key);
     mret true)
    (fun e => emit (StError "API connection failed: " e) ;; mret false).

End GeminiSetup.

(** ** utils.py: the key check, the display text and the time stamp *)

Module UtilsMore.

Definition validate_api_key (api_key : string) : bool :=
  if PyStr.is_empty api_key then false
  else if (String.length api_key <? 20)%nat then false
  else true.

(** [re.sub(r'\s+', ' ', s)]: every maximal run of whitespace becomes one
    space; [in_run] tells that the run was already replaced. *)
Fixpoint collapse_spaces (in_run : bool) (s : string) : string :=
  match s with
  | EmptyString => EmptyString
  | String c s' =>
      if PyStr.isspace c
      then if in_run then collapse_spaces true s'
           else String " " (collapse_spaces true s')
      else String c (collapse_spaces false s')
  end.

(** [s[:n]] for an integer of either sign. *)
Definition slice_to_int (n : Z) (s : string) : string :=
  if (0 <=? n)%Z then PyStr.slice_to (Z.to_nat n) s
  else PyStr.slice_to_neg (Z.to_nat (- n)) s.

Definition clean_text_for_display (text : string) (max_length : Z) : string :=
  if PyStr.is_empty text then "No text available"
  else
    let cleaned := collapse_spaces false (PyStr.strip text) in
    if (max_length <? Z.of_nat (String.length cleaned))%Z
    then slice_to_int max_length cleaned +:+ "..."
    else cleaned.

(** What [datetime.now()] returns. *)
Record datetime := {
  year : nat; month : nat; day : nat;
  hour : nat; minute : nat; second : nat; microsecond : nat }.

Definition digit (n : nat) : ascii := ascii_of_nat (48 + n mod 10).

(** [%m], [%d], [%H], [%M], [%S]: two digits. *)
Definition two_digits (n : nat) : string :=
  String (digit (n / 10)) (String (digit n) EmptyString).

(** [%Y] for a year of four digits. *)
Definition four_digits (n : nat) : string :=
  String (digit (n / 1000)) (String (digit (n / 100)) (two_digits n)).

(** [now.strftime("%Y%m%d_%H%M%S")] *)
Definition get_timestamp (now : datetime) : string :=
  four_digits (year now) +:+ two_digits (month now) +:+ two_digits (day now)
  +:+ "_" +:+ two_digits (hour now) +:+ two_digits (minute now)
  +:+ two_digits (second now).

End UtilsMore.

(** ** app_refactored.py: the session state and the names of the downloads *)

Module App.

(** [if key not in st.session_state: st.session_state[key] = v] *)
Definition set_default (key : string) (v : value) (ss : gmap string value)
    : gmap string value :=
  match ss !! key with
  | Some _ => ss
  | None => <[key := v]> ss
  end.

Definition initialize_session_state (ss : gmap string value) : gmap string value :=
  let ss := set_default "gemini_model" VNone ss in
  let ss := set_default "pages_data" (VList []) ss in
  let ss := set_default "modifications" (VList []) ss in
  let ss := set_default "uploaded_file_bytes" VNone ss in
  set_default "modified_pdf_bytes" VNone ss.

(** The loop of the button "Clear All Data":
    [if key in st.session_state: del st.session_state[key]]. *)
Definition clear_all_data (ss : gmap string value) : gmap string value :=
  foldl (fun ss key => match ss !! key with
                       | Some _ => delete key ss
                       | None => ss
                       end)
        ss
        ["pages_data"; "modifications"; "uploaded_file_bytes"; "modified_pdf_bytes"].

(** The test of the sidebar before the configuration:
    [if api_key and validate_api_key(api_key)]. *)
Definition key_accepted (api_key : string) : bool :=
  negb (PyStr.is_empty api_key) && UtilsMore.validate_api_key api_key.

(** The file names of the download section. *)
Definition edited_filename (uploaded_name timestamp : string) : string :=
  let original_name := PyStr.replace ".pdf" "" uploaded_name in
  "edited_" +:+ original_name +:+ "_" +:+ timestamp +:+ ".pdf".

Definition original_filename (uploaded_name : string) : string :=
  "original_" +:+ uploaded_name.

End App.

(** ** Edits the applicator treats alike *)

Definition is_replace (e : edit) : bool :=
  match e with Replace _ _ _ _ => true | Highlight _ _ _ _ => false end.

Definition is_highlight (e : edit) : bool :=
  match e with Replace _ _ _ _ => false | Highlight _ _ _ _ => true end.

(** The test the applicator makes of an edit on one span: the original
    text of a Replace edit occurs in it as written, the target of a
    Highlight edit occurs in it when both are lower-cased. *)
Definition matches_span (e : edit) (block : PdfProcessor.text_block) : bool :=
  match e with
  | Replace old _ _ _ => PyStr.contains old (PdfProcessor.text block)
  | Highlight target _ _ _ =>
      PyStr.contains (PyStr.lower target) (PyStr.lower (PdfProcessor.text block))
  end.

(** The keys the applicator reads in an edit. *)
Definition READ_KEYS : list string :=
  ["type"; "original_text"; "new_text"; "text_to_highlight"].

(** Two values that answer alike on the keys the applicator reads. *)
Definition same_fields (m1 m2 : value) : Prop :=
  Forall (fun key => getitem m1 key = getitem m2 key) READ_KEYS.


(** A heading broken over two spans: the edit names the whole heading. *)
Definition split_heading_page : PdfProcessor.page_data :=
  {| PdfProcessor.page_num := 0;
     PdfProcessor.page_width := 612%float;
     PdfProcessor.page_height := 792%float;
     PdfProcessor.text_blocks :=
       [ {| PdfProcessor.text := "Chapter 2: ";
            PdfProcessor.bbox_of := (72, 72, 140, 86)%float;
            PdfProcessor.size := 12%float;
            PdfProcessor.font := "Helvetica-Bold";
            PdfProcessor.color_of := DEFAULT_TEXT_COLOR |};
         {| PdfProcessor.text := "Background";
            PdfProcessor.bbox_of := (140, 72, 220, 86)%float;
            PdfProcessor.size := 12%float;
            PdfProcessor.font := "Helvetica";
            PdfProcessor.color_of := DEFAULT_TEXT_COLOR |} ] |}.

(** A library that cannot open any document. *)
Definition no_reader : env :=
  {| raises := fun _ c => match c with
                          | FitzOpenStream _ => Some (LibraryError 2)
                          | _ => None
                          end;
     serialize := serialize quiet;
     mktemp := mktemp quiet;
     parse_pdf := parse_pdf quiet;
     response_text := response_text quiet;
     json_loads := json_loads quiet |}.

(** A library that reads the sample document but not the text of its
    second page. *)
Definition torn_reader : env :=
  {| raises := fun _ c => match c with
                          | GetText 1 => Some (LibraryError 3)
                          | _ => None
                          end;
     serialize := serialize quiet;
     mktemp := mktemp quiet;
     parse_pdf := parse_pdf sample_reader;
     response_text := response_text quiet;
     json_loads := json_loads quiet |}.

(** The pages of the sample document, by number. *)
Definition sample_document_page (i : nat) : fitz_page :=
  default {| rect_width := 0%float; rect_height := 0%float; blocks := [] |}
          (sample_document !! i).

(** A model that answers with a JSON array. *)
Definition array_model : env :=
  {| raises := raises quiet;
     serialize := serialize quiet;
     mktemp := mktemp quiet;
     parse_pdf := parse_pdf quiet;
     response_text := fun _ => "[...]";
     json_loads := fun _ => Ok (VList [VStr "highlight"; VInt 3]) |}.

(** A client for which only the models of the 1.5 line and older can be
    made. *)
Definition only_old_models : GeminiSetup.genai :=
  {| GeminiSetup.configure := fun _ => None;
     GeminiSetup.generative_model := fun _ name =>
       if PyStr.startswith name "gemini-2" then Some (LibraryError 404) else None |}.

(** A text without whitespace at its start, without two whitespace
    characters in a row, and with no other whitespace than the space;
    [after_space] tells that the character before was a space (or that the
    text starts here). *)
Fixpoint spaced (after_space : bool) (s : string) : bool :=
  match s with
  | EmptyString => true
  | String c s' =>
      if PyStr.isspace c
      then Ascii.eqb c " " && negb after_space && spaced true s'
      else spaced false s'
  end.

(** The date and time of a clock: the ranges [datetime] keeps, for a year
    of four digits. *)
Definition valid_datetime (d : UtilsMore.datetime) : Prop :=
  (1000 <= UtilsMore.year d < 10 * 1000)%nat
  /\ (1 <= UtilsMore.month d <= 12)%nat
  /\ (1 <= UtilsMore.day d <= 31)%nat
  /\ (UtilsMore.hour d < 24)%nat
  /\ (UtilsMore.minute d < 60)%nat
  /\ (UtilsMore.second d < 60)%nat.

(** The same second on the clock. *)
Definition same_second (a b : UtilsMore.datetime) : Prop :=
  UtilsMore.year a = UtilsMore.year b
  /\ UtilsMore.month a = UtilsMore.month b
  /\ UtilsMore.day a = UtilsMore.day b
  /\ UtilsMore.hour a = UtilsMore.hour b
  /\ UtilsMore.minute a = UtilsMore.minute b
  /\ UtilsMore.second a = UtilsMore.second b.

(** The values a fresh session starts from. *)
Definition SESSION_DEFAULTS : gmap string value :=
  {[ "gemini_model" := VNone ]} ∪ {[ "pages_data" := VList [] ]}
  ∪ {[ "modifications" := VList [] ]} ∪ {[ "uploaded_file_bytes" := VNone ]}
  ∪ {[ "modified_pdf_bytes" := VNone ]}.

(** The keys of the document, which "Clear All Data" removes. *)
Definition DOCUMENT_KEYS : list string :=
  ["pages_data"; "modifications"; "uploaded_file_bytes"; "modified_pdf_bytes"].

(** * Properties *)

(** ** The embedding on small inputs *)

Example lower_ex : PyStr.lower "Change 'A' To" = "change 'a' to".
Proof. reflexivity. Qed.
Example strip_ex : PyStr.strip "  a b  " = "a b".
Proof. reflexivity. Qed.
Example replace_ex1 : PyStr.replace "aa" "b" "aaaaa" = "bba".
Proof. reflexivity. Qed.
Example replace_ex2 : PyStr.replace "" "-" "abc" = "-a-b-c-".
Proof. reflexivity. Qed.
Example contains_ex : PyStr.contains "bc" "abcd" = true /\ PyStr.contains "" "" = true /\ PyStr.contains "x" "abc" = false.
Proof. repeat split. Qed.
Example endswith_ex : PyStr.endswith "abc```" "```" = true /\ PyStr.slice_to_neg 3 "abc```" = "abc" /\ PyStr.slice_to_neg 3 "ab" = "".
Proof. repeat split. Qed.

Example search_chapter :
  Re.search Utils.CHANGE_PATTERN (PyStr.lower CHAPTER_QUERY)
  = Some ["chapter 2: background"; "chapter 2: fundamentals"].
Proof. reflexivity. Qed.

(** ** Text *)

Section TextFacts.

Lemma startswith_empty s : PyStr.startswith s "" = true.
Proof. reflexivity. Qed.

Lemma contains_empty s : PyStr.contains "" s = true.
Proof. destruct s; simpl; by rewrite ?startswith_empty. Qed.

Lemma contains_cons needle c s :
  PyStr.contains needle (String c s) = false ->
  PyStr.startswith (String c s) needle = false /\ PyStr.contains needle s = false.
Proof. simpl. intros H. by apply orb_false_elim in H. Qed.

Lemma replace_from_absent old new s :
  PyStr.contains old s = false -> PyStr.replace_from old new 0 s = s.
Proof.
  induction s as [|c s IH]; [done|].
  intros H. apply contains_cons in H as [Hp Hc].
  cbn [PyStr.replace_from]. rewrite Hp. f_equal. by apply IH.
Qed.

(** Replacing a text that does not occur changes nothing. *)
Lemma replace_absent old new s :
  PyStr.contains old s = false -> PyStr.replace old new s = s.
Proof.
  intros H. unfold PyStr.replace. destruct old as [|a old].
  - by rewrite contains_empty in H.
  - by apply replace_from_absent.
Qed.

Lemma lower_startswith s p :
  PyStr.startswith s p = true ->
  PyStr.startswith (PyStr.lower s) (PyStr.lower p) = true.
Proof.
  revert s. induction p as [|a p IH]; intros s; [done|].
  destruct s as [|b s]; [done|]. simpl.
  intros [Hab Hp]%andb_prop. apply Ascii.eqb_eq in Hab as ->.
  rewrite Ascii.eqb_refl. by apply IH.
Qed.

(** Lowering both texts keeps an occurrence. *)
Lemma lower_contains needle s :
  PyStr.contains needle s = true ->
  PyStr.contains (PyStr.lower needle) (PyStr.lower s) = true.
Proof.
  induction s as [|c s IH]; simpl.
  - rewrite !orb_false_r. apply (lower_startswith ""%string).
  - intros [H|H]%orb_prop.
    + apply (lower_startswith (String c s)) in H. simpl in H. by rewrite H.
    + rewrite (IH H). apply orb_true_r.
Qed.

End TextFacts.

(** ** The edits as dictionaries *)

Section EditFacts.

Lemma getitem_replace_type o n c nt :
  getitem (encode (Replace o n c nt)) "type" = Ok (VStr "replace").
Proof. reflexivity. Qed.

Lemma getitem_replace_original o n c nt :
  getitem (encode (Replace o n c nt)) "original_text" = Ok (VStr o).
Proof. reflexivity. Qed.

Lemma getitem_replace_new o n c nt :
  getitem (encode (Replace o n c nt)) "new_text" = Ok (VStr n).
Proof. reflexivity. Qed.

Lemma getitem_highlight_type t c r nt :
  getitem (encode (Highlight t c r nt)) "type" = Ok (VStr "highlight").
Proof. reflexivity. Qed.

Lemma getitem_highlight_target t c r nt :
  getitem (encode (Highlight t c r nt)) "text_to_highlight" = Ok (VStr t).
Proof. reflexivity. Qed.

End EditFacts.

(** ** The replacement pass over one span *)

Section ReplacementPass.
Import PdfProcessor.

Lemma replace_step_encode original_text modified_text e :
  replace_step original_text modified_text (encode e)
  = Ok (if guarded_by original_text e
        then substitute modified_text e else modified_text).
Proof.
  destruct e as [old new c nt | t c r nt]; [|reflexivity].
  unfold replace_step.
  rewrite getitem_replace_type, getitem_replace_original, getitem_replace_new.
  cbn. by destruct (PyStr.contains old original_text).
Qed.

Lemma apply_replacements_encode edits original_text modified_text :
  apply_replacements (map encode edits) original_text modified_text
  = Ok (fold_left substitute (List.filter (guarded_by original_text) edits)
          modified_text).
Proof.
  revert modified_text. induction edits as [|e edits IH]; intros m; [done|].
  cbn [map apply_replacements List.filter]. rewrite replace_step_encode. cbn.
  rewrite IH. by destruct (guarded_by original_text e).
Qed.

(** C1 (as amended): for every span, the modified text is the result of
    applying, in Edit Set order, every Replace edit whose original text is a
    substring of the span's ORIGINAL text, each as a global substitution on
    the text edited so far; the pass never raises on well-formed edits. *)
Theorem replacements_guarded_by_original_text (edits : list edit) (span_text : string) :
  apply_replacements (map encode edits) span_text span_text
  = Ok (fold_left substitute (List.filter (guarded_by span_text) edits) span_text).
Proof. apply apply_replacements_encode. Qed.

(** C1 (as stated) fails: with the edits a->c and c->d on the span "ab" the
    code leaves "cb", because "c" does not occur in the original text, where
    a guard on the current text gives "db". *)
Lemma replacements_not_guarded_by_current_text :
  apply_replacements
    (map encode [Replace "a" "c" "" ""; Replace "c" "d" "" ""]) "ab" "ab"
  <> Ok (spec_replacement_pass [Replace "a" "c" "" ""; Replace "c" "d" "" ""] "ab").
Proof. vm_compute. discriminate. Qed.

(** Later edits do act on the output of earlier ones when their guard holds
    on the original text. *)
Example replacements_compound :
  apply_replacements
    (map encode [Replace "a" "b" "" ""; Replace "b" "c" "" ""]) "ab" "ab"
  = Ok "cc".
Proof. reflexivity. Qed.

(** In the pass of the specification's words the guard changes nothing:
    a substitution of an absent text is the identity. *)
Lemma spec_replacement_pass_unguarded edits span_text :
  spec_replacement_pass edits span_text = fold_left substitute edits span_text.
Proof.
  unfold spec_replacement_pass. revert span_text.
  induction edits as [|e edits IH]; intros t; [done|]. cbn [fold_left].
  rewrite IH. f_equal. destruct e as [old new c nt | ]; [|done]. cbn.
  destruct (PyStr.contains old t) eqn:Hc; [done|]. by rewrite replace_absent.
Qed.

(** C7: a Replace edit applied a second time, to a once-edited text that no
    longer contains its original text, changes nothing. *)
Theorem replace_edit_second_pass_noop (old new context note span_text once : string) :
  apply_replacements [encode (Replace old new context note)] span_text span_text
    = Ok once ->
  PyStr.contains old once = false ->
  apply_replacements [encode (Replace old new context note)] once once = Ok once.
Proof.
  intros _ Habsent.
  rewrite (apply_replacements_encode [Replace old new context note]).
  cbn [List.filter guarded_by]. by rewrite Habsent.
Qed.

Lemma replace_edit_second_pass_noop_witness :
  apply_replacements [encode (Replace "cat" "dog" "" "")] "a dog" "a dog" = Ok "a dog".
Proof.
  apply (replace_edit_second_pass_noop "cat" "dog" "" "" "a cat" "a dog");
    reflexivity.
Defined.

End ReplacementPass.

(** ** The pattern of the fallback heuristic always yields two groups *)

Section PatternFacts.

Lemma repeat_greedy_groups a k n :
  (forall s st r, k s st = Some r -> length r = (length (Re.closed st) + n)%nat) ->
  forall s st r, Re.repeat_greedy a k s st = Some r ->
                 length r = (length (Re.closed st) + n)%nat.
Proof.
  intros Hk. induction s as [|c s IH]; intros st r; cbn [Re.repeat_greedy].
  - apply Hk.
  - destruct (Re.atom_matches a c); [|apply Hk].
    destruct (Re.repeat_greedy a k s (Re.consume c st)) as [r'|] eqn:Hr.
    + intros [= <-]. by apply IH in Hr.
    + apply Hk.
Qed.

Lemma match_here_groups pat :
  forall s st r, Re.match_here pat s st = Some r ->
                 length r = (length (Re.closed st) + count_closes pat)%nat.
Proof.
  induction pat as [|n pat IH]; intros s st r; cbn [Re.match_here].
  - intros [= <-]. unfold count_closes. cbn. lia.
  - destruct n as [a | a | | ].
    + destruct s as [|c s]; [done|]. destruct (Re.atom_matches a c); [|done].
      intros H. by apply IH in H.
    + destruct s as [|c s]; [done|]. destruct (Re.atom_matches a c); [|done].
      intros H. by apply (repeat_greedy_groups a _ _ (IH)) in H.
    + intros H. by apply IH in H.
    + intros H. apply IH in H. unfold count_closes in *. cbn in *.
      rewrite length_app in H. cbn in H. lia.
Qed.

Lemma search_groups pat s r :
  Re.search pat s = Some r -> length r = count_closes pat.
Proof.
  induction s as [|c s IH]; cbn [Re.search];
    destruct (Re.match_here pat _ _) as [m|] eqn:Hm; try done;
    intros [= <-]; by apply match_here_groups in Hm.
Qed.

Lemma change_pattern_groups s m :
  Re.search Utils.CHANGE_PATTERN s = Some m -> exists old new, m = [old; new].
Proof.
  intros H%search_groups. change (count_closes Utils.CHANGE_PATTERN) with 2%nat in H.
  destruct m as [|old [|new [|? ?]]]; try discriminate. eauto.
Qed.

End PatternFacts.

(** ** The fallback heuristic *)

Section Fallback.
Import Utils.

(** The heuristic never raises; it proposes at most one replacement. *)
Lemma fallback_replacements_total original_text modification_query :
  exists replacements,
    fallback_replacements original_text modification_query = Ok replacements
    /\ (replacements = []
        \/ exists old new, replacements = [replace_edit old new]
                           /\ PyStr.contains old original_text = true).
Proof.
  unfold fallback_replacements.
  destruct (_ && _); [|eauto].
  destruct (Re.search _ _) as [m|] eqn:Hm; [|eauto].
  apply change_pattern_groups in Hm as (old & new & ->). cbn.
  destruct (PyStr.contains old original_text) eqn:Hc; eauto 8.
Qed.

Lemma create_fallback_modification_total original_text modification_query :
  exists modifications,
    create_fallback_modification original_text modification_query
    = Ok (fallback_result modifications modification_query).
Proof.
  unfold create_fallback_modification.
  destruct (fallback_replacements_total original_text modification_query)
    as (repl & -> & _).
  cbn. eauto.
Qed.

Lemma scan_terms_find terms original_text :
  scan_terms terms original_text
  = match List.find (fun term => PyStr.contains term (PyStr.lower original_text)) terms with
    | Some term => [highlight_edit term]
    | None => []
    end.
Proof.
  induction terms as [|term terms IH]; [done|]. cbn [scan_terms List.find].
  by destruct (PyStr.contains term _).
Qed.

(** C8: when the instruction contains "highlight", the heuristic emits
    exactly one Highlight edit -- an edit of type "highlight" whose
    text_to_highlight is the first keyword, in list order, that occurs in
    the lower-cased original text -- and no Highlight edit when no keyword
    occurs; whatever else it emits comes before it and is a Replace edit. *)
Theorem fallback_highlights_first_keyword (original_text modification_query : string) :
  PyStr.contains "highlight" modification_query = true ->
  exists replacements highlights,
    create_fallback_modification original_text modification_query
    = Ok (fallback_result (replacements ++ highlights) modification_query)
    /\ Forall (fun m => getitem m "type" = Ok (VStr "replace")) replacements
    /\ match List.find
               (fun term => PyStr.contains term (PyStr.lower original_text))
               ["financial"; "money"; "cost"; "budget"; "revenue";
                "profit"; "investment"; "price"; "fee"]
       with
       | Some term =>
           exists m,
             highlights = [m]
             /\ getitem m "type" = Ok (VStr "highlight")
             /\ getitem m "text_to_highlight" = Ok (VStr term)
       | None => highlights = []
       end.
Proof.
  intros Hq%lower_contains. change (PyStr.lower "highlight") with "highlight" in Hq.
  unfold create_fallback_modification, fallback_highlights. rewrite Hq.
  destruct (fallback_replacements_total original_text modification_query)
    as (repl & -> & Hrepl).
  exists repl. eexists. split; [|split].
  - cbn [mbind res_bind mret res_ret]. rewrite scan_terms_find. reflexivity.
  - destruct Hrepl as [-> | (old & new & -> & _)]; by repeat constructor.
  - destruct (List.find _ _) as [term|]; [|done].
    exists (highlight_edit term). by repeat split.
Qed.

Lemma fallback_highlights_first_keyword_witness :
  exists replacements highlights,
    create_fallback_modification "The budget and the fee" "highlight financial information"
    = Ok (fallback_result (replacements ++ highlights) "highlight financial information")
    /\ Forall (fun m => getitem m "type" = Ok (VStr "replace")) replacements
    /\ exists m,
         highlights = [m]
         /\ getitem m "type" = Ok (VStr "highlight")
         /\ getitem m "text_to_highlight" = Ok (VStr "budget").
Proof.
  apply (fallback_highlights_first_keyword
           "The budget and the fee" "highlight financial information").
  reflexivity.
Defined.

(** With the fixed instruction, the heuristic looks for the lower-cased
    quoted text in the document as it is written. *)
Lemma chapter_fallback (original_text : string) :
  create_fallback_modification original_text CHAPTER_QUERY
  = Ok (fallback_result
          (if PyStr.contains "chapter 2: background" original_text
           then [replace_edit "chapter 2: background" "chapter 2: fundamentals"]
           else [])
          CHAPTER_QUERY).
Proof.
  unfold create_fallback_modification, fallback_replacements, fallback_highlights.
  rewrite search_chapter.
  change (PyStr.contains "change" (PyStr.lower CHAPTER_QUERY)) with true.
  change (PyStr.contains "to" (PyStr.lower CHAPTER_QUERY)) with true.
  change (PyStr.contains "highlight" (PyStr.lower CHAPTER_QUERY)) with false.
  cbn [andb mbind res_bind mret res_ret group lookup].
  change (group _ 1) with (Ok (A:=string) "chapter 2: background").
  change (group _ 2) with (Ok (A:=string) "chapter 2: fundamentals").
  cbn [mbind res_bind].
  destruct (PyStr.contains "chapter 2: background" original_text);
    cbn [mbind res_bind mret res_ret]; by rewrite app_nil_r.
Qed.

(** What the heuristic does emit: for every document that contains the
    lower-cased quoted text as such, exactly one edit, a Replace edit from
    "chapter 2: background" to "chapter 2: fundamentals". *)
Lemma chapter_fallback_on_lower_case_text (original_text : string) :
  PyStr.contains "chapter 2: background" original_text = true ->
  exists e,
    create_fallback_modification original_text CHAPTER_QUERY
    = Ok (fallback_result [e] CHAPTER_QUERY)
    /\ getitem e "type" = Ok (VStr "replace")
    /\ getitem e "original_text" = Ok (VStr "chapter 2: background")
    /\ getitem e "new_text" = Ok (VStr "chapter 2: fundamentals").
Proof.
  intros Hin. rewrite chapter_fallback, Hin.
  exists (replace_edit "chapter 2: background" "chapter 2: fundamentals").
  by repeat split.
Qed.

(** C3: on the document "Chapter 2: Background", which contains the quoted
    text as the instruction writes it, the heuristic emits no edit at all:
    the quoted text was lower-cased with the instruction and is then looked
    up in the document case-sensitively, where the highlight branch
    lower-cases the document first. *)
Theorem chapter_fallback_emits_nothing :
  PyStr.contains "Chapter 2: Background" "Chapter 2: Background" = true
  /\ create_fallback_modification "Chapter 2: Background" CHAPTER_QUERY
     = Ok (fallback_result [] CHAPTER_QUERY).
Proof. split; [reflexivity|]. by rewrite chapter_fallback. Qed.

End Fallback.

(** ** Running computations *)

Section RunFacts.

Lemma bind_run {A B} (c : M A) (f : A -> M B) w :
  (c ≫= f) w = match c w with
               | (Ok a, w') => f a w'
               | (Raise e, w') => (Raise e, w')
               end.
Proof. reflexivity. Qed.

Lemma extend_nil w : extend [] w = w.
Proof. destruct w. unfold extend. cbn. by rewrite app_nil_r. Qed.

Lemma extend_extend evs1 evs2 w :
  extend evs2 (extend evs1 w) = extend (evs1 ++ evs2) w.
Proof. unfold extend. cbn. by rewrite app_assoc. Qed.

Lemma record_extend ev w : record ev w = extend [ev] w.
Proof. reflexivity. Qed.

Lemma quiet_reliable : reliable quiet.
Proof. by intros h c. Qed.

Lemma call_lib_reliable E c w :
  reliable E -> call_lib E c w = (Ok tt, extend [Called c None] w).
Proof. intros HE. unfold call_lib. by rewrite HE. Qed.

(** A loop whose rounds all return, each adding its own events. *)
Lemma for_each_events {A} (f : A -> M unit) (g : A -> list event) l :
  (forall x w, In x l -> f x w = (Ok tt, extend (g x) w)) ->
  forall w, for_each l f w = (Ok tt, extend (flat_map g l) w).
Proof.
  induction l as [|x l IH]; intros Hf w; cbn [for_each flat_map].
  - by rewrite extend_nil.
  - rewrite bind_run, Hf by (by left).
    rewrite IH by (intros; apply Hf; by right).
    by rewrite extend_extend.
Qed.

(** The same when the events of a round are only known to be related to
    some targets of the round. *)
Lemma for_each_groups {A B} (targets : A -> list B) (R : B -> list event -> Prop)
    (f : A -> M unit) l :
  (forall x w, exists G, f x w = (Ok tt, extend (concat G) w)
                         /\ Forall2 R (targets x) G) ->
  forall w, exists G, for_each l f w = (Ok tt, extend (concat G) w)
                      /\ Forall2 R (flat_map targets l) G.
Proof.
  intros Hf. induction l as [|x l IH]; intros w; cbn [for_each flat_map].
  - exists []. split; [by rewrite extend_nil | constructor].
  - destruct (Hf x w) as (G1 & Hx & HR1).
    destruct (IH (extend (concat G1) w)) as (G2 & Hl & HR2).
    exists (G1 ++ G2). split.
    + by rewrite bind_run, Hx, Hl, extend_extend, concat_app.
    + by apply Forall2_app.
Qed.

Lemma bind_ok_inv {A B} (c : M A) (f : A -> M B) w b w' :
  (c ≫= f) w = (Ok b, w') ->
  exists a w1, c w = (Ok a, w1) /\ f a w1 = (Ok b, w').
Proof.
  rewrite bind_run. destruct (c w) as [[a|e] w1]; [eauto | discriminate].
Qed.

Lemma lift_ok_inv {A} (r : res A) (a : A) w w' :
  lift r w = (Ok a, w') -> r = Ok a.
Proof. unfold lift. by intros [= -> _]. Qed.

(** What holds of the value of the body and of the value of every handler
    holds of the value of the statement, which returns. *)
Lemma try_except_post {A} (c : M A) (h : exn -> M A) (P : A -> Prop) w :
  (forall a w', c w = (Ok a, w') -> P a) ->
  (forall e w1, exists a w', h e w1 = (Ok a, w') /\ P a) ->
  exists a w', try_except c h w = (Ok a, w') /\ P a.
Proof.
  intros Hc Hh. unfold try_except.
  destruct (c w) as [[a|e] w1]; [eauto | apply Hh].
Qed.

(** A loop that returned ran every round to its end. *)
Lemma for_each_ok_inv {A} (f : A -> M unit) l w w' :
  for_each l f w = (Ok tt, w') ->
  forall x, In x l -> exists w1 w2, f x w1 = (Ok tt, w2).
Proof.
  revert w. induction l as [|y l IH]; intros w H x Hx; [done|].
  cbn [for_each] in H. apply bind_ok_inv in H as ([] & w1 & Hy & Hl).
  destruct Hx as [-> | Hx]; [eauto | by eapply IH].
Qed.

End RunFacts.

(** ** The applicator with nothing to apply *)

Section EmptyEditSet.
Import PdfProcessor.
Variable E : env.

Lemma is_empty_false s : s <> "" -> PyStr.is_empty s = false.
Proof. by destruct s. Qed.

Lemma primary_draw_first block : primary_draw block (text block) = first_attempt block.
Proof. reflexivity. Qed.

Lemma fallback_draw_second block :
  fallback_draw block (text block) = second_attempt block.
Proof. reflexivity. Qed.

(** A loop whose rounds add events of their own kind when they return and
    events of another kind when they raise. *)
Lemma for_each_cases {A} (R : A -> list event -> Prop)
    (P : exn -> list event -> Prop) (f : A -> M unit) l :
  (forall e evs1 evs2, P e evs2 -> P e (evs1 ++ evs2)) ->
  (forall x w, In x l ->
     exists r evs, f x w = (r, extend evs w)
                   /\ match r with Ok _ => R x evs | Raise e => P e evs end) ->
  forall w, exists r evs,
    for_each l f w = (r, extend evs w)
    /\ match r with
       | Ok _ => exists G, evs = concat G /\ Forall2 R l G
       | Raise e => P e evs
       end.
Proof.
  intros HP. induction l as [|x l IH]; intros Hf w; cbn [for_each].
  - exists (Ok tt), []. split; [by rewrite extend_nil|]. exists []. by split.
  - rewrite bind_run.
    destruct (Hf x w) as ([[]|e] & evs1 & -> & H1); [by left| |].
    + destruct (IH (fun y w1 Hy => Hf y w1 (or_intror Hy)) (extend evs1 w))
        as ([[]|e] & evs2 & -> & H2).
      * exists (Ok tt), (evs1 ++ evs2). split; [by rewrite extend_extend|].
        destruct H2 as (G & -> & HG). exists (evs1 :: G). split; [done|].
        by constructor.
      * exists (Raise e), (evs1 ++ evs2). split; [by rewrite extend_extend|].
        by apply HP.
    + by exists (Raise e), evs1.
Qed.

(** With nothing to apply a span is drawn with its original text, at the
    first attempt or at the second. *)
Lemma draw_block_nil debug_mode block w :
  spans_can_be_drawn E ->
  PyStr.strip (text block) <> "" ->
  exists evs,
    draw_block E debug_mode [] block w = (Ok tt, extend evs w)
    /\ span_drawn block evs.
Proof.
  intros HE Hne. unfold draw_block. cbn [apply_replacements].
  rewrite bind_run. cbn [lift mret res_ret]. rewrite (is_empty_false _ Hne).
  cbn [negb]. unfold insert_text, try_except.
  rewrite primary_draw_first, fallback_draw_second. unfold call_lib at 1.
  destruct (raises E (log w) (first_attempt block)) as [e|] eqn:Hfirst.
  - unfold call_lib. cbn [log record]. rewrite (HE _ _ _ Hfirst).
    exists [Called (first_attempt block) (Some e); returned (second_attempt block)].
    split; [|constructor]. unfold extend, record, returned. cbn.
    by rewrite <- app_assoc.
  - exists [returned (first_attempt block)]. split; [done | constructor].
Qed.

Lemma document_call_raised_app e evs1 evs2 :
  document_call_raised e evs2 -> document_call_raised e (evs1 ++ evs2).
Proof.
  intros (c & Hc & Hin). exists c. split; [done|]. apply in_or_app. by right.
Qed.

Lemma document_call_raised_more e evs1 evs2 :
  document_call_raised e evs1 -> document_call_raised e (evs1 ++ evs2).
Proof.
  intros (c & Hc & Hin). exists c. split; [done|]. apply in_or_app. by left.
Qed.

Lemma document_call_raised_now e c :
  document_call c -> document_call_raised e [Called c (Some e)].
Proof. intros Hc. exists c. split; [done | by left]. Qed.

(** The rendering of a page creates it with its width and height and draws
    its spans, or stops because the page could not be created. *)
Lemma render_page_nil debug_mode page w :
  spans_can_be_drawn E ->
  Forall (fun block => PyStr.strip (text block) <> "") (text_blocks page) ->
  exists r evs,
    render_page E debug_mode [] page w = (r, extend evs w)
    /\ match r with
       | Ok _ => page_recreated page evs
       | Raise e => document_call_raised e evs
       end.
Proof.
  intros HE Hne. unfold render_page. rewrite bind_run. unfold call_lib at 1.
  destruct (raises E (log w) (NewPage (page_width page) (page_height page)))
    as [e|].
  { exists (Raise e), [Called (NewPage (page_width page) (page_height page)) (Some e)].
    split; [done|]. by apply document_call_raised_now. }
  unfold fill_page. rewrite bind_run, record_extend.
  destruct (for_each_cases span_drawn (fun _ _ => False)
              (draw_block E debug_mode []) (text_blocks page))
    with (w := extend [Called (NewPage (page_width page) (page_height page)) None] w)
    as ([[]|e] & evs & -> & Hevs); [done| | |done].
  { intros block w1 Hin.
    destruct (draw_block_nil debug_mode block w1 HE) as (evs & -> & Hdrawn).
    { rewrite Forall_forall in Hne. apply Hne. by apply list_elem_of_In. }
    by exists (Ok tt), evs. }
  destruct Hevs as (G & -> & HG). cbn [for_each mret M_ret].
  exists (Ok tt),
    (returned (NewPage (page_width page) (page_height page)) :: concat G).
  split; [by rewrite extend_extend | by exists G].
Qed.

(** The body of the applicator with nothing to apply. *)
Lemma apply_body_nil pages_data output_path debug_mode w :
  spans_can_be_drawn E ->
  Forall (fun page =>
            Forall (fun block => PyStr.strip (text block) <> "") (text_blocks page))
         pages_data ->
  exists r evs w',
    (call_lib E FitzOpen ;;
     for_each pages_data (render_page E debug_mode []) ;;
     doc_save E output_path ;;
     call_lib E Close ;;
     mret true) w
    = (r, w')
    /\ log w' = log w ++ evs
    /\ match r with
       | Ok success =>
           success = true
           /\ exists pages_events,
                evs = returned FitzOpen :: concat pages_events
                      ++ [returned (Save output_path); returned Close]
                /\ Forall2 page_recreated pages_data pages_events
       | Raise e => document_call_raised e evs
       end.
Proof.
  intros HE Hne. rewrite bind_run. unfold call_lib at 1.
  destruct (raises E (log w) FitzOpen) as [e|].
  { exists (Raise e), [Called FitzOpen (Some e)]. eexists.
    split; [reflexivity|]. split; [done|]. by apply document_call_raised_now. }
  rewrite bind_run, record_extend.
  destruct (for_each_cases page_recreated document_call_raised
              (render_page E debug_mode []) pages_data document_call_raised_app)
    with (w := extend [Called FitzOpen None] w)
    as ([[]|e] & evs & -> & Hevs).
  { intros page w1 Hin. apply render_page_nil; [done|].
    rewrite Forall_forall in Hne. apply Hne. by apply list_elem_of_In. }
  2:{ exists (Raise e), ([Called FitzOpen None] ++ evs). eexists.
      split; [reflexivity|]. split; [by rewrite extend_extend|].
      by apply document_call_raised_app. }
  destruct Hevs as (G & -> & HG). rewrite extend_extend, bind_run.
  unfold doc_save, call_lib at 1.
  match goal with
  | |- context [raises E ?h (Save output_path)] =>
      destruct (raises E h (Save output_path)) as [e|]
  end.
  { exists (Raise e),
      (([Called FitzOpen None] ++ concat G) ++ [Called (Save output_path) (Some e)]).
    eexists. split; [reflexivity|]. split; [cbn; by rewrite <- !app_assoc|].
    apply document_call_raised_app. by apply document_call_raised_now. }
  rewrite bind_run. unfold call_lib at 1.
  match goal with
  | |- context [raises E ?h Close] => destruct (raises E h Close) as [e|]
  end.
  { exists (Raise e),
      ((([Called FitzOpen None] ++ concat G) ++ [Called (Save output_path) None])
       ++ [Called Close (Some e)]).
    eexists. split; [reflexivity|]. split; [cbn; by rewrite <- !app_assoc|].
    apply document_call_raised_app. by apply document_call_raised_now. }
  exists (Ok true),
    (returned FitzOpen :: concat G ++ [returned (Save output_path); returned Close]).
  eexists. split; [reflexivity|]. split.
  - unfold returned. cbn. by rewrite <- !app_assoc.
  - split; [done|]. by exists G.
Qed.

(** With a library that does not fail the calls are those that re-create
    the pages as they were extracted. *)
Lemma reliable_library_draws_as_extracted pages_data output_path debug_mode w :
  reliable E ->
  Forall (fun page =>
            Forall (fun block => PyStr.strip (text block) <> "") (text_blocks page))
         pages_data ->
  exists w',
    apply_modifications_to_pdf E pages_data [] output_path debug_mode w = (Ok true, w')
    /\ log w' = log w ++ map returned (identity_calls pages_data output_path).
Proof.
  intros HE Hne. unfold apply_modifications_to_pdf, try_except.
  rewrite bind_run, call_lib_reliable by done.
  rewrite bind_run.
  rewrite (for_each_events _
             (fun page =>
                returned (NewPage (page_width page) (page_height page))
                :: map (fun block => returned (primary_draw block (text block)))
                       (text_blocks page))).
  2:{ intros page w' Hin. unfold render_page, fill_page.
      rewrite bind_run, call_lib_reliable by done. rewrite bind_run.
      rewrite (for_each_events _
                 (fun block => [returned (primary_draw block (text block))])).
      2:{ intros block w1 Hblock. unfold draw_block. cbn [apply_replacements].
          rewrite bind_run. cbn [lift mret res_ret].
          rewrite is_empty_false.
          2:{ rewrite Forall_forall in Hne.
              specialize (Hne page ltac:(by apply list_elem_of_In)).
              rewrite Forall_forall in Hne. apply Hne. by apply list_elem_of_In. }
          cbn [negb]. unfold insert_text, try_except.
          by rewrite call_lib_reliable. }
      cbn [for_each]. rewrite extend_extend. cbn [app]. do 3 f_equal. }
  rewrite bind_run. unfold doc_save. rewrite call_lib_reliable by done.
  rewrite bind_run, call_lib_reliable by done.
  eexists. split; [reflexivity|]. cbn.
  unfold identity_calls. cbn [map]. rewrite map_app. cbn [map].
  rewrite <- !app_assoc. cbn. do 2 f_equal.
  f_equal. clear. induction pages_data as [|p l IH]; [done|].
  cbn [flat_map map]. rewrite map_app, IH. cbn [map]. do 2 f_equal.
  rewrite map_map. apply map_ext. intros b. unfold primary_draw.
  by destruct (bbox_of b) as [[[x0 y0] x1] y1].
Qed.

End EmptyEditSet.

(** C2 (as amended): with an empty Edit Set, whatever else the library does,
    as long as of the two attempts to draw a span one succeeds, and given
    that every span's text is non-empty after stripping: the applicator
    returns, and it returns True unless the opening, the creation of a page,
    the saving or the closing raised.  When it returns True the document
    was built by these calls and no others -- the opening; for every page,
    in order, a new page with the width and height of the source page, then
    every span of the page, in order, drawn once with its original text, as
    extracted or, after that attempt failed, at the default size without a
    colour; the saving and the closing.  No span is altered and none is
    dropped. *)
Theorem empty_edit_set_is_identity (E : env)
    (pages_data : list PdfProcessor.page_data) (output_path : string)
    (debug_mode : bool) (w : world) :
  spans_can_be_drawn E ->
  Forall (fun page =>
            Forall (fun block => PyStr.strip (PdfProcessor.text block) <> "")
                   (PdfProcessor.text_blocks page)) pages_data ->
  exists success evs w',
    PdfProcessor.apply_modifications_to_pdf E pages_data [] output_path debug_mode w
    = (Ok success, w')
    /\ log w' = log w ++ evs
    /\ if success
       then exists pages_events,
              evs = returned FitzOpen :: concat pages_events
                    ++ [returned (Save output_path); returned Close]
              /\ Forall2 page_recreated pages_data pages_events
       else exists e, document_call_raised e evs.
Proof.
  intros HE Hne. unfold PdfProcessor.apply_modifications_to_pdf, try_except.
  destruct (apply_body_nil E pages_data output_path debug_mode w HE Hne)
    as ([success|e] & evs & w1 & -> & Hlog & Hevs).
  - destruct Hevs as (-> & Hpages). by exists true, evs, w1.
  - destruct debug_mode; cbn.
    + exists false,
        (evs ++ [StError "Error applying modifications: " e; StError "Debug info: " e]).
      eexists. split; [reflexivity|]. split; [cbn; by rewrite Hlog, <- !app_assoc|].
      exists e. by apply document_call_raised_more.
    + exists false, (evs ++ [StError "Error applying modifications: " e]).
      eexists. split; [reflexivity|]. split; [cbn; by rewrite Hlog, <- !app_assoc|].
      exists e. by apply document_call_raised_more.
Qed.

Lemma empty_edit_set_is_identity_witness :
  exists success evs w',
    PdfProcessor.apply_modifications_to_pdf no_colors [sample_page; blank_page] []
      "out.pdf" false empty_world
    = (Ok success, w')
    /\ log w' = log empty_world ++ evs
    /\ if success
       then exists pages_events,
              evs = returned FitzOpen :: concat pages_events
                    ++ [returned (Save "out.pdf"); returned Close]
              /\ Forall2 page_recreated [sample_page; blank_page] pages_events
       else exists e, document_call_raised e evs.
Proof.
  apply (empty_edit_set_is_identity no_colors [sample_page; blank_page] "out.pdf"
           false empty_world).
  - intros h block e _. unfold second_attempt.
    destruct (PdfProcessor.bbox_of block) as [[[x0 y0] x1] y1]. reflexivity.
  - repeat constructor. vm_compute. discriminate.
Defined.

(** A run with a library that takes no colour: every span is drawn at the
    second attempt, and the applicator returns True. *)
Example colourless_library_draws_by_default :
  (PdfProcessor.apply_modifications_to_pdf no_colors [sample_page; blank_page] []
     "out.pdf" false empty_world).1 = Ok true
  /\ log (PdfProcessor.apply_modifications_to_pdf no_colors [sample_page; blank_page] []
            "out.pdf" false empty_world).2
     = [returned FitzOpen;
        returned (NewPage 612 792);
        Called (first_attempt sample_block) (Some (LibraryError 4));
        returned (second_attempt sample_block);
        returned (NewPage 612 792);
        returned (Save "out.pdf"); returned Close].
Proof. split; vm_compute; reflexivity. Qed.

(** C2 (as stated) fails: with a library that draws no text, on a page with
    one span whose text is not blank, the applicator with an empty Edit Set
    returns True and saves a document in which the span is dropped: both
    attempts to draw it raised, and nothing else was drawn. *)
Theorem empty_edit_set_drops_undrawable_span :
  PyStr.strip (PdfProcessor.text sample_block) <> ""
  /\ PdfProcessor.text_blocks sample_page = [sample_block]
  /\ (PdfProcessor.apply_modifications_to_pdf no_text [sample_page] []
        "out.pdf" false empty_world).1 = Ok true
  /\ log (PdfProcessor.apply_modifications_to_pdf no_text [sample_page] []
            "out.pdf" false empty_world).2
     = [returned FitzOpen;
        returned (NewPage 612 792);
        Called (first_attempt sample_block) (Some (LibraryError 4));
        Called (second_attempt sample_block) (Some (LibraryError 4));
        returned (Save "out.pdf"); returned Close].
Proof.
  split; [vm_compute; discriminate|]. split; [reflexivity|].
  split; vm_compute; reflexivity.
Qed.

(** ** Highlights *)

Section Highlights.
Import PdfProcessor.
Variable E : env.

Lemma call_lib_cases c w :
  call_lib E c w = (Ok tt, extend [Called c None] w)
  \/ exists e, call_lib E c w = (Raise e, extend [Called c (Some e)] w).
Proof. unfold call_lib. destruct (raises E (log w) c); eauto. Qed.

Lemma for_each_map {A B} (g : A -> B) (f : B -> M unit) l :
  for_each (map g l) f = for_each l (fun x => f (g x)).
Proof. induction l as [|x l IH]; [done|]. cbn. by rewrite IH. Qed.

Lemma for_each_all {A} (P : event -> Prop) (f : A -> M unit) l :
  (forall x w, exists evs, f x w = (Ok tt, extend evs w) /\ Forall P evs) ->
  forall w, exists evs, for_each l f w = (Ok tt, extend evs w) /\ Forall P evs.
Proof.
  intros Hf. induction l as [|x l IH]; intros w; cbn [for_each].
  - exists []. split; [by rewrite extend_nil | constructor].
  - destruct (Hf x w) as (evs1 & Hx & H1).
    destruct (IH (extend evs1 w)) as (evs2 & Hl & H2).
    exists (evs1 ++ evs2). split.
    + by rewrite bind_run, Hx, Hl, extend_extend.
    + by apply Forall_app.
Qed.

(** Drawing a span never raises and only leaves text events. *)
Lemma insert_text_events debug_mode block modified_text w :
  exists evs,
    insert_text E debug_mode block modified_text w = (Ok tt, extend evs w)
    /\ Forall is_text_event evs.
Proof.
  unfold insert_text, try_except.
  destruct (call_lib_cases (primary_draw block modified_text) w) as [-> | [e ->]].
  { eexists. split; [done|]. repeat constructor.
    unfold primary_draw. by destruct (bbox_of block) as [[[? ?] ?] ?]. }
  destruct (call_lib_cases (fallback_draw block modified_text)
              (extend [Called (primary_draw block modified_text) (Some e)] w))
    as [-> | [e2 ->]].
  { rewrite extend_extend. eexists. split; [done|].
    unfold primary_draw, fallback_draw.
    destruct (bbox_of block) as [[[? ?] ?] ?]. by repeat constructor. }
  destruct debug_mode; unfold emit, mret, M_ret;
    rewrite ?record_extend, !extend_extend;
    (eexists; split; [done|]);
    unfold primary_draw, fallback_draw;
    destruct (bbox_of block) as [[[? ?] ?] ?]; by repeat constructor.
Qed.

Lemma draw_block_events debug_mode edits block w :
  exists evs,
    draw_block E debug_mode (map encode edits) block w = (Ok tt, extend evs w)
    /\ Forall is_text_event evs.
Proof.
  unfold draw_block. rewrite bind_run. unfold lift.
  rewrite apply_replacements_encode.
  destruct (negb _); [apply insert_text_events|].
  exists []. split; [by rewrite extend_nil | constructor].
Qed.

Hypothesis E_rectangles : rectangles_reliable E.

Lemma rectangle_ran b w :
  exists evs,
    (call_lib E (MakeRect b) ;; call_lib E (DrawRect b DEFAULT_HIGHLIGHT_COLOR 2%float)) w
    = (Ok tt, extend evs w)
    /\ ran (rectangle_calls b) true evs.
Proof.
  rewrite bind_run. unfold call_lib.
  destruct (E_rectangles (log w) b) as [-> _].
  destruct (E_rectangles (log (record (Called (MakeRect b) None) w)) b) as [_ ->].
  rewrite !record_extend, extend_extend. eexists. split; [done|].
  repeat constructor.
Qed.

(** Marking a span never raises, and marks it. *)
Lemma mark_marked debug_mode mod_ b w :
  exists evs, mark E debug_mode mod_ b w = (Ok tt, extend evs w) /\ marked b evs.
Proof.
  unfold mark, try_except. rewrite !bind_run.
  destruct (call_lib_cases (AddHighlightAnnot b) w) as [-> | [e ->]].
  - rewrite bind_run.
    destruct (call_lib_cases (SetColors DEFAULT_HIGHLIGHT_COLOR)
                (extend [Called (AddHighlightAnnot b) None] w)) as [-> | [e ->]].
    + destruct (call_lib_cases AnnotUpdate
                  (extend [Called (SetColors DEFAULT_HIGHLIGHT_COLOR) None]
                     (extend [Called (AddHighlightAnnot b) None] w)))
        as [-> | [e ->]].
      * rewrite !extend_extend. eexists. split; [done|].
        apply marked_native. repeat constructor.
      * match goal with
        | |- context [mbind ?k (call_lib E (MakeRect b)) ?W] =>
            destruct (rectangle_ran b W) as (evs & -> & Hran)
        end.
        rewrite !extend_extend. eexists. split; [done|].
        rewrite <- ?app_assoc. cbn [app].
        apply (marked_rectangle b
                 [Called (AddHighlightAnnot b) None;
                  Called (SetColors DEFAULT_HIGHLIGHT_COLOR) None;
                  Called AnnotUpdate (Some e)] evs); [|done].
        repeat constructor.
    + match goal with
      | |- context [mbind ?k (call_lib E (MakeRect b)) ?W] =>
          destruct (rectangle_ran b W) as (evs & -> & Hran)
      end.
      rewrite !extend_extend. eexists. split; [done|].
      rewrite <- ?app_assoc. cbn [app].
      apply (marked_rectangle b
               [Called (AddHighlightAnnot b) None;
                Called (SetColors DEFAULT_HIGHLIGHT_COLOR) (Some e)] evs); [|done].
      repeat constructor.
  - match goal with
    | |- context [mbind ?k (call_lib E (MakeRect b)) ?W] =>
        destruct (rectangle_ran b W) as (evs & -> & Hran)
    end.
    rewrite !extend_extend. eexists. split; [done|].
    apply (marked_rectangle b [Called (AddHighlightAnnot b) (Some e)] evs); [|done].
    constructor.
Qed.

Lemma highlight_block_marked debug_mode target c r nt block w :
  exists G,
    highlight_block E debug_mode (encode (Highlight target c r nt)) block w
    = (Ok tt, extend (concat G) w)
    /\ Forall2 marked
         (if PyStr.contains (PyStr.lower target) (PyStr.lower (text block))
          then [bbox_of block] else []) G.
Proof.
  unfold highlight_block. rewrite bind_run. unfold lift.
  rewrite getitem_highlight_target. rewrite bind_run. cbn [Py.lower].
  destruct (PyStr.contains _ _).
  - destruct (mark_marked debug_mode (encode (Highlight target c r nt))
                (bbox_of block) w) as (evs & -> & Hm).
    exists [evs]. cbn. rewrite app_nil_r. split; [done|].
    constructor; [exact Hm | constructor].
  - exists []. cbn. rewrite extend_nil. split; [done|]. constructor.
Qed.

Lemma flat_map_filter {A B} (p : A -> bool) (g : A -> B) l :
  flat_map (fun x => if p x then [g x] else []) l = map g (List.filter p l).
Proof.
  induction l as [|x l IH]; [done|]. cbn. destruct (p x); cbn; by rewrite IH.
Qed.

Lemma highlight_mod_marked debug_mode blocks e w :
  exists G,
    highlight_mod E debug_mode blocks (encode e) w = (Ok tt, extend (concat G) w)
    /\ Forall2 marked (highlight_targets [e] blocks) G.
Proof.
  unfold highlight_targets. cbn [flat_map]. rewrite app_nil_r.
  destruct e as [old new c nt | target c r nt].
  - exists []. cbn. rewrite extend_nil. split; [done|]. constructor.
  - unfold highlight_mod. rewrite bind_run. unfold lift.
    rewrite getitem_highlight_type. cbn [eq_str String.eqb].
    change ("highlight" =? "highlight")%string with true. cbn iota.
    rewrite <- flat_map_filter.
    apply (for_each_groups
             (fun block =>
                if PyStr.contains (PyStr.lower target) (PyStr.lower (text block))
                then [bbox_of block] else [])).
    intros block w'. apply highlight_block_marked.
Qed.



Lemma fill_page_marks (debug_mode : bool) (edits : list edit)
    (page : page_data) (w : world) :
  exists drawn marks,
    fill_page E debug_mode (map encode edits) page w
    = (Ok tt, extend (drawn ++ concat marks) w)
    /\ Forall is_text_event drawn
    /\ Forall2 marked (highlight_targets edits (text_blocks page)) marks.
Proof.
  unfold fill_page. rewrite bind_run.
  destruct (for_each_all is_text_event
              (draw_block E debug_mode (map encode edits)) (text_blocks page)
              (fun block w' => draw_block_events debug_mode edits block w') w)
    as (drawn & -> & Hdrawn).
  rewrite for_each_map.
  destruct (for_each_groups
              (fun e => highlight_targets [e] (text_blocks page)) marked
              (fun e => highlight_mod E debug_mode (text_blocks page) (encode e))
              edits
              (fun e w' => highlight_mod_marked debug_mode (text_blocks page) e w')
              (extend drawn w))
    as (marks & -> & Hmarks).
  exists drawn, marks. rewrite extend_extend. split; [done|]. split; [done|].
  revert Hmarks. unfold highlight_targets.
  replace (flat_map _ edits) with
    (flat_map
       (fun e =>
          match e with
          | Highlight target _ _ _ =>
              map bbox_of
                (List.filter
                   (fun block =>
                      PyStr.contains (PyStr.lower target) (PyStr.lower (text block)))
                   (text_blocks page))
          | Replace _ _ _ _ => []
          end) edits); [done|].
  apply flat_map_ext. intros e. cbn. by rewrite app_nil_r.
Qed.

End Highlights.




Example rectangle_instead_of_annotation :
  log (PdfProcessor.fill_page no_annotations false
         (map encode [Highlight "BUDGET" "" "" ""]) sample_page empty_world).2
  = [Called (InsertText (72, 84)%float "Total budget: 40" 12%float
               (Some DEFAULT_TEXT_COLOR)) None;
     Called (AddHighlightAnnot (72, 72, 200, 86)%float) (Some (LibraryError 1));
     Called (MakeRect (72, 72, 200, 86)%float) None;
     Called (DrawRect (72, 72, 200, 86)%float DEFAULT_HIGHLIGHT_COLOR 2%float) None].
Proof. vm_compute. reflexivity. Qed.

(** ** Edits with a missing field *)

Section MissingFields.
Import PdfProcessor.
Variable E : env.

Lemma replace_step_ok_inv original_text modified_text mod_ result :
  replace_step original_text modified_text mod_ = Ok result ->
  exists ty,
    getitem mod_ "type" = Ok ty
    /\ (eq_str ty "replace" = true ->
        exists old,
          getitem mod_ "original_text" = Ok (VStr old)
          /\ (PyStr.contains old original_text = true ->
              exists new, getitem mod_ "new_text" = Ok new)).
Proof.
  unfold replace_step.
  destruct (getitem mod_ "type") as [ty|e] eqn:Hty; [|discriminate].
  cbn [mbind res_bind]. intros H. exists ty. split; [done|]. intros Hrep.
  rewrite Hrep in H.
  destruct (getitem mod_ "original_text") as [old|e] eqn:Hold; [|discriminate].
  cbn [mbind res_bind] in H.
  destruct old as [ | | | |old| | ]; try discriminate.
  exists old. split; [done|]. intros Hin. cbn [in_str mbind res_bind] in H.
  rewrite Hin in H.
  destruct (getitem mod_ "new_text") as [new|e] eqn:Hnew; [eauto|discriminate].
Qed.

Lemma apply_replacements_ok_inv modifications original_text :
  forall modified_text result,
    apply_replacements modifications original_text modified_text = Ok result ->
    forall mod_, In mod_ modifications ->
      exists m1 m2, replace_step original_text m1 mod_ = Ok m2.
Proof.
  induction modifications as [|m ms IH]; intros mt result H mod_ Hin; [done|].
  cbn [apply_replacements] in H.
  destruct (replace_step original_text mt m) as [mt'|e] eqn:Hstep; [|discriminate].
  cbn [mbind res_bind] in H.
  destruct Hin as [-> | Hin]; [eauto | by eapply IH].
Qed.

Lemma draw_block_ok_inv debug_mode modifications block w w' :
  draw_block E debug_mode modifications block w = (Ok tt, w') ->
  exists result,
    apply_replacements modifications (text block) (text block) = Ok result.
Proof.
  unfold draw_block. intros (result & w1 & H & _)%bind_ok_inv.
  apply lift_ok_inv in H. eauto.
Qed.

Lemma highlight_mod_ok_inv debug_mode blocks mod_ w w' :
  highlight_mod E debug_mode blocks mod_ w = (Ok tt, w') ->
  exists ty,
    getitem mod_ "type" = Ok ty
    /\ (eq_str ty "highlight" = true ->
        forall block, In block blocks ->
          exists target, getitem mod_ "text_to_highlight" = Ok target).
Proof.
  unfold highlight_mod. intros (ty & w1 & Hty & H)%bind_ok_inv.
  apply lift_ok_inv in Hty. exists ty. split; [done|].
  intros Hhl block Hin. rewrite Hhl in H.
  destruct (for_each_ok_inv _ _ _ _ H block Hin) as (w2 & w3 & Hb).
  unfold highlight_block in Hb.
  apply bind_ok_inv in Hb as (target & w4 & Ht & _).
  apply lift_ok_inv in Ht. eauto.
Qed.

(** The applicator never raises. *)
Lemma apply_modifications_returns pages_data modifications output_path debug_mode w :
  exists success w',
    apply_modifications_to_pdf E pages_data modifications output_path debug_mode w
    = (Ok success, w').
Proof.
  unfold apply_modifications_to_pdf, try_except.
  match goal with
  | |- context [match ?c w with _ => _ end] => destruct (c w) as [[success|e] w1]
  end; [eauto|].
  destruct debug_mode; cbn; eauto.
Qed.

(** When it returns [True], every page was rendered to its end. *)
Lemma apply_modifications_true_inv pages_data modifications output_path debug_mode w w' :
  apply_modifications_to_pdf E pages_data modifications output_path debug_mode w
  = (Ok true, w') ->
  forall page, In page pages_data ->
    exists w1 w2, fill_page E debug_mode modifications page w1 = (Ok tt, w2).
Proof.
  unfold apply_modifications_to_pdf, try_except.
  match goal with
  | |- context [match ?c w with _ => _ end] =>
      destruct (c w) as [[success|e] w1] eqn:Hbody
  end.
  2:{ destruct debug_mode; cbn; discriminate. }
  intros _ page Hin.
  apply bind_ok_inv in Hbody as ([] & w2 & _ & Hbody).
  apply bind_ok_inv in Hbody as ([] & w3 & Hpages & _).
  destruct (for_each_ok_inv _ _ _ _ Hpages page Hin) as (w4 & w5 & Hpage).
  unfold render_page in Hpage.
  apply bind_ok_inv in Hpage as ([] & w6 & _ & Hfill). eauto.
Qed.

Lemma defective_not_true pages_data modifications output_path debug_mode mod_ w w' :
  In mod_ modifications -> defective pages_data mod_ ->
  apply_modifications_to_pdf E pages_data modifications output_path debug_mode w
  <> (Ok true, w').
Proof.
  intros Hmod Hdef Htrue.
  pose proof (apply_modifications_true_inv _ _ _ _ _ _ Htrue) as Hpages.
  assert (Hfill : forall page block, In page pages_data -> In block (text_blocks page) ->
            (exists m1 m2, replace_step (text block) m1 mod_ = Ok m2)
            /\ exists ty, getitem mod_ "type" = Ok ty
                 /\ (eq_str ty "highlight" = true ->
                     exists target, getitem mod_ "text_to_highlight" = Ok target)).
  { intros page block Hpage Hblock.
    destruct (Hpages page Hpage) as (w1 & w2 & Hf). unfold fill_page in Hf.
    apply bind_ok_inv in Hf as ([] & w3 & Hdraw & Hhl).
    destruct (for_each_ok_inv _ _ _ _ Hdraw block Hblock) as (w4 & w5 & Hb).
    apply draw_block_ok_inv in Hb as (result & Hres).
    split; [by eapply apply_replacements_ok_inv|].
    destruct (for_each_ok_inv _ _ _ _ Hhl mod_ Hmod) as (w6 & w7 & Hm).
    apply highlight_mod_ok_inv in Hm as (ty & Hty & Htarget).
    exists ty. split; [done|]. intros Hhlty. by apply (Htarget Hhlty block). }
  destruct Hdef as [Hne Hlack | page block Hpage Hblock Hty Hlack
                   | page block old Hpage Hblock Hty Hold Hin Hlack
                   | page block Hpage Hblock Hty Hlack].
  - destruct pages_data as [|page ?]; [done|].
    destruct (Hpages page (or_introl eq_refl)) as (w1 & w2 & Hf). unfold fill_page in Hf.
    apply bind_ok_inv in Hf as ([] & w3 & _ & Hhl).
    destruct (for_each_ok_inv _ _ _ _ Hhl mod_ Hmod) as (w6 & w7 & Hm).
    apply highlight_mod_ok_inv in Hm as (ty & Hty & _).
    unfold lacks in Hlack. congruence.
  - destruct (Hfill page block Hpage Hblock) as [(m1 & m2 & Hstep) _].
    apply replace_step_ok_inv in Hstep as (ty & Hty' & Hrep).
    unfold has_type in Hty. rewrite Hty in Hty'. injection Hty' as <-.
    destruct (Hrep eq_refl) as (old & Hold & _). unfold lacks in Hlack. congruence.
  - destruct (Hfill page block Hpage Hblock) as [(m1 & m2 & Hstep) _].
    apply replace_step_ok_inv in Hstep as (ty & Hty' & Hrep).
    unfold has_type in Hty. rewrite Hty in Hty'. injection Hty' as <-.
    destruct (Hrep eq_refl) as (old' & Hold' & Hnew).
    rewrite Hold in Hold'. injection Hold' as <-.
    destruct (Hnew Hin) as (new & Hnew'). unfold lacks in Hlack. congruence.
  - destruct (Hfill page block Hpage Hblock) as [_ (ty & Hty' & Htarget)].
    unfold has_type in Hty. rewrite Hty in Hty'. injection Hty' as <-.
    destruct (Htarget eq_refl) as (target & Ht). unfold lacks in Hlack. congruence.
Qed.

(** A failed applicator makes the generation return no bytes. *)
Lemma generate_after_failure pages_data modifications debug_mode w :
  (forall output_path w1 w2,
     apply_modifications_to_pdf E pages_data modifications output_path debug_mode w1
     <> (Ok true, w2)) ->
  (generate_modified_pdf E pages_data modifications debug_mode w).1 = Ok "".
Proof.
  intros Hfail. unfold generate_modified_pdf, try_except. rewrite bind_run.
  destruct (named_temporary_file E ".pdf" w) as [[temp_path|e] w1]; [|done].
  rewrite bind_run.
  destruct (apply_modifications_returns pages_data modifications temp_path debug_mode w1)
    as (success & w2 & Happly).
  rewrite Happly. destruct success; [by apply Hfail in Happly | done].
Qed.

End MissingFields.

(** C10 (as amended): when an edit of the list lacks a field that the
    applicator reads on these pages -- the type, if there is a page at all;
    the original text of a replace edit or the target of a highlight edit,
    if some page has a span; the new text of a replace edit whose original
    text occurs in some span -- the applicator returns False and the
    generation returns the empty byte string, whatever the library does. *)
Theorem missing_field_fails_generation (E : env)
    (pages_data : list PdfProcessor.page_data) (modifications : list value)
    (mod_ : value) (output_path : string) (debug_mode : bool) (w : world) :
  In mod_ modifications ->
  defective pages_data mod_ ->
  (PdfProcessor.apply_modifications_to_pdf E pages_data modifications
     output_path debug_mode w).1 = Ok false
  /\ (PdfProcessor.generate_modified_pdf E pages_data modifications debug_mode w).1
     = Ok "".
Proof.
  intros Hmod Hdef. split.
  - destruct (apply_modifications_returns E pages_data modifications output_path
                debug_mode w) as (success & w' & Happly).
    rewrite Happly. destruct success; [|done].
    by apply (defective_not_true E _ _ _ _ _ _ _ Hmod Hdef) in Happly.
  - apply generate_after_failure. intros path w1 w2.
    by apply (defective_not_true E _ _ _ _ mod_).
Qed.

Lemma missing_field_fails_generation_witness :
  (PdfProcessor.apply_modifications_to_pdf quiet [sample_page]
     [dict [("type", VStr "highlight")]] "out.pdf" false empty_world).1 = Ok false
  /\ (PdfProcessor.generate_modified_pdf quiet [sample_page]
        [dict [("type", VStr "highlight")]] false empty_world).1 = Ok "".
Proof.
  apply (missing_field_fails_generation quiet [sample_page]
           [dict [("type", VStr "highlight")]] (dict [("type", VStr "highlight")])).
  - left. reflexivity.
  - apply (lacks_text_to_highlight _ _ sample_page sample_block).
    + left. reflexivity.
    + left. reflexivity.
    + reflexivity.
    + reflexivity.
Defined.

(** C10 (as stated) fails: on a page without spans a highlight edit without
    its target is never read, and the document is generated. *)
Lemma missing_field_unnoticed_on_blank_page :
  lacks (dict [("type", VStr "highlight")]) "text_to_highlight"
  /\ (PdfProcessor.apply_modifications_to_pdf quiet [blank_page]
        [dict [("type", VStr "highlight")]] "out.pdf" false empty_world).1 = Ok true
  /\ (PdfProcessor.generate_modified_pdf quiet [blank_page]
        [dict [("type", VStr "highlight")]] false empty_world).1 = Ok "%PDF-1.7".
Proof. repeat split; vm_compute; reflexivity. Qed.

(** ** The temporary file *)

Section TemporaryFile.
Import PdfProcessor.
Variable E : env.

Lemma keeps_ret {A} (a : A) : keeps_files (mret a : M A).
Proof. by intros w r w' path [= _ <-]. Qed.

Lemma keeps_lift {A} (r : res A) : keeps_files (lift r).
Proof. by intros w r' w' path [= _ <-]. Qed.

Lemma keeps_emit ev : keeps_files (emit ev).
Proof. by intros w r w' path [= _ <-]. Qed.

Lemma keeps_call_lib c : keeps_files (call_lib E c).
Proof.
  intros w r w' path. unfold call_lib.
  by destruct (raises E (log w) c); intros [= _ <-].
Qed.

Lemma keeps_bind {A B} (c : M A) (f : A -> M B) :
  keeps_files c -> (forall a, keeps_files (f a)) -> keeps_files (c ≫= f).
Proof.
  intros Hc Hf w r w' path. rewrite bind_run.
  destruct (c w) as [[a|e] w1] eqn:Hcw.
  - intros Hfa Hpath. eapply Hf; [done|]. by eapply Hc.
  - intros [= _ <-] Hpath. by eapply Hc.
Qed.

Lemma keeps_try {A} (c : M A) (h : exn -> M A) :
  keeps_files c -> (forall e, keeps_files (h e)) -> keeps_files (try_except c h).
Proof.
  intros Hc Hh w r w' path. unfold try_except.
  destruct (c w) as [[a|e] w1] eqn:Hcw.
  - intros [= _ <-] Hpath. by eapply Hc.
  - intros Hhe Hpath. eapply Hh; [done|]. by eapply Hc.
Qed.

Lemma keeps_for_each {A} (f : A -> M unit) l :
  (forall x, keeps_files (f x)) -> keeps_files (for_each l f).
Proof.
  intros Hf. induction l as [|x l IH]; cbn [for_each];
    [apply keeps_ret | by apply keeps_bind].
Qed.

Lemma keeps_if {A} (b : bool) (c1 c2 : M A) :
  keeps_files c1 -> keeps_files c2 -> keeps_files (if b then c1 else c2).
Proof. by destruct b. Qed.

Lemma keeps_doc_save path : keeps_files (doc_save E path).
Proof.
  intros w r w' p. unfold doc_save, call_lib.
  destruct (raises E (log w) (Save path)); intros [= _ <-]; [done|].
  cbn. intros Hp. destruct (decide (path = p)) as [->|Hne].
  - rewrite lookup_insert_eq. eauto.
  - by rewrite lookup_insert_ne.
Qed.

Lemma keeps_apply_modifications pages_data modifications output_path debug_mode :
  keeps_files
    (apply_modifications_to_pdf E pages_data modifications output_path debug_mode).
Proof.
  unfold apply_modifications_to_pdf, render_page, fill_page, draw_block,
    insert_text, highlight_mod, highlight_block, mark.
  repeat first
    [ apply keeps_ret | apply keeps_lift | apply keeps_emit | apply keeps_call_lib
    | apply keeps_doc_save | apply keeps_if
    | apply keeps_bind | apply keeps_try | apply keeps_for_each | intros ? ].
Qed.

(** Whenever the temporary file was created and the applicator fails, the
    generation returns no bytes and the file is still there. *)
Lemma failure_keeps_temporary_file pages_data modifications debug_mode w :
  raises E (log w) (NamedTemporaryFile ".pdf") = None ->
  (forall output_path w1 w2,
     apply_modifications_to_pdf E pages_data modifications output_path debug_mode w1
     <> (Ok true, w2)) ->
  let '(result, w') :=
    generate_modified_pdf E pages_data modifications debug_mode w in
  result = Ok "" /\ is_Some (files w' !! mktemp E (files w)).
Proof.
  intros Htemp Hfail. unfold generate_modified_pdf, try_except.
  rewrite bind_run. unfold named_temporary_file, call_lib at 1. rewrite Htemp.
  rewrite bind_run. cbn [files record].
  set (temp_path := mktemp E (files w)).
  set (w1 := set_files _ _).
  destruct (apply_modifications_returns E pages_data modifications temp_path
              debug_mode w1) as (success & w2 & Happly).
  rewrite Happly. destruct success; [by apply Hfail in Happly|].
  cbn. split; [done|].
  eapply (keeps_apply_modifications _ _ _ _ _ _ _ _ Happly).
  subst w1. cbn. rewrite lookup_insert_eq. eauto.
Qed.

End TemporaryFile.

(** C4: when the applicator fails (here on an edit without its original
    text), the generation returns no bytes and the temporary file it created
    is still there. *)
Theorem temporary_file_left_after_failure :
  let '(result, w') :=
    PdfProcessor.generate_modified_pdf quiet [sample_page]
      [dict [("type", VStr "replace")]] false empty_world in
  result = Ok ""
  /\ files w' !! "/tmp/tmpa1b2c3.pdf" = Some ""
  /\ Forall (fun ev => forall path r, ev <> Called (Unlink path) r) (log w').
Proof.
  vm_compute. split; [reflexivity|]. split; [reflexivity|].
  repeat constructor; discriminate.
Qed.

(** On the success path the file is read and removed. *)
Example temporary_file_removed_after_success :
  let '(result, w') :=
    PdfProcessor.generate_modified_pdf quiet [sample_page] [] false empty_world in
  result = Ok "%PDF-1.7" /\ files w' !! "/tmp/tmpa1b2c3.pdf" = None.
Proof. vm_compute. split; reflexivity. Qed.

(** ** A response that is not JSON *)

Example clean_response_fenced :
  GeminiClient.clean_response
    ("  ```json" +:+ String "010"%char "{}" +:+ String "010"%char "```  ")
  = "{}".
Proof. reflexivity. Qed.

(** C5: when the response is not JSON, with or without a code fence,
    [get_llm_modifications] returns and does not raise: its result is the
    Edit Set of [create_fallback_modification], or the result with an empty
    list of modifications and the summary "Error occurred". *)
Theorem malformed_response_never_raises (E : env)
    (original_text modification_query : string) (debug_mode : bool) (w : world) :
  malformed E original_text modification_query ->
  exists result w',
    GeminiClient.get_llm_modifications E original_text modification_query debug_mode w
    = (Ok result, w')
    /\ (Utils.create_fallback_modification original_text modification_query = Ok result
        \/ result = dict [("modifications", VList []);
                          ("summary", VStr "Error occurred")]).
Proof.
  intros Hbad. unfold GeminiClient.get_llm_modifications.
  apply try_except_post.
  - cbv zeta. intros result w' Hbody. left.
    apply bind_ok_inv in Hbody as ([] & w1 & _ & Hbody).
    apply bind_ok_inv in Hbody as ([] & w2 & _ & Hbody).
    apply bind_ok_inv in Hbody as (text & w3 & Htext & Hbody).
    unfold GeminiClient.read_text in Htext.
    apply bind_ok_inv in Htext as ([] & w4 & _ & [= <- _]).
    unfold GeminiClient.try_except_json, lift at 1 in Hbody.
    destruct (json_loads E _) as [v|e] eqn:Hjson; [by destruct (Hbad v)|].
    destruct e; try discriminate.
    apply bind_ok_inv in Hbody as ([] & w5 & _ & Hbody).
    by apply lift_ok_inv in Hbody.
  - intros e w1. cbn. eauto.
Qed.

Lemma quiet_malformed : malformed quiet "Total budget: 40" "highlight the budget".
Proof. intros v. discriminate. Qed.

Lemma malformed_response_never_raises_witness :
  exists result w',
    GeminiClient.get_llm_modifications quiet "Total budget: 40" "highlight the budget"
      true empty_world
    = (Ok result, w')
    /\ (Utils.create_fallback_modification "Total budget: 40" "highlight the budget"
        = Ok result
        \/ result = dict [("modifications", VList []);
                          ("summary", VStr "Error occurred")]).
Proof.
  apply (malformed_response_never_raises quiet "Total budget: 40"
           "highlight the budget" true empty_world).
  apply quiet_malformed.
Defined.

Example model_failure_gives_error_result :
  (GeminiClient.get_llm_modifications no_model "Total budget: 40"
     "highlight the budget" false empty_world).1
  = Ok (dict [("modifications", VList []); ("summary", VStr "Error occurred")]).
Proof. vm_compute. reflexivity. Qed.

Example quiet_gives_fallback :
  (GeminiClient.get_llm_modifications quiet "Total budget: 40"
     "highlight the budget" false empty_world).1
  = Ok (fallback_result [Utils.highlight_edit "budget"] "highlight the budget").
Proof. vm_compute. reflexivity. Qed.

(** ** The span extractor *)

Section Extraction.
Import PdfProcessor.

Lemma flat_map_map_filter {A B C} (p : B -> bool) (g : B -> C) (h : A -> list B) l :
  flat_map (fun x => map g (List.filter p (h x))) l
  = map g (List.filter p (flat_map h l)).
Proof.
  induction l as [|x l IH]; [done|]. cbn.
  by rewrite IH, List.filter_app, map_app.
Qed.

Lemma extract_spans_recorded l :
  flat_map extract_span l = map recorded (List.filter nonblank l).
Proof.
  induction l as [|s l IH]; [done|]. cbn [flat_map List.filter].
  unfold extract_span at 1. fold (nonblank s).
  destruct (nonblank s); cbn; by rewrite IH.
Qed.

Lemma extract_page_blocks n page :
  text_blocks (extract_page n page)
  = map recorded (List.filter nonblank (all_spans page)).
Proof.
  cbn. unfold all_spans. rewrite <- flat_map_map_filter.
  apply flat_map_ext. intros block. unfold extract_block.
  destruct (lines block) as [ls|]; [|done].
  rewrite <- flat_map_map_filter. apply flat_map_ext. intros line.
  apply extract_spans_recorded.
Qed.

(** The body of the loop returns the record of its page, or raises. *)
Lemma read_page_cases E doc page_num page w :
  doc !! page_num = Some page ->
  exists r w',
    read_page E doc page_num w = (r, w')
    /\ (r = Ok (extract_page page_num page) \/ exists e, r = Raise e).
Proof.
  intros Hpage. unfold read_page. rewrite bind_run.
  destruct (call_lib_cases E (LoadPage page_num) w) as [-> | [e ->]]; [|by eauto 6].
  rewrite bind_run, Hpage. unfold lift at 1. rewrite bind_run.
  destruct (call_lib_cases E (PageRect page_num)
              (extend [Called (LoadPage page_num) None] w)) as [-> | [e ->]];
    [|by eauto 6].
  rewrite bind_run.
  match goal with
  | |- context [call_lib E (GetText page_num) ?w1] =>
      destruct (call_lib_cases E (GetText page_num) w1) as [-> | [e ->]]
  end; [|by eauto 6].
  eexists _, _. split; [reflexivity|]. by left.
Qed.

(** The loop over the pages returns the records of all pages, or raises. *)
Lemma extract_pages_range E post :
  forall pre w, exists r w',
    extract_pages E (pre ++ post) (seq (length pre) (length post)) w = (r, w')
    /\ (r = Ok (zip_with extract_page (seq (length pre) (length post)) post)
        \/ exists e, r = Raise e).
Proof.
  induction post as [|page post IH]; intros pre w.
  { eexists _, _. split; [reflexivity|]. by left. }
  cbn [length seq extract_pages zip_with]. rewrite bind_run.
  destruct (read_page_cases E (pre ++ page :: post) (length pre) page w)
    as (r1 & w1 & -> & [-> | (e & ->)]); [by apply list_lookup_middle| |by eauto 6].
  rewrite bind_run.
  specialize (IH (pre ++ [page]) w1).
  rewrite <- app_assoc, length_app in IH. cbn [app length] in IH.
  rewrite Nat.add_1_r in IH.
  destruct IH as (r2 & w2 & -> & [-> | (e & ->)]); [|by eauto 6].
  eexists _, _. split; [reflexivity|]. by left.
Qed.

(** With a library that does not fail the loop returns. *)
Lemma extract_pages_reliable E post :
  reliable E ->
  forall pre w, exists w',
    extract_pages E (pre ++ post) (seq (length pre) (length post)) w
    = (Ok (zip_with extract_page (seq (length pre) (length post)) post), w').
Proof.
  intros HE. induction post as [|page post IH]; intros pre w; [by eexists|].
  cbn [length seq extract_pages zip_with]. rewrite bind_run.
  unfold read_page at 1. rewrite bind_run, call_lib_reliable by done.
  rewrite bind_run, list_lookup_middle by done. unfold lift at 1.
  rewrite bind_run, call_lib_reliable by done.
  rewrite bind_run, call_lib_reliable by done.
  cbn [mret M_ret]. rewrite bind_run.
  match goal with
  | |- context [extract_pages E _ _ ?w1] => specialize (IH (pre ++ [page]) w1)
  end.
  rewrite <- app_assoc, length_app in IH. cbn [app length] in IH.
  rewrite Nat.add_1_r in IH. destruct IH as (w2 & ->). by eexists.
Qed.

Lemma zip_with_seq_lookup {A B} (f : nat -> A -> B) l :
  forall k i, zip_with f (seq k (length l)) l !! i = f (k + i)%nat <$> l !! i.
Proof.
  induction l as [|x l IH]; intros k i; [done|].
  destruct i as [|i]; cbn.
  - by rewrite Nat.add_0_r.
  - rewrite IH. by rewrite Nat.add_succ_r.
Qed.

Lemma recorded_nonblank l :
  Forall (fun block => PyStr.strip (text block) <> "")
         (map recorded (List.filter nonblank l)).
Proof.
  induction l as [|s l IH]; [constructor|]. cbn [List.filter].
  destruct (nonblank s) eqn:Hs; [|done]. cbn [map]. constructor; [|done].
  change (text (recorded s)) with (span_text s). unfold nonblank in Hs.
  by destruct (PyStr.strip (span_text s)).
Qed.

Lemma recorded_color l :
  Forall (fun block => color_of block <> ColorInt 0) (map recorded l).
Proof.
  induction l as [|s l IH]; constructor; [|done]. cbn.
  destruct (span_color s =? 0)%Z eqn:Hc; cbn; [done|].
  intros [= H]. rewrite H in Hc. discriminate.
Qed.

Lemma no_lines_no_spans page :
  Forall (fun block => lines block = None) (blocks page) -> all_spans page = [].
Proof.
  unfold all_spans. induction 1 as [|block l Hb _ IH]; [done|].
  cbn. by rewrite Hb, IH.
Qed.

End Extraction.

(** C9: for a document the library reads, the extractor returns one record
    per page, in the order of the pages and numbered from 0, each with the
    width and height of its page; the record lists the text runs of the
    page whose text is non-empty after stripping, a run of colour 0 with the
    default colour; a page without text blocks has an empty list. *)
Theorem extractor_keeps_every_page (E : env) (pdf_bytes : string) (w : world) :
  reliable E ->
  exists pages_data w',
    PdfProcessor.extract_pdf_data E pdf_bytes w = (Ok pages_data, w')
    /\ length pages_data = length (parse_pdf E pdf_bytes)
    /\ forall i page,
         parse_pdf E pdf_bytes !! i = Some page ->
         exists record,
           pages_data !! i = Some record
           /\ PdfProcessor.page_num record = i
           /\ PdfProcessor.page_width record = rect_width page
           /\ PdfProcessor.page_height record = rect_height page
           /\ PdfProcessor.text_blocks record
              = map recorded (List.filter nonblank (all_spans page))
           /\ (Forall (fun block => lines block = None) (blocks page) ->
               PdfProcessor.text_blocks record = [])
           /\ Forall (fun block => PyStr.strip (PdfProcessor.text block) <> "")
                     (PdfProcessor.text_blocks record)
           /\ Forall (fun block => PdfProcessor.color_of block <> ColorInt 0)
                     (PdfProcessor.text_blocks record).
Proof.
  intros HE. unfold PdfProcessor.extract_pdf_data, try_except.
  rewrite bind_run, call_lib_reliable by done. cbv zeta.
  rewrite bind_run, call_lib_reliable by done. rewrite bind_run.
  match goal with
  | |- context [PdfProcessor.extract_pages E _ _ ?w1] =>
      destruct (extract_pages_reliable E (parse_pdf E pdf_bytes) HE [] w1)
        as (w2 & Hrange)
  end.
  cbn [app length] in Hrange. rewrite Hrange.
  rewrite bind_run, call_lib_reliable by done.
  eexists _, _. split; [reflexivity|]. split.
  - rewrite length_zip_with, length_seq. cbn. lia.
  - intros i page Hpage. cbn [length].
    exists (PdfProcessor.extract_page i page).
    rewrite zip_with_seq_lookup, Hpage. cbn [fmap option_fmap option_map Nat.add].
    split; [done|]. split; [done|]. split; [done|]. split; [done|].
    rewrite extract_page_blocks.
    split; [done|]. split; [|split].
    + intros Hnone. by rewrite no_lines_no_spans.
    + apply recorded_nonblank.
    + apply recorded_color.
Qed.

Lemma extractor_keeps_every_page_witness :
  exists pages_data w',
    PdfProcessor.extract_pdf_data sample_reader "%PDF" empty_world = (Ok pages_data, w')
    /\ length pages_data = length (parse_pdf sample_reader "%PDF")
    /\ forall i page,
         parse_pdf sample_reader "%PDF" !! i = Some page ->
         exists record,
           pages_data !! i = Some record
           /\ PdfProcessor.page_num record = i
           /\ PdfProcessor.page_width record = rect_width page
           /\ PdfProcessor.page_height record = rect_height page
           /\ PdfProcessor.text_blocks record
              = map recorded (List.filter nonblank (all_spans page))
           /\ (Forall (fun block => lines block = None) (blocks page) ->
               PdfProcessor.text_blocks record = [])
           /\ Forall (fun block => PyStr.strip (PdfProcessor.text block) <> "")
                     (PdfProcessor.text_blocks record)
           /\ Forall (fun block => PdfProcessor.color_of block <> ColorInt 0)
                     (PdfProcessor.text_blocks record).
Proof.
  apply (extractor_keeps_every_page sample_reader "%PDF" empty_world).
  intros h c. reflexivity.
Defined.

Example extract_sample_document :
  (PdfProcessor.extract_pdf_data sample_reader "%PDF" empty_world).1
  = Ok [ {| PdfProcessor.page_num := 0;
            PdfProcessor.page_width := 612%float;
            PdfProcessor.page_height := 792%float;
            PdfProcessor.text_blocks :=
              [recorded (sample_span "Title" 0); recorded (sample_span "body" 255)] |};
         {| PdfProcessor.page_num := 1;
            PdfProcessor.page_width := 595%float;
            PdfProcessor.page_height := 842%float;
            PdfProcessor.text_blocks := [] |} ].
Proof. vm_compute. reflexivity. Qed.

(** * Further properties *)

(** ** More facts about text *)

Section MoreTextFacts.

Lemma append_cons c s t : String c s +:+ t = String c (s +:+ t).
Proof. reflexivity. Qed.

Lemma append_empty_r s : s +:+ "" = s.
Proof. induction s as [|c s IH]; [done|]. by rewrite append_cons, IH. Qed.

Lemma append_assoc s t u : (s +:+ t) +:+ u = s +:+ (t +:+ u).
Proof. induction s as [|c s IH]; [done|]. by rewrite !append_cons, IH. Qed.

Lemma length_append s t :
  String.length (s +:+ t) = (String.length s + String.length t)%nat.
Proof. induction s as [|c s IH]; [done|]. rewrite append_cons. cbn. by rewrite IH. Qed.

Lemma startswith_refl s : PyStr.startswith s s = true.
Proof. induction s as [|c s IH]; [done|]. cbn. by rewrite Ascii.eqb_refl. Qed.

Lemma startswith_append s t : PyStr.startswith (s +:+ t) s = true.
Proof.
  induction s as [|c s IH]; [done|]. rewrite append_cons. cbn.
  by rewrite Ascii.eqb_refl.
Qed.

Lemma contains_refl s : PyStr.contains s s = true.
Proof. destruct s; cbn; by rewrite ?Ascii.eqb_refl, ?startswith_refl. Qed.

Lemma replace_from_skip_all old new s :
  forall skip, (String.length s <= skip)%nat -> PyStr.replace_from old new skip s = "".
Proof.
  induction s as [|c s IH]; intros skip Hlen; [done|].
  cbn in Hlen. destruct skip as [|skip]; [lia|]. cbn. apply IH. lia.
Qed.

(** Replacing a non-empty text in itself leaves the replacement. *)
Lemma replace_whole old new : old <> "" -> PyStr.replace old new old = new.
Proof.
  intros Hne. destruct old as [|c old]; [done|].
  unfold PyStr.replace. cbn [PyStr.is_empty PyStr.replace_from].
  rewrite startswith_refl. rewrite replace_from_skip_all by (cbn; lia).
  apply append_empty_r.
Qed.

End MoreTextFacts.

(** ** What the result depends on *)

Section SameEffect.
Import PdfProcessor.
Variable E : env.

Lemma for_each_ext_in {A} (f g : A -> M unit) l :
  (forall x, In x l -> forall w, f x w = g x w) ->
  forall w, for_each l f w = for_each l g w.
Proof.
  induction l as [|x l IH]; intros H w; [done|]. cbn [for_each].
  rewrite !bind_run, H by (by left).
  destruct (g x w) as [[[]|e] w1]; [|done]. apply IH. intros y Hy. apply H. by right.
Qed.

Lemma for_each_app {A} (f : A -> M unit) l1 l2 w :
  for_each (l1 ++ l2) f w = (for_each l1 f ;; for_each l2 f) w.
Proof.
  revert w. induction l1 as [|x l1 IH]; intros w; [done|].
  cbn [app for_each]. rewrite !bind_run.
  destruct (f x w) as [[[]|e] w1]; [|done]. rewrite IH. by rewrite bind_run.
Qed.

Lemma apply_replacements_app l1 l2 original_text modified_text :
  apply_replacements (l1 ++ l2) original_text modified_text
  = (apply_replacements l1 original_text modified_text
       ≫= apply_replacements l2 original_text).
Proof.
  revert modified_text. induction l1 as [|m l1 IH]; intros mt; [done|].
  cbn [app apply_replacements].
  destruct (replace_step original_text mt m) as [mt'|e]; [|done]. cbn. apply IH.
Qed.

(** Two lists of modifications that give every span of the pages the same
    text and every page the same highlights give the same run. *)
Lemma apply_same_effect pages_data mods1 mods2 :
  (forall page block, In page pages_data -> In block (text_blocks page) ->
     apply_replacements mods1 (text block) (text block)
     = apply_replacements mods2 (text block) (text block)) ->
  (forall page debug_mode w, In page pages_data ->
     for_each mods1 (highlight_mod E debug_mode (text_blocks page)) w
     = for_each mods2 (highlight_mod E debug_mode (text_blocks page)) w) ->
  forall output_path debug_mode w,
    apply_modifications_to_pdf E pages_data mods1 output_path debug_mode w
    = apply_modifications_to_pdf E pages_data mods2 output_path debug_mode w.
Proof.
  intros Htext Hmarks output_path debug_mode w.
  unfold apply_modifications_to_pdf, try_except. rewrite !bind_run.
  destruct (call_lib E FitzOpen w) as [[[]|e] w1]; [|done].
  rewrite !bind_run.
  rewrite (for_each_ext_in (render_page E debug_mode mods1)
             (render_page E debug_mode mods2)); [done|].
  intros page Hpage w2. unfold render_page. rewrite !bind_run.
  destruct (call_lib E _ w2) as [[[]|e] w3]; [|done].
  unfold fill_page. rewrite !bind_run.
  rewrite (for_each_ext_in (draw_block E debug_mode mods1)
             (draw_block E debug_mode mods2)).
  2:{ intros block Hblock w4. unfold draw_block. by rewrite (Htext page block). }
  destruct (for_each _ _ w3) as [[[]|e] w4]; [|done]. by apply Hmarks.
Qed.

Lemma generate_same_effect pages_data mods1 mods2 debug_mode :
  (forall output_path w,
     apply_modifications_to_pdf E pages_data mods1 output_path debug_mode w
     = apply_modifications_to_pdf E pages_data mods2 output_path debug_mode w) ->
  forall w,
    generate_modified_pdf E pages_data mods1 debug_mode w
    = generate_modified_pdf E pages_data mods2 debug_mode w.
Proof.
  intros H w. unfold generate_modified_pdf, try_except. rewrite !bind_run.
  destruct (named_temporary_file E ".pdf" w) as [[temp_path|e] w1]; [|done].
  rewrite !bind_run. by rewrite H.
Qed.

End SameEffect.

Section IgnoredEdits.
Import PdfProcessor.
Variable E : env.

Lemma eq_str_false ty s : ty <> VStr s -> eq_str ty s = false.
Proof.
  destruct ty as [ | | | |t| | ]; try done. cbn. intros Hne.
  apply String.eqb_neq. congruence.
Qed.

Lemma replace_step_other_type original_text modified_text mod_ ty :
  getitem mod_ "type" = Ok ty -> ty <> VStr "replace" ->
  replace_step original_text modified_text mod_ = Ok modified_text.
Proof.
  intros Hty Hne. unfold replace_step. rewrite Hty. cbn.
  by rewrite (eq_str_false _ _ Hne).
Qed.

Lemma highlight_mod_other_type debug_mode blocks mod_ ty w :
  getitem mod_ "type" = Ok ty -> ty <> VStr "highlight" ->
  highlight_mod E debug_mode blocks mod_ w = (Ok tt, w).
Proof.
  intros Hty Hne. unfold highlight_mod. rewrite bind_run. unfold lift.
  rewrite Hty. by rewrite (eq_str_false _ _ Hne).
Qed.

Lemma filter_guarded_replace original_text edits :
  List.filter (guarded_by original_text) edits
  = List.filter (guarded_by original_text) (List.filter is_replace edits).
Proof.
  induction edits as [|e edits IH]; [done|].
  destruct e as [old new c nt | t c r nt]; cbn; by rewrite IH.
Qed.

Lemma for_each_highlights debug_mode blocks edits w :
  for_each (map encode edits) (highlight_mod E debug_mode blocks) w
  = for_each (map encode (List.filter is_highlight edits))
      (highlight_mod E debug_mode blocks) w.
Proof.
  revert w. induction edits as [|e edits IH]; intros w; [done|].
  destruct e as [old new c nt | t c r nt]; cbn [map List.filter is_highlight for_each];
    rewrite !bind_run.
  - rewrite (highlight_mod_other_type _ _ _ (VStr "replace")); [apply IH|done|done].
  - destruct (highlight_mod _ _ _ _ w) as [[[]|e] w1]; [apply IH|done].
Qed.

Lemma highlight_block_unmatched debug_mode target c r nt block w :
  PyStr.contains (PyStr.lower target) (PyStr.lower (text block)) = false ->
  highlight_block E debug_mode (encode (Highlight target c r nt)) block w = (Ok tt, w).
Proof.
  intros Hno. unfold highlight_block. rewrite bind_run. unfold lift.
  rewrite getitem_highlight_target. rewrite bind_run. cbn [Py.lower]. by rewrite Hno.
Qed.

Lemma for_each_nothing {A} (f : A -> M unit) l :
  (forall x, In x l -> forall w, f x w = (Ok tt, w)) ->
  forall w, for_each l f w = (Ok tt, w).
Proof.
  induction l as [|x l IH]; intros H w; [done|]. cbn [for_each].
  rewrite bind_run, H by (by left). apply IH. intros y Hy. apply H. by right.
Qed.

Lemma replace_step_same_fields original_text modified_text m1 m2 :
  same_fields m1 m2 ->
  replace_step original_text modified_text m1
  = replace_step original_text modified_text m2.
Proof.
  unfold same_fields, READ_KEYS. rewrite !Forall_cons.
  intros (Hty & Hold & Hnew & _). unfold replace_step. by rewrite Hty, Hold, Hnew.
Qed.

Lemma highlight_mod_same_fields debug_mode blocks m1 m2 w :
  same_fields m1 m2 ->
  highlight_mod E debug_mode blocks m1 w = highlight_mod E debug_mode blocks m2 w.
Proof.
  unfold same_fields, READ_KEYS. rewrite !Forall_cons.
  intros (Hty & _ & _ & Htarget & _). unfold highlight_mod. rewrite !bind_run, Hty.
  destruct (lift (getitem m2 "type") w) as [[ty|e] w1]; [|done].
  destruct (eq_str ty "highlight"); [|done].
  apply for_each_ext_in. intros block _ w2.
  unfold highlight_block, mark. by rewrite Htarget.
Qed.

End IgnoredEdits.

(** X1: an edit whose type is neither "replace" nor "highlight" is skipped
    without a trace, wherever it stands in the list: the applicator and the
    generation run as if it were not there. *)
Theorem unknown_type_edits_are_ignored (E : env)
    (pages_data : list PdfProcessor.page_data) (before after : list value)
    (mod_ ty : value) (output_path : string) (debug_mode : bool) (w : world) :
  getitem mod_ "type" = Ok ty ->
  ty <> VStr "replace" -> ty <> VStr "highlight" ->
  PdfProcessor.apply_modifications_to_pdf E pages_data (before ++ mod_ :: after)
    output_path debug_mode w
  = PdfProcessor.apply_modifications_to_pdf E pages_data (before ++ after)
      output_path debug_mode w
  /\ PdfProcessor.generate_modified_pdf E pages_data (before ++ mod_ :: after)
       debug_mode w
     = PdfProcessor.generate_modified_pdf E pages_data (before ++ after) debug_mode w.
Proof.
  intros Hty Hrep Hhl.
  assert (Happly : forall path w1,
    PdfProcessor.apply_modifications_to_pdf E pages_data (before ++ mod_ :: after)
      path debug_mode w1
    = PdfProcessor.apply_modifications_to_pdf E pages_data (before ++ after)
        path debug_mode w1).
  { intros path w1. apply apply_same_effect.
    - intros page block _ _. rewrite !apply_replacements_app.
      destruct (PdfProcessor.apply_replacements before _ _) as [mt|e]; [|done].
      cbn [mbind res_bind PdfProcessor.apply_replacements].
      by rewrite (replace_step_other_type _ _ _ _ Hty Hrep).
    - intros page dbg w2 _. rewrite !for_each_app, !bind_run.
      destruct (for_each before _ w2) as [[[]|e] w3]; [|done].
      cbn [for_each]. rewrite bind_run.
      by rewrite (highlight_mod_other_type E _ _ _ _ _ Hty Hhl). }
  split; [apply Happly | by apply generate_same_effect].
Qed.

Lemma unknown_type_edits_are_ignored_witness :
  PdfProcessor.apply_modifications_to_pdf quiet [sample_page]
    ([encode (Highlight "budget" "" "" "")]
     ++ dict [("type", VStr "delete"); ("original_text", VInt 3)] :: [])
    "out.pdf" false empty_world
  = PdfProcessor.apply_modifications_to_pdf quiet [sample_page]
      ([encode (Highlight "budget" "" "" "")] ++ []) "out.pdf" false empty_world
  /\ PdfProcessor.generate_modified_pdf quiet [sample_page]
       ([encode (Highlight "budget" "" "" "")]
        ++ dict [("type", VStr "delete"); ("original_text", VInt 3)] :: [])
       false empty_world
     = PdfProcessor.generate_modified_pdf quiet [sample_page]
         ([encode (Highlight "budget" "" "" "")] ++ []) false empty_world.
Proof.
  apply (unknown_type_edits_are_ignored quiet [sample_page]
           [encode (Highlight "budget" "" "" "")] []
           (dict [("type", VStr "delete"); ("original_text", VInt 3)])
           (VStr "delete")).
  - reflexivity.
  - discriminate.
  - discriminate.
Defined.

(** X2: Replace edits and Highlight edits do not interfere: two Edit Sets with
    the same Replace edits in the same order and the same Highlight edits in
    the same order give the same run, however the two kinds are interleaved. *)
Theorem kinds_of_edits_do_not_interfere (E : env)
    (pages_data : list PdfProcessor.page_data) (edits1 edits2 : list edit)
    (output_path : string) (debug_mode : bool) (w : world) :
  List.filter is_replace edits1 = List.filter is_replace edits2 ->
  List.filter is_highlight edits1 = List.filter is_highlight edits2 ->
  PdfProcessor.apply_modifications_to_pdf E pages_data (map encode edits1)
    output_path debug_mode w
  = PdfProcessor.apply_modifications_to_pdf E pages_data (map encode edits2)
      output_path debug_mode w.
Proof.
  intros Hrep Hhl. apply apply_same_effect.
  - intros page block _ _. rewrite !apply_replacements_encode.
    by rewrite (filter_guarded_replace _ edits1), (filter_guarded_replace _ edits2), Hrep.
  - intros page dbg w1 _.
    by rewrite (for_each_highlights E _ _ edits1), (for_each_highlights E _ _ edits2), Hhl.
Qed.

Lemma kinds_of_edits_do_not_interfere_witness :
  PdfProcessor.apply_modifications_to_pdf quiet [sample_page]
    (map encode [Highlight "budget" "" "" ""; Replace "40" "50" "" ""])
    "out.pdf" false empty_world
  = PdfProcessor.apply_modifications_to_pdf quiet [sample_page]
      (map encode [Replace "40" "50" "" ""; Highlight "budget" "" "" ""])
      "out.pdf" false empty_world.
Proof.
  apply (kinds_of_edits_do_not_interfere quiet [sample_page]
           [Highlight "budget" "" "" ""; Replace "40" "50" "" ""]
           [Replace "40" "50" "" ""; Highlight "budget" "" "" ""]);
    reflexivity.
Defined.

(** X3: an edit whose text is in no single span changes nothing: when no edit
    of the set matches any span of any page, the run is the run of the empty
    Edit Set.  A text that only exists across two spans is such a text. *)
Theorem unmatched_edits_change_nothing (E : env)
    (pages_data : list PdfProcessor.page_data) (edits : list edit)
    (output_path : string) (debug_mode : bool) (w : world) :
  (forall e page block,
     In e edits -> In page pages_data -> In block (PdfProcessor.text_blocks page) ->
     matches_span e block = false) ->
  PdfProcessor.apply_modifications_to_pdf E pages_data (map encode edits)
    output_path debug_mode w
  = PdfProcessor.apply_modifications_to_pdf E pages_data [] output_path debug_mode w.
Proof.
  intros Hno. apply apply_same_effect.
  - intros page block Hpage Hblock. rewrite apply_replacements_encode.
    replace (List.filter _ edits) with (@nil edit); [done|].
    symmetry. clear w. induction edits as [|e edits IH]; [done|]. cbn [List.filter].
    assert (He : guarded_by (PdfProcessor.text block) e = false).
    { specialize (Hno e page block (or_introl eq_refl) Hpage Hblock).
      by destruct e. }
    rewrite He. apply IH. intros e' page' block' He'. apply Hno. by right.
  - intros page dbg w1 Hpage. rewrite for_each_map. cbn [for_each].
    apply for_each_nothing. intros e He w2.
    destruct e as [old new c nt | target c r nt].
    + by apply (highlight_mod_other_type E _ _ _ (VStr "replace")).
    + unfold PdfProcessor.highlight_mod. rewrite bind_run. unfold lift.
      rewrite getitem_highlight_type.
      change (eq_str (VStr "highlight") "highlight") with true. cbv iota.
      apply for_each_nothing. intros block Hblock w3.
      apply highlight_block_unmatched. apply (Hno _ page block He Hpage Hblock).
Qed.

Lemma unmatched_edits_change_nothing_witness :
  PdfProcessor.apply_modifications_to_pdf quiet [split_heading_page]
    (map encode [Replace "Chapter 2: Background" "Chapter 2: Fundamentals" "" "";
                 Highlight "chapter 2: background" "" "" ""])
    "out.pdf" false empty_world
  = PdfProcessor.apply_modifications_to_pdf quiet [split_heading_page] []
      "out.pdf" false empty_world.
Proof.
  apply (unmatched_edits_change_nothing quiet [split_heading_page]
           [Replace "Chapter 2: Background" "Chapter 2: Fundamentals" "" "";
            Highlight "chapter 2: background" "" "" ""]).
  intros e page block He Hpage Hblock.
  destruct Hpage as [<- | []].
  destruct He as [<- | [<- | []]];
    (destruct Hblock as [<- | [<- | []]]; reflexivity).
Defined.

Lemma apply_same_fields (E : env)
    (pages_data : list PdfProcessor.page_data) (mods1 mods2 : list value)
    (output_path : string) (debug_mode : bool) (w : world) :
  Forall2 same_fields mods1 mods2 ->
  PdfProcessor.apply_modifications_to_pdf E pages_data mods1 output_path debug_mode w
  = PdfProcessor.apply_modifications_to_pdf E pages_data mods2 output_path debug_mode w.
Proof.
  intros Hsame. apply apply_same_effect.
  - intros page block _ _. generalize (PdfProcessor.text block) at 2 4.
    induction Hsame as [|m1 m2 l1 l2 Hm _ IH]; intros mt; [done|].
    cbn [PdfProcessor.apply_replacements].
    rewrite (replace_step_same_fields _ _ m1 m2 Hm).
    destruct (PdfProcessor.replace_step _ _ m2) as [mt'|e]; [apply IH|done].
  - intros page dbg w1 _. revert w1.
    induction Hsame as [|m1 m2 l1 l2 Hm _ IH]; intros w1; [done|].
    cbn [for_each]. rewrite !bind_run.
    rewrite (highlight_mod_same_fields E _ _ m1 m2 _ Hm).
    destruct (PdfProcessor.highlight_mod _ _ _ _ w1) as [[[]|e] w2]; [apply IH|done].
Qed.

(** X4: only the keys "type", "original_text", "new_text" and
    "text_to_highlight" of an edit are read: two lists of modifications that
    agree on them, edit by edit, give the same run and the same generated
    bytes, whatever else (context, reason, notes) the edits carry. *)
Theorem only_read_keys_matter (E : env)
    (pages_data : list PdfProcessor.page_data) (mods1 mods2 : list value)
    (output_path : string) (debug_mode : bool) (w : world) :
  Forall2 same_fields mods1 mods2 ->
  PdfProcessor.apply_modifications_to_pdf E pages_data mods1 output_path debug_mode w
  = PdfProcessor.apply_modifications_to_pdf E pages_data mods2 output_path debug_mode w
  /\ PdfProcessor.generate_modified_pdf E pages_data mods1 debug_mode w
     = PdfProcessor.generate_modified_pdf E pages_data mods2 debug_mode w.
Proof.
  intros Hsame. split; [by apply apply_same_fields|].
  apply generate_same_effect. intros path w1. by apply apply_same_fields.
Qed.

Lemma only_read_keys_matter_witness :
  PdfProcessor.apply_modifications_to_pdf quiet [sample_page]
    [encode (Replace "40" "50" "in the total" "a rounder figure")]
    "out.pdf" false empty_world
  = PdfProcessor.apply_modifications_to_pdf quiet [sample_page]
      [Utils.replace_edit "40" "50"] "out.pdf" false empty_world
  /\ PdfProcessor.generate_modified_pdf quiet [sample_page]
       [encode (Replace "40" "50" "in the total" "a rounder figure")]
       false empty_world
     = PdfProcessor.generate_modified_pdf quiet [sample_page]
         [Utils.replace_edit "40" "50"] false empty_world.
Proof.
  apply (only_read_keys_matter quiet [sample_page]
           [encode (Replace "40" "50" "in the total" "a rounder figure")]
           [Utils.replace_edit "40" "50"]).
  repeat constructor.
Defined.

(** ** Runs that succeed *)

Section Success.
Import PdfProcessor.
Variable E : env.
Hypothesis E_reliable : reliable E.

Lemma reliable_rectangles : rectangles_reliable E.
Proof. intros h b. split; [apply E_reliable | intros; apply E_reliable]. Qed.

Lemma render_pages_encoded debug_mode edits pages_data :
  forall w, exists evs,
    for_each pages_data (render_page E debug_mode (map encode edits)) w
    = (Ok tt, extend evs w).
Proof.
  intros w.
  destruct (for_each_all (fun _ => True)
              (render_page E debug_mode (map encode edits)) pages_data) with (w := w)
    as (evs & Hrun & _); [|eauto].
  intros page w1. unfold render_page.
  rewrite bind_run, call_lib_reliable by done.
  destruct (fill_page_marks E reliable_rectangles debug_mode edits page
              (extend [Called (NewPage (page_width page) (page_height page)) None] w1))
    as (drawn & marks & -> & _).
  rewrite extend_extend. eexists. split; [done|]. by apply Forall_forall.
Qed.

(** With a library that does not fail, well-formed edits are applied: the
    applicator returns [True] and the output file holds the document. *)
Lemma apply_encoded_succeeds pages_data edits output_path debug_mode w :
  exists evs,
    apply_modifications_to_pdf E pages_data (map encode edits) output_path debug_mode w
    = (Ok true,
       {| log := log w ++ evs ++ [returned (Save output_path); returned Close];
          files := <[output_path := serialize E (log w ++ evs)]> (files w) |}).
Proof.
  unfold apply_modifications_to_pdf, try_except.
  rewrite bind_run, call_lib_reliable by done. rewrite bind_run.
  destruct (render_pages_encoded debug_mode edits pages_data
              (extend [Called FitzOpen None] w)) as (evs & ->).
  rewrite bind_run. unfold doc_save. rewrite call_lib_reliable by done.
  rewrite bind_run, call_lib_reliable by done.
  exists (Called FitzOpen None :: evs). cbn. unfold extend, set_files, returned. cbn.
  do 2 f_equal; rewrite <- ?app_assoc; cbn; done.
Qed.

Lemma read_file_reliable path content w :
  files w !! path = Some content ->
  read_file E path w = (Ok content, extend [Called (OpenRead path) None] w).
Proof.
  intros Hfile. unfold read_file. rewrite call_lib_reliable by done.
  cbn [files extend]. by rewrite Hfile.
Qed.

Lemma os_unlink_reliable path content w :
  files w !! path = Some content ->
  os_unlink E path w
  = (Ok tt, set_files (delete path (files w)) (extend [Called (Unlink path) None] w)).
Proof.
  intros Hfile. unfold os_unlink. rewrite call_lib_reliable by done.
  cbn [files extend]. by rewrite Hfile.
Qed.

End Success.

(** X5: with a library that does not fail, every Edit Set of well-formed edits
    is applied: the applicator returns True, its last two calls are the
    save and the close, and the output file holds the bytes of the document
    built by the calls before them; no other file is touched. *)
Theorem well_formed_edits_are_applied (E : env)
    (pages_data : list PdfProcessor.page_data) (edits : list edit)
    (output_path : string) (debug_mode : bool) (w : world) :
  reliable E ->
  exists w' built,
    PdfProcessor.apply_modifications_to_pdf E pages_data (map encode edits)
      output_path debug_mode w
    = (Ok true, w')
    /\ log w' = built ++ [returned (Save output_path); returned Close]
    /\ files w' = <[output_path := serialize E built]> (files w).
Proof.
  intros HE.
  destruct (apply_encoded_succeeds E HE pages_data edits output_path debug_mode w)
    as (evs & ->).
  eexists _, (log w ++ evs). split; [done|]. cbn. by rewrite app_assoc.
Qed.

Lemma well_formed_edits_are_applied_witness :
  exists w' built,
    PdfProcessor.apply_modifications_to_pdf quiet [sample_page]
      (map encode [Replace "40" "50" "" ""; Highlight "budget" "" "" ""])
      "out.pdf" true empty_world
    = (Ok true, w')
    /\ log w' = built ++ [returned (Save "out.pdf"); returned Close]
    /\ files w' = <["out.pdf" := serialize quiet built]> (files empty_world).
Proof.
  apply (well_formed_edits_are_applied quiet [sample_page]
           [Replace "40" "50" "" ""; Highlight "budget" "" "" ""]
           "out.pdf" true empty_world).
  apply quiet_reliable.
Defined.

(** X6: with a library that does not fail and a fresh temporary name, the
    generation of well-formed edits is a round trip through the temporary
    file: the applicator succeeds on the temporary path, the generation
    returns the very bytes the applicator saved there, and the files are
    left as they were found, the temporary file gone. *)
Theorem generation_round_trip (E : env)
    (pages_data : list PdfProcessor.page_data) (edits : list edit)
    (debug_mode : bool) (w : world) :
  reliable E ->
  files w !! mktemp E (files w) = None ->
  exists temp_path w0 w1 pdf_bytes w',
    named_temporary_file E ".pdf" w = (Ok temp_path, w0)
    /\ PdfProcessor.apply_modifications_to_pdf E pages_data (map encode edits)
         temp_path debug_mode w0
       = (Ok true, w1)
    /\ files w1 !! temp_path = Some pdf_bytes
    /\ PdfProcessor.generate_modified_pdf E pages_data (map encode edits)
         debug_mode w
       = (Ok pdf_bytes, w')
    /\ files w' = files w.
Proof.
  intros HE Hfresh. unfold PdfProcessor.generate_modified_pdf, try_except.
  rewrite bind_run. unfold named_temporary_file.
  rewrite call_lib_reliable by done. cbn [files extend].
  set (temp_path := mktemp E (files w)) in *. rewrite bind_run.
  match goal with
  | |- context [PdfProcessor.apply_modifications_to_pdf E _ _ _ _ ?w1] =>
      destruct (apply_encoded_succeeds E HE pages_data edits temp_path debug_mode w1)
        as (evs & Happly)
  end.
  rewrite Happly.
  rewrite bind_run. cbn [negb mret M_ret]. rewrite bind_run.
  erewrite (read_file_reliable E HE) by (cbn [files]; apply lookup_insert_eq).
  rewrite bind_run.
  erewrite (os_unlink_reliable E HE) by (cbn [files extend]; apply lookup_insert_eq).
  eexists temp_path, _, _, _, _.
  split; [reflexivity|]. split; [exact Happly|].
  split; [cbn [files]; apply lookup_insert_eq|].
  split; [reflexivity|]. cbn.
  rewrite delete_insert_eq. by apply delete_insert_id.
Qed.

Lemma generation_round_trip_witness :
  exists temp_path w0 w1 pdf_bytes w',
    named_temporary_file quiet ".pdf" empty_world = (Ok temp_path, w0)
    /\ PdfProcessor.apply_modifications_to_pdf quiet [sample_page]
         (map encode [Replace "40" "50" "" ""]) temp_path false w0
       = (Ok true, w1)
    /\ files w1 !! temp_path = Some pdf_bytes
    /\ PdfProcessor.generate_modified_pdf quiet [sample_page]
         (map encode [Replace "40" "50" "" ""]) false empty_world
       = (Ok pdf_bytes, w')
    /\ files w' = files empty_world.
Proof.
  apply (generation_round_trip quiet [sample_page] [Replace "40" "50" "" ""]
           false empty_world).
  - apply quiet_reliable.
  - reflexivity.
Defined.

(** ** What the fallback heuristic proposes *)

Section FallbackShape.
Import Utils.

(** The shape of the proposals: at most one replacement of a text of the
    document, then at most one highlight of a keyword of the document. *)
Lemma fallback_shape original_text modification_query :
  exists replacements highlights,
    create_fallback_modification original_text modification_query
    = Ok (fallback_result (replacements ++ highlights) modification_query)
    /\ (replacements = []
        \/ exists old new, replacements = [replace_edit old new]
                           /\ PyStr.contains old original_text = true)
    /\ (highlights = []
        \/ exists term, highlights = [highlight_edit term]
                        /\ In term financial_terms
                        /\ PyStr.contains term (PyStr.lower original_text) = true).
Proof.
  unfold create_fallback_modification.
  destruct (fallback_replacements_total original_text modification_query)
    as (repl & -> & Hrepl).
  exists repl, (fallback_highlights original_text modification_query).
  split; [done|]. split; [done|].
  unfold fallback_highlights. destruct (PyStr.contains "highlight" _); [|by left].
  rewrite scan_terms_find.
  destruct (List.find _ financial_terms) as [term|] eqn:Hfind; [|by left].
  apply find_some in Hfind as [Hin Hterm]. right. eauto.
Qed.

Lemma replace_edit_same_fields old new :
  same_fields (replace_edit old new) (encode (Replace old new "" "")).
Proof. repeat constructor. Qed.

Lemma highlight_edit_same_fields term :
  same_fields (highlight_edit term) (encode (Highlight term "" "" "")).
Proof. repeat constructor. Qed.

Lemma fallback_as_edits original_text modification_query :
  exists mods edits,
    create_fallback_modification original_text modification_query
    = Ok (fallback_result mods modification_query)
    /\ Forall2 same_fields mods (map encode edits).
Proof.
  destruct (fallback_shape original_text modification_query)
    as (repl & hl & Hrun & Hrepl & Hhl).
  exists (repl ++ hl).
  destruct Hrepl as [-> | (old & new & -> & _)];
    destruct Hhl as [-> | (term & -> & _ & _)].
  - exists []. split; [done | constructor].
  - exists [Highlight term "" "" ""]. split; [done|].
    constructor; [apply highlight_edit_same_fields | constructor].
  - exists [Replace old new "" ""]. split; [done|].
    constructor; [apply replace_edit_same_fields | constructor].
  - exists [Replace old new "" ""; Highlight term "" "" ""]. split; [done|].
    constructor; [apply replace_edit_same_fields|].
    constructor; [apply highlight_edit_same_fields | constructor].
Qed.

End FallbackShape.

(** X7: the fallback heuristic proposes at most two edits, and only edits whose
    text is in the document: a Replace edit names a text that occurs in the
    document as written, a Highlight edit names a keyword of the fixed list
    that occurs in the lower-cased document. *)
Theorem fallback_proposes_only_existing_text (original_text modification_query : string) :
  exists mods,
    Utils.create_fallback_modification original_text modification_query
    = Ok (fallback_result mods modification_query)
    /\ length mods <= 2
    /\ Forall
         (fun m =>
            (exists old new,
               m = Utils.replace_edit old new
               /\ PyStr.contains old original_text = true)
            \/ (exists term,
                  m = Utils.highlight_edit term
                  /\ In term Utils.financial_terms
                  /\ PyStr.contains term (PyStr.lower original_text) = true))
         mods.
Proof.
  destruct (fallback_shape original_text modification_query)
    as (repl & hl & Hrun & Hrepl & Hhl).
  exists (repl ++ hl). split; [done|].
  destruct Hrepl as [-> | (old & new & -> & Hold)];
    destruct Hhl as [-> | (term & -> & Hin & Hterm)]; cbn [app length];
    (split; [lia|]).
  - constructor.
  - constructor; [right; eauto | constructor].
  - constructor; [left; eauto | constructor].
  - constructor; [left; eauto|]. constructor; [right; eauto | constructor].
Qed.

(** X8: the Edit Set of the fallback heuristic can always be applied: with a
    library that does not fail, the applicator returns True on the
    modifications of its result, for every document and instruction. *)
Theorem fallback_edit_set_is_applied (E : env)
    (pages_data : list PdfProcessor.page_data)
    (original_text modification_query output_path : string)
    (debug_mode : bool) (w : world) :
  reliable E ->
  exists result mods w',
    Utils.create_fallback_modification original_text modification_query = Ok result
    /\ getitem result "modifications" = Ok (VList mods)
    /\ PdfProcessor.apply_modifications_to_pdf E pages_data mods output_path
         debug_mode w
       = (Ok true, w').
Proof.
  intros HE.
  destruct (fallback_as_edits original_text modification_query)
    as (mods & edits & Hrun & Hsame).
  destruct (apply_encoded_succeeds E HE pages_data edits output_path debug_mode w)
    as (evs & Happly).
  exists (fallback_result mods modification_query), mods. eexists.
  split; [done|]. split; [reflexivity|].
  rewrite (apply_same_fields E pages_data mods (map encode edits)) by done.
  exact Happly.
Qed.

Lemma fallback_edit_set_is_applied_witness :
  exists result mods w',
    Utils.create_fallback_modification "Total budget: 40"
      "change 'budget' to 'cost' and highlight it" = Ok result
    /\ getitem result "modifications" = Ok (VList mods)
    /\ PdfProcessor.apply_modifications_to_pdf quiet [sample_page] mods "out.pdf"
         false empty_world
       = (Ok true, w').
Proof.
  apply (fallback_edit_set_is_applied quiet [sample_page] "Total budget: 40"
           "change 'budget' to 'cost' and highlight it" "out.pdf" false empty_world).
  apply quiet_reliable.
Defined.

(** ** Fields of the wrong type, and spans that vanish *)

Section IllTyped.
Import PdfProcessor.
Variable E : env.






End IllTyped.



(** X10: a Replace edit that turns a whole span into nothing but whitespace
    makes the span vanish: when the original text of the edit is the text of
    the span and the new text is empty after stripping, the span is not
    drawn, nothing is logged, and the page goes on. *)
Theorem blanked_span_is_not_drawn (E : env) (debug_mode : bool)
    (new context note : string) (block : PdfProcessor.text_block) (w : world) :
  PdfProcessor.text block <> "" ->
  PyStr.strip new = "" ->
  PdfProcessor.draw_block E debug_mode
    [encode (Replace (PdfProcessor.text block) new context note)] block w
  = (Ok tt, w).
Proof.
  intros Hne Hblank. unfold PdfProcessor.draw_block. rewrite bind_run. unfold lift.
  rewrite (apply_replacements_encode [Replace (PdfProcessor.text block) new context note]).
  cbn [List.filter guarded_by]. rewrite contains_refl.
  cbn [fold_left substitute]. rewrite replace_whole by done. by rewrite Hblank.
Qed.

Lemma blanked_span_is_not_drawn_witness :
  PdfProcessor.draw_block quiet true
    [encode (Replace (PdfProcessor.text sample_block) "  " "" "")] sample_block
    empty_world
  = (Ok tt, empty_world).
Proof.
  apply (blanked_span_is_not_drawn quiet true "  " "" "" sample_block empty_world).
  - discriminate.
  - reflexivity.
Defined.

(** X11: neither the applicator nor the generation ever raises, whatever the
    library does and whatever the modifications are: the applicator returns
    a truth value, the generation returns bytes. *)
Theorem applicator_never_raises (E : env)
    (pages_data : list PdfProcessor.page_data) (modifications : list value)
    (output_path : string) (debug_mode : bool) (w : world) :
  (exists success w',
     PdfProcessor.apply_modifications_to_pdf E pages_data modifications
       output_path debug_mode w = (Ok success, w'))
  /\ (exists pdf_bytes w',
        PdfProcessor.generate_modified_pdf E pages_data modifications debug_mode w
        = (Ok pdf_bytes, w')).
Proof.
  split; [apply apply_modifications_returns|].
  unfold PdfProcessor.generate_modified_pdf.
  destruct (try_except_post
              (temp_path ← named_temporary_file E ".pdf";
               success ← PdfProcessor.apply_modifications_to_pdf E pages_data
                           modifications temp_path debug_mode;
               (if negb success
                then raise (Exception_ "Failed to apply modifications to PDF")
                else mret tt) ;;
               pdf_bytes ← read_file E temp_path;
               os_unlink E temp_path ;; mret pdf_bytes)
              (fun e => emit (StError "Error generating modified PDF: " e) ;;
                        mret EmptyString)
              (fun _ => True) w) as (pdf_bytes & w' & Hrun & _); [done| |eauto].
  intros e w1. cbn. eauto.
Qed.

(** ** The extractor, the statistics and the plain text *)

Section ExtractionMore.
Import PdfProcessor PdfText.

Lemma py_sum_from terms : forall start,
  fold_left Nat.add terms start = (start + py_sum terms)%nat.
Proof.
  unfold py_sum. induction terms as [|n terms IH]; intros start; cbn; [lia|].
  rewrite (IH (start + n)%nat), (IH n). lia.
Qed.

Lemma py_sum_cons n terms : py_sum (n :: terms) = (n + py_sum terms)%nat.
Proof. unfold py_sum at 1. cbn. apply py_sum_from. Qed.

Lemma py_sum_app l1 l2 : py_sum (l1 ++ l2) = (py_sum l1 + py_sum l2)%nat.
Proof.
  induction l1 as [|n l1 IH]; [done|]. cbn [app]. rewrite !py_sum_cons, IH. lia.
Qed.

(** Spans that all have a character are no more than their characters. *)
Lemma blocks_le_characters blocks :
  Forall (fun block => text block <> "") blocks ->
  (length blocks <= py_sum (map (fun block => String.length (text block)) blocks))%nat.
Proof.
  induction 1 as [|block blocks Hne _ IH]; [done|]. cbn [map length].
  rewrite py_sum_cons. destruct (text block); [done|]. cbn. lia.
Qed.

Lemma statistics_le pages_data :
  Forall (fun page => Forall (fun block => text block <> "") (text_blocks page))
         pages_data ->
  (total_text_blocks pages_data <= total_characters pages_data)%nat.
Proof.
  unfold total_text_blocks, total_characters.
  induction 1 as [|page pages Hpage _ IH]; [done|]. cbn [map flat_map].
  rewrite py_sum_cons, py_sum_app. apply blocks_le_characters in Hpage. lia.
Qed.

Lemma recorded_nonempty l :
  Forall (fun block => text block <> "") (map recorded (List.filter nonblank l)).
Proof.
  eapply Forall_impl; [apply recorded_nonblank|].
  intros block Hstrip Hempty. apply Hstrip. by rewrite Hempty.
Qed.

Lemma extracted_pages_nonempty doc : forall k,
  Forall (fun page => Forall (fun block => text block <> "") (text_blocks page))
         (zip_with extract_page (seq k (length doc)) doc).
Proof.
  induction doc as [|page doc IH]; intros k; [constructor|].
  cbn [length seq zip_with]. constructor; [|apply IH].
  rewrite extract_page_blocks. apply recorded_nonempty.
Qed.

(** The extractor gives all pages or none. *)
Lemma extract_all_or_nothing E pdf_bytes w :
  exists pages_data w',
    extract_pdf_data E pdf_bytes w = (Ok pages_data, w')
    /\ (pages_data = []
        \/ pages_data
           = zip_with extract_page (seq 0 (length (parse_pdf E pdf_bytes)))
               (parse_pdf E pdf_bytes)).
Proof.
  unfold extract_pdf_data, try_except. rewrite bind_run.
  destruct (call_lib_cases E (FitzOpenStream pdf_bytes) w) as [-> | [e ->]].
  2:{ cbn. eauto. }
  cbv zeta. rewrite bind_run.
  match goal with
  | |- context [call_lib E PageCount ?w1] =>
      destruct (call_lib_cases E PageCount w1) as [-> | [e ->]]
  end.
  2:{ cbn. eauto. }
  rewrite bind_run.
  match goal with
  | |- context [extract_pages E _ _ ?w1] =>
      destruct (extract_pages_range E (parse_pdf E pdf_bytes) [] w1)
        as (r & w2 & Hrange & [-> | (e & ->)])
  end; cbn [app length] in Hrange; rewrite Hrange.
  2:{ cbn. eauto. }
  rewrite bind_run.
  destruct (call_lib_cases E Close w2) as [-> | [e ->]]; cbn; eauto.
Qed.

End ExtractionMore.

(** X12: the extractor never raises and never gives a part of a document:
    whichever call of the library raises -- the opening, the page count, the
    loading of a page, its rectangle, its text, the closing -- and at
    whichever page, it returns either no page at all or one record for every
    page of the document, the record at index i holding the number, the
    width, the height and the non-blank text runs of page i. *)
Theorem extractor_all_or_nothing (E : env) (pdf_bytes : string) (w : world) :
  exists pages_data w',
    PdfProcessor.extract_pdf_data E pdf_bytes w = (Ok pages_data, w')
    /\ (pages_data = []
        \/ (length pages_data = length (parse_pdf E pdf_bytes)
            /\ forall i page,
                 parse_pdf E pdf_bytes !! i = Some page ->
                 pages_data !! i
                 = Some {| PdfProcessor.page_num := i;
                           PdfProcessor.page_width := rect_width page;
                           PdfProcessor.page_height := rect_height page;
                           PdfProcessor.text_blocks :=
                             map recorded (List.filter nonblank (all_spans page)) |})).
Proof.
  destruct (extract_all_or_nothing E pdf_bytes w) as (pages & w' & Hrun & Hpages).
  exists pages, w'. split; [done|]. destruct Hpages as [-> | ->]; [by left|].
  right. split.
  - rewrite length_zip_with, length_seq. lia.
  - intros i page Hpage. rewrite zip_with_seq_lookup, Hpage.
    cbn [fmap option_fmap option_map Nat.add]. f_equal.
    rewrite <- (extract_page_blocks i page). reflexivity.
Qed.

(** A failure in the middle of the loop: the first page was read, the text
    of the second cannot be, and no page is returned. *)
Example torn_document_gives_no_pages :
  PdfProcessor.extract_pdf_data torn_reader "%PDF" empty_world
  = (Ok [],
     extend [returned (FitzOpenStream "%PDF"); returned PageCount;
             returned (LoadPage 0); returned (PageRect 0); returned (GetText 0);
             returned (LoadPage 1); returned (PageRect 1);
             Called (GetText 1) (Some (LibraryError 3));
             StError "Error extracting PDF data: " (LibraryError 3)] empty_world).
Proof. vm_compute. reflexivity. Qed.

(** X13: when the library cannot open the document, the extractor returns the
    empty list and shows the error once; nothing else happens. *)
Theorem unreadable_document_gives_no_pages (E : env) (pdf_bytes : string)
    (w : world) (e : exn) :
  raises E (log w) (FitzOpenStream pdf_bytes) = Some e ->
  PdfProcessor.extract_pdf_data E pdf_bytes w
  = (Ok [],
     extend [Called (FitzOpenStream pdf_bytes) (Some e);
             StError "Error extracting PDF data: " e] w).
Proof.
  intros Hopen. unfold PdfProcessor.extract_pdf_data, try_except.
  rewrite bind_run. unfold call_lib. rewrite Hopen.
  rewrite bind_run. unfold emit, extend, record. cbn. by rewrite <- app_assoc.
Qed.

(** A library that cannot open anything. *)
Lemma unreadable_document_gives_no_pages_witness :
  PdfProcessor.extract_pdf_data no_reader "not a pdf" empty_world
  = (Ok [],
     extend [Called (FitzOpenStream "not a pdf") (Some (LibraryError 2));
             StError "Error extracting PDF data: " (LibraryError 2)] empty_world).
Proof.
  apply (unreadable_document_gives_no_pages no_reader "not a pdf" empty_world
           (LibraryError 2)).
  reflexivity.
Defined.

(** X14: on what the extractor returns, the statistics count no more spans than
    characters: every recorded span has at least one character. *)
Theorem statistics_of_extracted_document (E : env) (pdf_bytes : string)
    (w w' : world) (pages_data : list PdfProcessor.page_data) :
  PdfProcessor.extract_pdf_data E pdf_bytes w = (Ok pages_data, w') ->
  exists pages blocks characters,
    PdfText.get_pdf_statistics pages_data
    = dict [("total_pages", VInt (Z.of_nat pages));
            ("total_text_blocks", VInt (Z.of_nat blocks));
            ("total_characters", VInt (Z.of_nat characters))]
    /\ pages = length pages_data
    /\ (blocks <= characters)%nat.
Proof.
  intros Hrun.
  exists (PdfText.total_pages pages_data), (PdfText.total_text_blocks pages_data),
    (PdfText.total_characters pages_data).
  split; [done|]. split; [done|]. apply statistics_le.
  destruct (extract_all_or_nothing E pdf_bytes w) as (pages & w1 & Hrun' & Hpages).
  rewrite Hrun in Hrun'. injection Hrun' as -> _.
  destruct Hpages as [-> | ->]; [constructor | apply extracted_pages_nonempty].
Qed.

Lemma statistics_of_extracted_document_witness :
  exists pages blocks characters,
    PdfText.get_pdf_statistics
      [PdfProcessor.extract_page 0 (sample_document_page 0);
       PdfProcessor.extract_page 1 (sample_document_page 1)]
    = dict [("total_pages", VInt (Z.of_nat pages));
            ("total_text_blocks", VInt (Z.of_nat blocks));
            ("total_characters", VInt (Z.of_nat characters))]
    /\ pages = length [PdfProcessor.extract_page 0 (sample_document_page 0);
                       PdfProcessor.extract_page 1 (sample_document_page 1)]
    /\ (blocks <= characters)%nat.
Proof.
  apply (statistics_of_extracted_document sample_reader "%PDF" empty_world
           (PdfProcessor.extract_pdf_data sample_reader "%PDF" empty_world).2).
  reflexivity.
Defined.

Section StripFacts.

Lemma rstrip_idempotent s : PyStr.rstrip (PyStr.rstrip s) = PyStr.rstrip s.
Proof.
  induction s as [|c s IH]; [done|]. cbn [PyStr.rstrip].
  destruct (PyStr.isspace c && PyStr.is_empty (PyStr.rstrip s)) eqn:Hc; [done|].
  cbn [PyStr.rstrip]. by rewrite IH, Hc.
Qed.

(** What [lstrip] leaves is empty or starts with a character that is no
    whitespace. *)
Lemma lstrip_head s :
  PyStr.lstrip s = ""
  \/ exists c rest, PyStr.lstrip s = String c rest /\ PyStr.isspace c = false.
Proof.
  induction s as [|c s IH]; [by left|]. cbn [PyStr.lstrip].
  destruct (PyStr.isspace c) eqn:Hc; [done|]. right. eauto.
Qed.

Lemma strip_head s :
  PyStr.strip s = ""
  \/ exists c rest, PyStr.strip s = String c rest /\ PyStr.isspace c = false.
Proof.
  unfold PyStr.strip. destruct (lstrip_head s) as [-> | (c & rest & -> & Hc)];
    [by left|].
  right. cbn [PyStr.rstrip]. rewrite Hc. cbn. eauto.
Qed.

Lemma lstrip_strip s : PyStr.lstrip (PyStr.strip s) = PyStr.strip s.
Proof.
  destruct (strip_head s) as [-> | (c & rest & -> & Hc)]; [done|].
  cbn. by rewrite Hc.
Qed.

(** Stripping twice is stripping once. *)
Lemma strip_idempotent s : PyStr.strip (PyStr.strip s) = PyStr.strip s.
Proof.
  unfold PyStr.strip at 1. rewrite lstrip_strip.
  unfold PyStr.strip. apply rstrip_idempotent.
Qed.

End StripFacts.

(** X15: the plain-text extractor never raises and always returns a trimmed
    text: for every behaviour of the reader, the result is a string that
    stripping leaves as it is -- the stripped text of all pages, or the
    fixed message when the reader or a page raises. *)
Theorem simple_text_is_trimmed (reader : res (list (res string))) (w : world) :
  exists text w',
    PdfText.extract_simple_text reader w = (Ok text, w')
    /\ PyStr.strip text = text.
Proof.
  unfold PdfText.extract_simple_text. apply try_except_post.
  - intros text w' Hbody.
    apply bind_ok_inv in Hbody as (pages & w1 & _ & Hbody).
    apply bind_ok_inv in Hbody as (joined & w2 & _ & [= <- _]).
    apply strip_idempotent.
  - intros e w1. rewrite bind_run. cbn. eauto.
Qed.

(** X16: one page that cannot be read spoils the whole text: when a page raises,
    the text of the pages before it is dropped, the pages after it are not
    read, and the result is the fixed message, with the error shown once. *)
Theorem unreadable_page_spoils_the_text
    (before : list string) (after : list (res string)) (e : exn) (w : world) :
  PdfText.extract_simple_text (Ok (map Ok before ++ Raise e :: after)) w
  = (Ok "Error extracting text from PDF",
     extend [StError "Error extracting text: " e] w).
Proof.
  unfold PdfText.extract_simple_text, try_except. rewrite !bind_run. unfold lift.
  assert (Hjoin : forall text,
            PdfText.join_pages (map Ok before ++ Raise e :: after) text = Raise e).
  { induction before as [|t before IH]; intros text; [done|]. cbn. apply IH. }
  rewrite Hjoin. rewrite bind_run. done.
Qed.

(** ** The edit proposer *)

(** X17: whatever the model answers and whatever fails, the proposer returns and
    does not raise; its result is the parsed response, the Edit Set of the
    fallback heuristic, or the error result. *)
Theorem proposer_never_raises (E : env)
    (original_text modification_query : string) (debug_mode : bool) (w : world) :
  exists result w',
    GeminiClient.get_llm_modifications E original_text modification_query debug_mode w
    = (Ok result, w')
    /\ (json_loads E
          (GeminiClient.clean_response
             (response_text E
                (GeminiClient.build_prompt original_text modification_query)))
        = Ok result
        \/ Utils.create_fallback_modification original_text modification_query
           = Ok result
        \/ result = GeminiClient.ERROR_RESULT).
Proof.
  unfold GeminiClient.get_llm_modifications. apply try_except_post.
  - cbv zeta. intros result w' Hbody.
    apply bind_ok_inv in Hbody as ([] & w1 & _ & Hbody).
    apply bind_ok_inv in Hbody as ([] & w2 & _ & Hbody).
    apply bind_ok_inv in Hbody as (text & w3 & Htext & Hbody).
    unfold GeminiClient.read_text in Htext.
    apply bind_ok_inv in Htext as ([] & w4 & _ & [= <- _]).
    unfold GeminiClient.try_except_json, lift at 1 in Hbody.
    destruct (json_loads E _) as [v|e] eqn:Hjson.
    { injection Hbody as -> _. by left. }
    destruct e; try discriminate.
    apply bind_ok_inv in Hbody as ([] & w5 & _ & Hbody).
    apply lift_ok_inv in Hbody. right. by left.
  - intros e w1. rewrite bind_run. cbn. eauto 6.
Qed.

(** X18: a response that parses is returned as it is, whatever it is: there is
    no check that it is an object or that it has modifications. *)
Theorem parsed_response_is_returned_verbatim (E : env)
    (original_text modification_query : string) (debug_mode : bool) (w : world)
    (v : value) :
  reliable E ->
  json_loads E
    (GeminiClient.clean_response
       (response_text E (GeminiClient.build_prompt original_text modification_query)))
  = Ok v ->
  (GeminiClient.get_llm_modifications E original_text modification_query
     debug_mode w).1 = Ok v.
Proof.
  intros HE Hjson.
  unfold GeminiClient.get_llm_modifications, try_except, GeminiClient.read_text.
  cbv zeta. rewrite bind_run, call_lib_reliable by done.
  destruct debug_mode;
    repeat (rewrite bind_run; unfold emit, mret, M_ret; cbv beta iota;
            rewrite ?call_lib_reliable by done);
    unfold GeminiClient.try_except_json, lift; by rewrite Hjson.
Qed.

Lemma parsed_response_is_returned_verbatim_witness :
  (GeminiClient.get_llm_modifications array_model "Total budget: 40"
     "highlight the budget" true empty_world).1
  = Ok (VList [VStr "highlight"; VInt 3]).
Proof.
  apply (parsed_response_is_returned_verbatim array_model "Total budget: 40"
           "highlight the budget" true empty_world (VList [VStr "highlight"; VInt 3])).
  - intros h c. reflexivity.
  - reflexivity.
Defined.

(** X19: when the call of the model fails, the fallback heuristic is not tried:
    the result is the error result, with an empty list of modifications,
    and the error is shown once. *)
Theorem model_failure_gives_error_result_only (E : env)
    (original_text modification_query : string) (debug_mode : bool) (w : world)
    (e : exn) :
  raises E (log w)
    (GenerateContent (GeminiClient.build_prompt original_text modification_query))
  = Some e ->
  GeminiClient.get_llm_modifications E original_text modification_query debug_mode w
  = (Ok (dict [("modifications", VList []); ("summary", VStr "Error occurred")]),
     extend
       [Called (GenerateContent
                  (GeminiClient.build_prompt original_text modification_query))
               (Some e);
        StError "Error getting LLM modifications: " e] w).
Proof.
  intros Hfail. unfold GeminiClient.get_llm_modifications, try_except.
  cbv zeta. rewrite bind_run. unfold call_lib. rewrite Hfail.
  rewrite bind_run. unfold emit, extend, record. cbn. by rewrite <- app_assoc.
Qed.

Lemma model_failure_gives_error_result_only_witness :
  GeminiClient.get_llm_modifications no_model "Total budget: 40"
    "highlight the budget" true empty_world
  = (Ok (dict [("modifications", VList []); ("summary", VStr "Error occurred")]),
     extend
       [Called (GenerateContent
                  (GeminiClient.build_prompt "Total budget: 40" "highlight the budget"))
               (Some (LibraryError 503));
        StError "Error getting LLM modifications: " (LibraryError 503)] empty_world).
Proof.
  apply (model_failure_gives_error_result_only no_model "Total budget: 40"
           "highlight the budget" true empty_world (LibraryError 503)).
  reflexivity.
Defined.

Section Fence.

Lemma slice_from_append s t : PyStr.slice_from (String.length s) (s +:+ t) = t.
Proof.
  induction s as [|c s IH]; [by destruct t|]. rewrite append_cons. cbn. apply IH.
Qed.

Lemma slice_to_append s t : PyStr.slice_to (String.length s) (s +:+ t) = s.
Proof.
  induction s as [|c s IH]; [by destruct t|]. rewrite append_cons. cbn. by rewrite IH.
Qed.

Lemma endswith_append s t : PyStr.endswith (s +:+ t) t = true.
Proof.
  unfold PyStr.endswith. rewrite length_append.
  replace (String.length s + String.length t - String.length t)%nat
    with (String.length s) by lia.
  rewrite slice_from_append, String.eqb_refl, andb_true_r.
  apply Nat.leb_le. lia.
Qed.

Lemma slice_to_neg_append s t :
  PyStr.slice_to_neg (String.length t) (s +:+ t) = s.
Proof.
  unfold PyStr.slice_to_neg. rewrite length_append.
  replace (String.length s + String.length t - String.length t)%nat
    with (String.length s) by lia.
  apply slice_to_append.
Qed.

Lemma is_empty_append_fence s : PyStr.is_empty (s +:+ "```") = false.
Proof. by destruct s. Qed.

Lemma rstrip_append_fence s : PyStr.rstrip (s +:+ "```") = s +:+ "```".
Proof.
  induction s as [|c s IH]; [done|]. rewrite append_cons. cbn [PyStr.rstrip].
  by rewrite IH, is_empty_append_fence, andb_false_r.
Qed.

Lemma strip_json_fence body :
  PyStr.strip ("```json" +:+ body +:+ "```") = "```json" +:+ body +:+ "```".
Proof.
  unfold PyStr.strip.
  change (PyStr.lstrip ("```json" +:+ body +:+ "```"))
    with ("```json" +:+ body +:+ "```").
  rewrite <- append_assoc. apply rstrip_append_fence.
Qed.

Lemma clean_json_fence body :
  PyStr.startswith (body +:+ "```") "```" = false ->
  GeminiClient.clean_response ("```json" +:+ body +:+ "```") = PyStr.strip body.
Proof.
  intros Hbody. unfold GeminiClient.clean_response. cbv zeta.
  rewrite strip_json_fence, startswith_append.
  change 7%nat with (String.length "```json"). rewrite slice_from_append.
  rewrite Hbody, endswith_append.
  change 3%nat with (String.length "```"). by rewrite slice_to_neg_append.
Qed.

End Fence.

(** X20: unwrapping a code fence: of a response that is a body between
    "```json" and "```", where the body does not itself start with a fence,
    the parser is given the stripped body. *)
Theorem json_fence_is_unwrapped (body : string) :
  PyStr.startswith body "```" = false ->
  GeminiClient.clean_response ("```json" +:+ body +:+ "```") = PyStr.strip body.
Proof.
  intros Hbody.
  destruct body as [|c1 [|c2 [|c3 rest]]].
  - reflexivity.
  - destruct (Ascii.eqb "`" c1) eqn:H1.
    + apply Ascii.eqb_eq in H1 as <-. reflexivity.
    + apply clean_json_fence. rewrite !append_cons. cbn [PyStr.startswith]. by rewrite H1.
  - destruct (Ascii.eqb "`" c1) eqn:H1; [destruct (Ascii.eqb "`" c2) eqn:H2|].
    + apply Ascii.eqb_eq in H1 as <-. apply Ascii.eqb_eq in H2 as <-. reflexivity.
    + apply clean_json_fence. rewrite !append_cons. cbn [PyStr.startswith]. by rewrite H1, H2.
    + apply clean_json_fence. rewrite !append_cons. cbn [PyStr.startswith]. by rewrite H1.
  - apply clean_json_fence. rewrite !append_cons. exact Hbody.
Qed.

Lemma json_fence_is_unwrapped_witness :
  GeminiClient.clean_response
    ("```json" +:+ String "010"%char "{}  " +:+ "```")
  = PyStr.strip (String "010"%char "{}  ").
Proof.
  apply (json_fence_is_unwrapped (String "010"%char "{}  ")). reflexivity.
Defined.

(** ** The choice of the model *)

Section ModelChoice.
Import GeminiSetup.

Lemma try_models_find G api_key names :
  try_models G api_key names
  = List.find
      (fun name => match generative_model G api_key name with
                   | None => true
                   | Some _ => false
                   end)
      names.
Proof.
  induction names as [|name names IH]; [done|]. cbn.
  by destruct (generative_model G api_key name).
Qed.

End ModelChoice.

(** X21: once the key is set, the configuration commits to the first model name
    of the list, in list order, for which a model can be made, without
    calling the model; when none can be made it raises an exception that
    lists the names. *)
Theorem configuration_commits_to_first_model (G : GeminiSetup.genai) (api_key : string) :
  GeminiSetup.configure G api_key = None ->
  GeminiSetup.configure_gemini G api_key
  = match List.find
            (fun name => match GeminiSetup.generative_model G api_key name with
                         | None => true
                         | Some _ => false
                         end)
            ["gemini-2.5-flash"; "gemini-2.5-flash-lite"; "gemini-2.5-pro";
             "gemini-2.0-flash"; "gemini-2.0-flash-lite"; "gemini-1.5-pro";
             "gemini-pro"]
    with
    | Some model => Ok model
    | None =>
        Raise (Exception_
                 "None of the model names worked. Tried: ['gemini-2.5-flash', 'gemini-2.5-flash-lite', 'gemini-2.5-pro', 'gemini-2.0-flash', 'gemini-2.0-flash-lite', 'gemini-1.5-pro', 'gemini-pro']")
    end.
Proof.
  intros Hkey. unfold GeminiSetup.configure_gemini. rewrite Hkey, try_models_find.
  reflexivity.
Qed.

Lemma configuration_commits_to_first_model_witness :
  GeminiSetup.configure_gemini only_old_models "k"
  = match List.find
            (fun name => match GeminiSetup.generative_model only_old_models "k" name with
                         | None => true
                         | Some _ => false
                         end)
            ["gemini-2.5-flash"; "gemini-2.5-flash-lite"; "gemini-2.5-pro";
             "gemini-2.0-flash"; "gemini-2.0-flash-lite"; "gemini-1.5-pro";
             "gemini-pro"]
    with
    | Some model => Ok model
    | None =>
        Raise (Exception_
                 "None of the model names worked. Tried: ['gemini-2.5-flash', 'gemini-2.5-flash-lite', 'gemini-2.5-pro', 'gemini-2.0-flash', 'gemini-2.0-flash-lite', 'gemini-1.5-pro', 'gemini-pro']")
    end.
Proof.
  apply (configuration_commits_to_first_model only_old_models "k"). reflexivity.
Defined.

(** X22: the connection test never raises; it answers True exactly when the
    configuration returns a model, and then shows nothing. *)
Theorem connection_test_reflects_configuration (G : GeminiSetup.genai)
    (api_key : string) (w : world) :
  exists answer w',
    GeminiSetup.test_api_connection G api_key w = (Ok answer, w')
    /\ (answer = true <-> exists model, GeminiSetup.configure_gemini G api_key = Ok model)
    /\ (answer = true -> w' = w).
Proof.
  unfold GeminiSetup.test_api_connection, try_except. rewrite bind_run. unfold lift.
  destruct (GeminiSetup.configure_gemini G api_key) as [model|e].
  - exists true, w. split; [done|]. split; [|done]. split; eauto.
  - rewrite bind_run. eexists false, _. split; [reflexivity|].
    split; [|done]. split; [done|]. by intros [model Hm].
Qed.

(** ** The key check, the display text and the time stamp *)

(** X23: the key check only measures the key: it answers True exactly when
    the key has at least 20 characters, so its test for the empty key adds
    nothing, and neither does the test for the empty key that the sidebar
    makes before it. *)
Theorem api_key_is_only_measured (api_key : string) :
  (UtilsMore.validate_api_key api_key = true <-> (20 <= String.length api_key)%nat)
  /\ App.key_accepted api_key = UtilsMore.validate_api_key api_key.
Proof.
  unfold App.key_accepted, UtilsMore.validate_api_key.
  destruct api_key as [|c rest]; cbn [PyStr.is_empty negb andb].
  - split; [|done]. cbn. split; [done | lia].
  - split; [|done].
    destruct (String.length (String c rest) <? 20)%nat eqn:Hlen.
    + apply Nat.ltb_lt in Hlen. split; [done | lia].
    + apply Nat.ltb_ge in Hlen. split; [lia | done].
Qed.

Section DisplayText.
Import UtilsMore.

Lemma length_slice_to n s : (String.length (PyStr.slice_to n s) <= n)%nat.
Proof.
  revert s. induction n as [|n IH]; intros s; [cbn; lia|].
  destruct s as [|c s]; cbn; [lia|]. specialize (IH s). lia.
Qed.

Lemma collapse_spaced s :
  spaced true (collapse_spaces true s) = true
  /\ spaced false (collapse_spaces false s) = true.
Proof.
  induction s as [|c s [IH1 IH2]]; [done|]. cbn [collapse_spaces].
  destruct (PyStr.isspace c) eqn:Hc.
  - split; [done|]. cbn [spaced].
    change (PyStr.isspace " ") with true. cbv iota. by rewrite IH1.
  - cbn [spaced]. by rewrite Hc.
Qed.

Lemma collapse_strip_spaced text :
  spaced true (collapse_spaces false (PyStr.strip text)) = true.
Proof.
  destruct (strip_head text) as [-> | (c & rest & -> & Hc)]; [done|].
  cbn [collapse_spaces]. rewrite Hc. cbn [spaced]. rewrite Hc.
  apply collapse_spaced.
Qed.

Lemma spaced_slice_to n : forall s after,
  spaced after s = true -> spaced after (PyStr.slice_to n s) = true.
Proof.
  induction n as [|n IH]; intros s after H; [done|].
  destruct s as [|c s]; [done|]. cbn [PyStr.slice_to spaced] in *.
  destruct (PyStr.isspace c).
  - apply andb_prop in H as [H1 H2]. rewrite H1. by apply IH.
  - by apply IH.
Qed.

Lemma spaced_append_dots s : forall after,
  spaced after s = true -> spaced after (s +:+ "...") = true.
Proof.
  induction s as [|c s IH]; intros after H; [by destruct after|].
  rewrite append_cons. cbn [spaced] in *. destruct (PyStr.isspace c).
  - apply andb_prop in H as [H1 H2]. rewrite H1. by apply IH.
  - by apply IH.
Qed.

End DisplayText.

(** X24: the display text of a non-empty text is at most three characters
    longer than the limit: for a limit that is not negative the result has
    at most [max_length + 3] characters. *)
Theorem display_text_is_bounded (text : string) (max_length : Z) :
  text <> "" ->
  (0 <= max_length)%Z ->
  (Z.of_nat (String.length (UtilsMore.clean_text_for_display text max_length))
   <= max_length + 3)%Z.
Proof.
  intros Hne Hmax. unfold UtilsMore.clean_text_for_display.
  rewrite (is_empty_false _ Hne). cbv zeta.
  destruct (max_length <? _)%Z eqn:Hlen.
  - rewrite length_append. unfold UtilsMore.slice_to_int.
    replace (0 <=? max_length)%Z with true by (symmetry; by apply Z.leb_le).
    pose proof (length_slice_to (Z.to_nat max_length)
                  (UtilsMore.collapse_spaces false (PyStr.strip text))).
    cbn [String.length]. lia.
  - apply Z.ltb_ge in Hlen. lia.
Qed.

Lemma display_text_is_bounded_witness :
  (Z.of_nat (String.length (UtilsMore.clean_text_for_display "  a   long   text  " 5))
   <= 5 + 3)%Z.
Proof.
  apply (display_text_is_bounded "  a   long   text  " 5); [discriminate | lia].
Defined.

(** X25: the display text of a non-empty text has its whitespace normalised,
    whatever the limit: it does not start with whitespace, it has no two
    whitespace characters in a row, and its only whitespace is the space. *)
Theorem display_text_is_single_spaced (text : string) (max_length : Z) :
  text <> "" ->
  spaced true (UtilsMore.clean_text_for_display text max_length) = true.
Proof.
  intros Hne. unfold UtilsMore.clean_text_for_display.
  rewrite (is_empty_false _ Hne). cbv zeta.
  destruct (max_length <? _)%Z; [|apply collapse_strip_spaced].
  apply spaced_append_dots. unfold UtilsMore.slice_to_int, PyStr.slice_to_neg.
  destruct (0 <=? max_length)%Z; apply spaced_slice_to, collapse_strip_spaced.
Qed.

Lemma display_text_is_single_spaced_witness :
  spaced true (UtilsMore.clean_text_for_display
                 (String "009"%char " a " +:+ String "010"%char "  long   text ") 6)
  = true.
Proof.
  apply (display_text_is_single_spaced
           (String "009"%char " a " +:+ String "010"%char "  long   text ") 6).
  discriminate.
Defined.

Section TimeStamp.
Import UtilsMore.

Lemma digit_inj a b : digit a = digit b -> a mod 10 = b mod 10.
Proof.
  unfold digit. intros H. apply (f_equal nat_of_ascii) in H.
  pose proof (Nat.mod_upper_bound a 10). pose proof (Nat.mod_upper_bound b 10).
  rewrite !nat_ascii_embedding in H by lia. lia.
Qed.

Lemma two_digits_inj a b :
  (a < 100)%nat -> (b < 100)%nat -> two_digits a = two_digits b -> a = b.
Proof.
  intros Ha Hb H. unfold two_digits in H. injection H as H1 H0.
  apply digit_inj in H1, H0.
  pose proof (Nat.div_mod_eq a 10). pose proof (Nat.div_mod_eq b 10).
  assert (a / 10 < 10)%nat by (apply Nat.Div0.div_lt_upper_bound; lia).
  assert (b / 10 < 10)%nat by (apply Nat.Div0.div_lt_upper_bound; lia).
  rewrite (Nat.mod_small (a / 10)), (Nat.mod_small (b / 10)) in H1 by lia.
  lia.
Qed.

Lemma four_digits_inj a b :
  (a < 10 * 1000)%nat -> (b < 10 * 1000)%nat -> four_digits a = four_digits b -> a = b.
Proof.
  intros Ha Hb H. unfold four_digits, two_digits in H. injection H as H3 H2 H1 H0.
  apply digit_inj in H3, H2, H1, H0.
  assert (Hdigits : forall n, (n < 10 * 1000)%nat ->
            n = (1000 * (n / 1000) + 100 * ((n / 100) mod 10)
                 + 10 * ((n / 10) mod 10) + n mod 10)%nat
            /\ (n / 1000 < 10)%nat).
  { intros n Hn.
    assert (E1 : (n / 10 / 10 = n / 100)%nat) by (by rewrite Nat.Div0.div_div).
    assert (E2 : (n / 100 / 10 = n / 1000)%nat) by (by rewrite Nat.Div0.div_div).
    pose proof (Nat.div_mod_eq n 10) as D0.
    pose proof (Nat.div_mod_eq (n / 10) 10) as D1.
    pose proof (Nat.div_mod_eq (n / 100) 10) as D2.
    rewrite E1 in D1. rewrite E2 in D2.
    split; [lia|]. apply Nat.Div0.div_lt_upper_bound. lia. }
  destruct (Hdigits a Ha) as [Da La]. destruct (Hdigits b Hb) as [Db Lb].
  rewrite (Nat.mod_small (a / 1000)), (Nat.mod_small (b / 1000)) in H3 by lia.
  change ((Nat.divmod a 99 0 99).1) with (a / 100)%nat in H2.
  change ((Nat.divmod b 99 0 99).1) with (b / 100)%nat in H2.
  change ((Nat.divmod a 9 0 9).1) with (a / 10)%nat in H1.
  change ((Nat.divmod b 9 0 9).1) with (b / 10)%nat in H1.
  lia.
Qed.

Lemma append_inj s1 s2 t1 t2 :
  String.length s1 = String.length s2 ->
  s1 +:+ t1 = s2 +:+ t2 -> s1 = s2 /\ t1 = t2.
Proof.
  revert s2. induction s1 as [|c s1 IH]; intros [|c2 s2] Hlen H; try discriminate.
  - done.
  - rewrite !append_cons in H. injection H as -> H. injection Hlen as Hlen.
    destruct (IH s2 Hlen H) as [-> ->]. done.
Qed.

End TimeStamp.

(** X26: the time stamp has fifteen characters, and for dates of a four-digit
    year it tells the second and nothing more: two date-times give the same
    stamp exactly when they agree up to the second, whatever their
    microseconds. *)
Theorem time_stamp_tells_the_second (a b : UtilsMore.datetime) :
  valid_datetime a -> valid_datetime b ->
  String.length (UtilsMore.get_timestamp a) = 15%nat
  /\ (UtilsMore.get_timestamp a = UtilsMore.get_timestamp b <-> same_second a b).
Proof.
  intros (Hya & Hma & Hda & Hha & Hmia & Hsa) (Hyb & Hmb & Hdb & Hhb & Hmib & Hsb).
  split; [reflexivity|]. split.
  - intros H. unfold UtilsMore.get_timestamp in H.
    apply append_inj in H as [Hy H]; [|reflexivity].
    apply append_inj in H as [Hm H]; [|reflexivity].
    apply append_inj in H as [Hd H]; [|reflexivity].
    apply (append_inj "_" "_") in H as [_ H]; [|reflexivity].
    apply append_inj in H as [Hh H]; [|reflexivity].
    apply append_inj in H as [Hmi Hs]; [|reflexivity].
    unfold same_second.
    repeat split;
      first [ apply four_digits_inj; [lia | lia | done]
            | apply two_digits_inj; [lia | lia | done] ].
  - intros (Hy & Hm & Hd & Hh & Hmi & Hs). unfold UtilsMore.get_timestamp.
    by rewrite Hy, Hm, Hd, Hh, Hmi, Hs.
Qed.

Lemma time_stamp_tells_the_second_witness :
  String.length
    (UtilsMore.get_timestamp
       {| UtilsMore.year := 2024; UtilsMore.month := 1; UtilsMore.day := 2;
          UtilsMore.hour := 3; UtilsMore.minute := 4; UtilsMore.second := 5;
          UtilsMore.microsecond := 6 |}) = 15%nat
  /\ (UtilsMore.get_timestamp
        {| UtilsMore.year := 2024; UtilsMore.month := 1; UtilsMore.day := 2;
           UtilsMore.hour := 3; UtilsMore.minute := 4; UtilsMore.second := 5;
           UtilsMore.microsecond := 6 |}
      = UtilsMore.get_timestamp
          {| UtilsMore.year := 2024; UtilsMore.month := 1; UtilsMore.day := 2;
             UtilsMore.hour := 3; UtilsMore.minute := 4; UtilsMore.second := 5;
             UtilsMore.microsecond := 7 |}
      <-> same_second
            {| UtilsMore.year := 2024; UtilsMore.month := 1; UtilsMore.day := 2;
               UtilsMore.hour := 3; UtilsMore.minute := 4; UtilsMore.second := 5;
               UtilsMore.microsecond := 6 |}
            {| UtilsMore.year := 2024; UtilsMore.month := 1; UtilsMore.day := 2;
               UtilsMore.hour := 3; UtilsMore.minute := 4; UtilsMore.second := 5;
               UtilsMore.microsecond := 7 |}).
Proof.
  apply time_stamp_tells_the_second; unfold valid_datetime; cbn; lia.
Defined.

(** ** The names of the downloads and the session state *)

Section FileNames.

(** The extension after a stem starts no earlier occurrence of itself. *)
Lemma no_pdf_across c stem :
  PyStr.startswith (String c stem) ".pdf" = false ->
  PyStr.startswith (String c stem +:+ ".pdf") ".pdf" = false.
Proof.
  intros H. destruct stem as [|c2 [|c3 [|c4 rest]]];
    rewrite ?append_cons; cbn [PyStr.startswith] in *.
  - destruct (Ascii.eqb "." c); reflexivity.
  - destruct (Ascii.eqb "." c); [|reflexivity].
    destruct (Ascii.eqb "p" c2); reflexivity.
  - destruct (Ascii.eqb "." c); [|reflexivity].
    destruct (Ascii.eqb "p" c2); [|reflexivity].
    destruct (Ascii.eqb "d" c3); reflexivity.
  - exact H.
Qed.

Lemma replace_from_extension stem :
  PyStr.contains ".pdf" stem = false ->
  PyStr.replace_from ".pdf" "" 0 (stem +:+ ".pdf") = stem.
Proof.
  induction stem as [|c stem IH]; [done|].
  intros H. apply contains_cons in H as [Hhead Htail].
  rewrite append_cons. cbn [PyStr.replace_from].
  rewrite <- append_cons, (no_pdf_across c stem Hhead).
  by rewrite (IH Htail).
Qed.

End FileNames.

(** X27: for an upload named [stem.pdf] whose stem holds no ".pdf", the edited
    document is offered as [edited_stem_timestamp.pdf] and the original as
    [original_stem.pdf]. *)
Theorem download_names (stem timestamp : string) :
  PyStr.contains ".pdf" stem = false ->
  App.edited_filename (stem +:+ ".pdf") timestamp
  = "edited_" +:+ stem +:+ "_" +:+ timestamp +:+ ".pdf"
  /\ App.original_filename (stem +:+ ".pdf") = "original_" +:+ stem +:+ ".pdf".
Proof.
  intros Hstem. split; [|done]. unfold App.edited_filename, PyStr.replace.
  cbn [PyStr.is_empty]. cbv zeta. by rewrite replace_from_extension.
Qed.

Lemma download_names_witness :
  App.edited_filename ("report" +:+ ".pdf") "20240102_030405"
  = "edited_" +:+ "report" +:+ "_" +:+ "20240102_030405" +:+ ".pdf"
  /\ App.original_filename ("report" +:+ ".pdf") = "original_" +:+ "report" +:+ ".pdf".
Proof. apply (download_names "report" "20240102_030405"). reflexivity. Defined.

(** Every ".pdf" of the name is removed, not only the extension. *)
Example inner_extension_is_removed :
  App.edited_filename "scan.pdf.final.pdf" "20240102_030405"
  = "edited_scan.final_20240102_030405.pdf".
Proof. reflexivity. Qed.

Section SessionState.
Import App.

Lemma set_default_union key v (ss : gmap string value) :
  set_default key v ss = ss ∪ {[ key := v ]}.
Proof.
  unfold set_default. destruct (ss !! key) as [old|] eqn:Hkey.
  - apply map_eq. intros k. rewrite lookup_union.
    destruct (decide (key = k)) as [<-|Hne].
    + rewrite Hkey, lookup_singleton_eq. done.
    + rewrite lookup_singleton_ne by done. by destruct (ss !! k).
  - by apply insert_union_singleton_r.
Qed.

Lemma initialize_union (ss : gmap string value) :
  initialize_session_state ss = ss ∪ SESSION_DEFAULTS.
Proof.
  unfold initialize_session_state, SESSION_DEFAULTS. cbv zeta.
  rewrite !set_default_union. by rewrite !(assoc_L (∪)).
Qed.

Lemma clear_deletes (ss : gmap string value) :
  clear_all_data ss
  = delete "modified_pdf_bytes"
      (delete "uploaded_file_bytes" (delete "modifications" (delete "pages_data" ss))).
Proof.
  unfold clear_all_data. cbn [foldl].
  assert (Hstep : forall key (m : gmap string value),
            match m !! key with Some _ => delete key m | None => m end = delete key m).
  { intros key m. destruct (m !! key) eqn:Hkey; [done|]. symmetry. by apply delete_id. }
  by rewrite !Hstep.
Qed.

End SessionState.

(** X28: the initialisation only fills what is missing: it leaves the session
    as it is, completed by the defaults of the five keys; it never
    overwrites a value, and running it again changes nothing. *)
Theorem initialisation_fills_what_is_missing (ss : gmap string value) :
  App.initialize_session_state ss = ss ∪ SESSION_DEFAULTS
  /\ (forall key v, ss !! key = Some v ->
        App.initialize_session_state ss !! key = Some v)
  /\ App.initialize_session_state (App.initialize_session_state ss)
     = App.initialize_session_state ss.
Proof.
  split; [apply initialize_union|]. split.
  - intros key v Hkey. rewrite initialize_union, lookup_union, Hkey.
    by destruct (SESSION_DEFAULTS !! key).
  - rewrite !initialize_union. rewrite <- (assoc_L (∪)). by f_equal.
Qed.

(** X29: "Clear All Data" followed by the initialisation of the next run puts
    the four keys of the document back to their defaults and leaves every
    other key, the model among them, as an initialisation alone would. *)
Theorem clearing_resets_the_document_only (ss : gmap string value) (key : string) :
  App.initialize_session_state (App.clear_all_data ss) !! key
  = if bool_decide (key ∈ DOCUMENT_KEYS)
    then SESSION_DEFAULTS !! key
    else App.initialize_session_state ss !! key.
Proof.
  rewrite clear_deletes, !initialize_union.
  destruct (bool_decide (key ∈ DOCUMENT_KEYS)) eqn:Hin.
  - apply bool_decide_eq_true_1 in Hin. unfold DOCUMENT_KEYS in Hin.
    rewrite !elem_of_cons, elem_of_nil in Hin.
    destruct Hin as [-> | [-> | [-> | [-> | []]]]];
      rewrite lookup_union, !lookup_delete; reflexivity.
  - apply bool_decide_eq_false_1 in Hin. unfold DOCUMENT_KEYS in Hin.
    rewrite !not_elem_of_cons in Hin. destruct Hin as (N1 & N2 & N3 & N4 & _).
    rewrite lookup_union, !lookup_delete_ne by done. by rewrite lookup_union.
Qed.
